(** * The repository wizard of the Daytona CLI, and the branch service

    A shallow embedding of

    - [pkg/cmd/workspace/util/repository_wizard.go]: the pagination quirk
      predicate [isGitProviderWithUnsupportedPagination] and the interactive
      wizard [getRepositoryFromWizard];
    - [pkg/server/gitproviders/branches.go]: [GetRepoBranches].

    The wizard talks to an API client and to terminal prompts.  Both are
    outside the two files, so they are collected in a record of collaborators
    ([Env]); every call to one of them is recorded, with its arguments and its
    answer, in a history of events.  A collaborator sees the history so far,
    so it may answer the same question differently each time it is asked. *)

From Stdlib Require Import ZArith List Bool Lia Sorted Ascii.
From Stdlib Require DecimalString DecimalPos DecimalZ.
From stdpp Require Import base strings gmap.
Import ListNotations.

Local Open Scope Z_scope.
Local Open Scope string_scope.

(** ** Go values *)

(** Go's [error] values.  [ErrCtrlCAbort] is the package-level sentinel of
    [pkg/common], compared by identity; [errorString] is what [errors.New] and
    the API client produce; [wrapError prefix err] is
    [fmt.Errorf(prefix + "%w", err)]. *)
Inductive error : Type :=
| ErrCtrlCAbort
| errorString (s : string)
| wrapError (prefix : string) (err : error).

(** [err.Error()].  The text of the sentinel is declared outside the two
    files and is taken as an argument. *)
Fixpoint Error (abortText : string) (e : error) : string :=
  match e with
  | ErrCtrlCAbort => abortText
  | errorString s => s
  | wrapError prefix err => prefix ++ Error abortText err
  end.

(** [errors.Unwrap]. *)
Definition Unwrap (e : error) : option error :=
  match e with
  | wrapError _ err => Some err
  | _ => None
  end.

(** [int32] arithmetic: the result of an operation is reduced to the
    two's-complement range. *)
Definition wrap32 (z : Z) : Z := (z + 2147483648) mod 4294967296 - 2147483648.

Definition int32_max : Z := 2147483647.

(** ** The pagination quirk predicate *)

Definition isGitProviderWithUnsupportedPagination (providerId : string)
  : bool :=
  if String.eqb providerId "azure-devops" then true
  else if String.eqb providerId "bitbucket" then true
  else if String.eqb providerId "gitness" then true
  else if String.eqb providerId "aws-codecommit" then true
  else false.

(** The test of the namespace loop (line 141) and the test of the repository
    loop (line 195). *)
Definition namespacePaginationDisabled (providerId : string) : bool :=
  isGitProviderWithUnsupportedPagination providerId.

Definition repositoryPaginationDisabled (providerId : string) : bool :=
  isGitProviderWithUnsupportedPagination providerId
  && negb (String.eqb providerId "bitbucket").

(** ** Data of the API client and of the views *)

Module GitProvider.
(** [apiclient.GitProvider], the fields the wizard reads. *)
Record t : Type := mk
  { Id : string; ProviderId : string; Username : string; Alias : string }.
End GitProvider.

Module SupportedGitProvider.
(** An entry of [config_const.GetSupportedGitProviders()]. *)
Record t : Type := mk { Id : string; Name : string }.
End SupportedGitProvider.

Module GitProviderView.
(** [gitprovider_view.GitProviderView], as built at lines 65-71. *)
Record t : Type := mk
  { Id : string; ProviderId : string; Name : string;
    Username : string; Alias : string }.
End GitProviderView.

Module GitNamespace.
Record t : Type := mk { Id : string; Name : string }.
End GitNamespace.

Module Sample.
Record t : Type := mk { Name : string; GitUrl : string }.
End Sample.

Module GitRepository.
(** Modelled from the spec: [apiclient.GitRepository] is declared in the
    generated API client, outside the two files.  The spec's RepositoryRef
    has a provider kind, a namespace, an id/url and a display name, and an
    optional branch. *)
Record t : Type := mk
  { Id : string; Url : string; Name : string;
    Source : string; Owner : string; Branch : option string }.
End GitRepository.

Module HttpResponse.
(** What [apiclient_util.HandleErrorResponse] may read of the
    [*http.Response]. *)
Record t : Type := mk { StatusCode : Z; Body : string }.
End HttpResponse.

(** [RepositoryWizardConfig] without its [ApiClient], which is part of the
    collaborators. *)
Record RepositoryWizardConfig : Type := mkConfig
  { UserGitProviders : list GitProvider.t;
    Manual : bool;
    MultiProject : bool;
    SkipBranchSelection : bool;
    ProjectOrder : Z;
    SelectedRepos : gmap string Z }.

(** [BranchWizardConfig] as filled at lines 219-227. *)
Record BranchWizardConfig : Type := mkBranchConfig
  { GitProviderConfigId : string;
    NamespaceId : string;
    Namespace : string;
    ChosenRepo : option GitRepository.t;
    BranchProjectOrder : Z;
    ProviderId : string }.

(** What the wizard returns: a repository pointer (possibly nil) and an
    error (possibly nil). *)
Definition Result : Type := (option GitRepository.t * option error)%type.

(** ** Events *)

(** One constructor per call that leaves the wizard; the arguments come
    first, the answer last. *)
Inductive Event : Type :=
| EvListSamples
    (samples : list Sample.t) (res : option HttpResponse.t) (err : option error)
| EvLogDebug (e : error)
| EvUrlInput
    (multiProject : bool) (projectOrder : Z) (selectedRepos : gmap string Z)
    (r : Result)
| EvProviderPrompt
    (views : list GitProviderView.t) (projectOrder : Z)
    (samplesAvailable : bool)
    (answer : string)
| EvSamplePrompt (samples : list Sample.t) (answer : option Sample.t)
| EvGetGitContext
    (url : string)
    (repo : option GitRepository.t) (res : option HttpResponse.t)
    (err : option error)
| EvGetNamespaces
    (providerId : string) (page perPage : Z)
    (namespaces : list GitNamespace.t) (err : option error)
| EvNamespacePrompt
    (namespaceList : list GitNamespace.t) (projectOrder : Z)
    (providerId : string) (isPaginationDisabled : bool) (page perPage : Z)
    (answer : string * string)
| EvGetRepositories
    (providerId namespaceId : string) (page perPage : Z)
    (repos : list GitRepository.t) (err : option error)
| EvRepositoryPrompt
    (providerRepos : list GitRepository.t) (projectOrder : Z)
    (selectedRepos : gmap string Z) (parentIdentifier : string)
    (isPaginationDisabled : bool) (page perPage : Z)
    (answer : option GitRepository.t * string)
| EvSetBranchFromWizard (cfg : BranchWizardConfig) (r : Result).

(** The history of a run, latest event first. *)
Definition History : Type := list Event.

(** The calls of the wizard itself that go to the server. *)
Definition isFetch (e : Event) : bool :=
  match e with
  | EvListSamples _ _ _ | EvGetGitContext _ _ _ _
  | EvGetNamespaces _ _ _ _ _ | EvGetRepositories _ _ _ _ _ _ => true
  | _ => false
  end.

(** ** Collaborators *)

(** Everything the wizard calls that lives outside the file.  Each function
    takes the history at the moment of the call. *)
Record Env : Type := mkEnv
  { ListSamples :
      History -> list Sample.t * option HttpResponse.t * option error;
    HandleErrorResponse : option HttpResponse.t -> error -> error;
    GetSupportedGitProviders : list SupportedGitProvider.t;
    CustomRepoIdentifier : string;
    CREATE_FROM_SAMPLE : string;
    GetRepositoryFromUrlInput :
      History -> bool -> Z -> gmap string Z -> Result;
    GetProviderIdFromPrompt :
      History -> list GitProviderView.t -> Z -> bool -> string;
    GetSampleFromPrompt : History -> list Sample.t -> option Sample.t;
    GetGitContext :
      History -> string ->
      option GitRepository.t * option HttpResponse.t * option error;
    GetNamespaces :
      History -> string -> Z -> Z -> list GitNamespace.t * option error;
    GetNamespaceIdFromPrompt :
      History -> list GitNamespace.t -> Z -> string -> bool -> Z -> Z ->
      string * string;
    GetRepositories :
      History -> string -> string -> Z -> Z ->
      list GitRepository.t * option error;
    GetRepositoryFromPrompt :
      History -> list GitRepository.t -> Z -> gmap string Z -> string ->
      bool -> Z -> Z -> option GitRepository.t * string;
    SetBranchFromWizard : History -> BranchWizardConfig -> Result }.

(** ** The monad of the wizard: state passing over the history *)

Definition Wiz (A : Type) : Type := History -> A * History.

Definition ret {A : Type} (a : A) : Wiz A := fun h => (a, h).

Definition bind {A B : Type} (m : Wiz A) (k : A -> Wiz B) : Wiz B :=
  fun h => let (a, h') := m h in k a h'.

Definition emit (e : Event) : Wiz unit := fun h => (tt, e :: h).

Declare Scope wiz_scope.
Delimit Scope wiz_scope with wiz.
Notation "x <- c1 ;; c2" := (bind c1 (fun x => c2))
  (at level 100, c1 at next level, right associativity) : wiz_scope.
Notation "c1 ;;; c2" := (bind c1 (fun _ => c2))
  (at level 100, right associativity) : wiz_scope.

(** How a pass through a loop body ends. *)
Inductive Step (S R : Type) : Type :=
| Continue (s : S)
| Break (s : S)
| Return (r : R).
Arguments Continue {S R} s.
Arguments Break {S R} s.
Arguments Return {S R} r.

(** A loop is run for a bounded number of passes; [OutOfFuel] tells that the
    bound was reached with the loop still running. *)
Inductive Outcome (A : Type) : Type :=
| Done (a : A)
| OutOfFuel.
Arguments Done {A} a.
Arguments OutOfFuel {A}.

(** ** The wizard *)

(** Modelled from the spec: [views_util.WithSpinner] is declared in
    pkg/views/util, outside the two files.  The spec's loop fetches the
    current page and propagates a failure at once; the helper shows a
    spinner labelled [message] while the callback runs and hands back the
    callback's error.  The callback is a closure over one variable of the
    wizard; it is given the variable's value and returns the new one. *)
Definition WithSpinner {S : Type} (message : string)
    (fn : S -> Wiz (option error * S)) : S -> Wiz (option error * S) :=
  fn.

(** Lines 61-75: one view for every pair of a configured provider and a
    supported provider with the same identifier, appended in loop order. *)
Definition viewOf (gitProvider : GitProvider.t)
    (supportedProvider : SupportedGitProvider.t) : GitProviderView.t :=
  {| GitProviderView.Id := GitProvider.Id gitProvider;
     GitProviderView.ProviderId := GitProvider.ProviderId gitProvider;
     GitProviderView.Name := SupportedGitProvider.Name supportedProvider;
     GitProviderView.Username := GitProvider.Username gitProvider;
     GitProviderView.Alias := GitProvider.Alias gitProvider |}.

Definition buildGitProviderViewList
    (supportedProviders : list SupportedGitProvider.t)
    (userGitProviders : list GitProvider.t) : list GitProviderView.t :=
  fold_left
    (fun gitProviderViewList gitProvider =>
       fold_left
         (fun gitProviderViewList supportedProvider =>
            if String.eqb (GitProvider.ProviderId gitProvider)
                          (SupportedGitProvider.Id supportedProvider)
            then (gitProviderViewList
                  ++ [viewOf gitProvider supportedProvider])%list
            else gitProviderViewList)
         supportedProviders gitProviderViewList)
    userGitProviders [].

(** Lines 103-108: the provider kind of the chosen configuration; the last
    match wins and the zero value is the empty string. *)
Definition lookupProviderId (gitProviderViewList : list GitProviderView.t)
    (gitProviderConfigId : string) : string :=
  fold_left
    (fun providerId gp =>
       if String.eqb (GitProviderView.Id gp) gitProviderConfigId
       then GitProviderView.ProviderId gp else providerId)
    gitProviderViewList EmptyString.

(** Lines 153-157 and 163-167: the name of the chosen namespace. *)
Definition lookupNamespaceName (namespaceList : list GitNamespace.t)
    (namespaceId : string) (namespace : string) : string :=
  fold_left
    (fun namespace namespaceItem =>
       if String.eqb (GitNamespace.Id namespaceItem) namespaceId
       then GitNamespace.Name namespaceItem else namespace)
    namespaceList namespace.

(** The variables of the namespace loop. *)
Record NamespaceVars : Type := mkNamespaceVars
  { ns_page : Z;
    namespaceList : list GitNamespace.t;
    namespaceId : string;
    namespace : string;
    ns_navigate : string;
    isOnlySingleNamespaceAvailable : bool }.

(** The variables of the repository loop. *)
Record RepositoryVars : Type := mkRepositoryVars
  { repo_page : Z;
    providerRepos : list GitRepository.t;
    chosenRepo : option GitRepository.t;
    repo_navigate : string }.

Section Wizard.

Variable env : Env.
Variable config : RepositoryWizardConfig.

Local Open Scope wiz_scope.

(** *** Calls to the collaborators, each leaving its event *)

Definition callListSamples
  : Wiz (list Sample.t * option HttpResponse.t * option error) :=
  fun h =>
    let r := ListSamples env h in
    (r, EvListSamples (fst (fst r)) (snd (fst r)) (snd r) :: h).

(** Lines 54 and 83.  [GetRepositoryFromUrlInput] is handed
    [config.ApiClient] as well: what it asks of the server is its own
    business and leaves no event of the wizard. *)
Definition callUrlInput : Wiz Result :=
  fun h =>
    let r := GetRepositoryFromUrlInput env h (MultiProject config)
               (ProjectOrder config) (SelectedRepos config) in
    (r, EvUrlInput (MultiProject config) (ProjectOrder config)
          (SelectedRepos config) r :: h).

Definition callProviderPrompt (views : list GitProviderView.t)
    (samplesAvailable : bool) : Wiz string :=
  fun h =>
    let a := GetProviderIdFromPrompt env h views (ProjectOrder config)
               samplesAvailable in
    (a, EvProviderPrompt views (ProjectOrder config) samplesAvailable a :: h).

Definition callSamplePrompt (samples : list Sample.t)
  : Wiz (option Sample.t) :=
  fun h =>
    let a := GetSampleFromPrompt env h samples in
    (a, EvSamplePrompt samples a :: h).

Definition callGetGitContext (url : string)
  : Wiz (option GitRepository.t * option HttpResponse.t * option error) :=
  fun h =>
    let r := GetGitContext env h url in
    (r, EvGetGitContext url (fst (fst r)) (snd (fst r)) (snd r) :: h).

Definition callGetNamespaces (providerId : string) (page perPage : Z)
  : Wiz (list GitNamespace.t * option error) :=
  fun h =>
    let r := GetNamespaces env h providerId page perPage in
    (r, EvGetNamespaces providerId page perPage (fst r) (snd r) :: h).

Definition callNamespacePrompt (namespaceList : list GitNamespace.t)
    (providerId : string) (isPaginationDisabled : bool) (page perPage : Z)
  : Wiz (string * string) :=
  fun h =>
    let a := GetNamespaceIdFromPrompt env h namespaceList
               (ProjectOrder config) providerId isPaginationDisabled
               page perPage in
    (a, EvNamespacePrompt namespaceList (ProjectOrder config) providerId
          isPaginationDisabled page perPage a :: h).

Definition callGetRepositories (providerId namespaceId : string)
    (page perPage : Z) : Wiz (list GitRepository.t * option error) :=
  fun h =>
    let r := GetRepositories env h providerId namespaceId page perPage in
    (r, EvGetRepositories providerId namespaceId page perPage
          (fst r) (snd r) :: h).

Definition callRepositoryPrompt (providerRepos : list GitRepository.t)
    (parentIdentifier : string) (isPaginationDisabled : bool)
    (page perPage : Z) : Wiz (option GitRepository.t * string) :=
  fun h =>
    let a := GetRepositoryFromPrompt env h providerRepos
               (ProjectOrder config) (SelectedRepos config)
               parentIdentifier isPaginationDisabled page perPage in
    (a, EvRepositoryPrompt providerRepos (ProjectOrder config)
          (SelectedRepos config) parentIdentifier isPaginationDisabled
          page perPage a :: h).

Definition callSetBranchFromWizard (cfg : BranchWizardConfig) : Wiz Result :=
  fun h =>
    let r := SetBranchFromWizard env h cfg in
    (r, EvSetBranchFromWizard cfg r :: h).

(** *** The namespace loop, lines 117-168 *)

(** The closure of lines 119-126. *)
Definition loadNamespaces (providerId : string) (page perPage : Z)
    (namespaceList : list GitNamespace.t)
  : Wiz (option error * list GitNamespace.t) :=
  r <- callGetNamespaces providerId page perPage ;;
  match snd r with
  | Some err => ret (Some err, namespaceList)
  | None => ret (None, (namespaceList ++ fst r)%list)
  end.

Definition namespaceIteration (providerId : string) (perPage : Z)
    (v : NamespaceVars) : Wiz (Step NamespaceVars Result) :=
  let page := ns_page v in
  r <- WithSpinner "Loading Namespaces"
         (loadNamespaces providerId page perPage) [] ;;
  let namespaceList := snd r in
  match fst r with
  | Some err => ret (Return (None, Some err))
  | None =>
    match isOnlySingleNamespaceAvailable v, namespaceList with
    | true, [only] =>
      ret (Break (mkNamespaceVars page namespaceList
                    (GitNamespace.Id only) (GitNamespace.Name only)
                    (ns_navigate v) true))
    | _, _ =>
      let isPaginationDisabled := namespacePaginationDisabled providerId in
      a <- callNamespacePrompt namespaceList providerId
             isPaginationDisabled page perPage ;;
      let namespaceId := fst a in
      let navigate := snd a in
      if negb isPaginationDisabled && negb (String.eqb navigate EmptyString)
      then
        if String.eqb navigate "next" then
          ret (Continue (mkNamespaceVars (wrap32 (page + 1)) namespaceList
                           namespaceId (namespace v) navigate false))
        else if String.eqb navigate "prev" && Z.ltb 1 page then
          ret (Continue (mkNamespaceVars (wrap32 (page - 1)) namespaceList
                           namespaceId (namespace v) navigate false))
        else
          (* neither branch continues: lines 163-167 run and the loop
             goes round with the page unchanged *)
          ret (Continue (mkNamespaceVars page namespaceList namespaceId
                           (lookupNamespaceName namespaceList namespaceId
                              (namespace v))
                           navigate false))
      else if negb (String.eqb namespaceId EmptyString) then
        ret (Break (mkNamespaceVars page namespaceList namespaceId
                      (lookupNamespaceName namespaceList namespaceId
                         (namespace v))
                      navigate false))
      else
        ret (Return (None, Some ErrCtrlCAbort))
    end
  end.

Fixpoint namespaceLoop (fuel : nat) (providerId : string) (perPage : Z)
    (v : NamespaceVars) : Wiz (Outcome (NamespaceVars + Result)) :=
  match fuel with
  | O => ret OutOfFuel
  | S fuel' =>
    s <- namespaceIteration providerId perPage v ;;
    match s with
    | Continue v' => namespaceLoop fuel' providerId perPage v'
    | Break v' => ret (Done (inl v'))
    | Return r => ret (Done (inr r))
    end
  end.

(** *** The repository loop, lines 176-213 *)

(** The closure of lines 179-187. *)
Definition loadRepositories (providerId namespaceId : string)
    (page perPage : Z) (providerRepos : list GitRepository.t)
  : Wiz (option error * list GitRepository.t) :=
  r <- callGetRepositories providerId namespaceId page perPage ;;
  match snd r with
  | Some err => ret (Some err, providerRepos)
  | None => ret (None, (providerRepos ++ fst r)%list)
  end.

Definition repositoryIteration (providerId namespaceId : string)
    (parentIdentifier : string) (perPage : Z) (v : RepositoryVars)
  : Wiz (Step RepositoryVars Result) :=
  let page := repo_page v in
  r <- WithSpinner "Loading Repositories"
         (loadRepositories providerId namespaceId page perPage) [] ;;
  let providerRepos := snd r in
  match fst r with
  | Some err => ret (Return (None, Some err))
  | None =>
    let isPaginationDisabled := repositoryPaginationDisabled providerId in
    a <- callRepositoryPrompt providerRepos parentIdentifier
           isPaginationDisabled page perPage ;;
    let chosenRepo := fst a in
    let navigate := snd a in
    if negb isPaginationDisabled && negb (String.eqb navigate EmptyString) then
      if String.eqb navigate "next" then
        ret (Continue (mkRepositoryVars (wrap32 (page + 1)) providerRepos
                         chosenRepo navigate))
      else if String.eqb navigate "prev" && Z.ltb 1 page then
        ret (Continue (mkRepositoryVars (wrap32 (page - 1)) providerRepos
                         chosenRepo navigate))
      else
        (* neither branch continues: the loop goes round with the page
           unchanged *)
        ret (Continue (mkRepositoryVars page providerRepos chosenRepo
                         navigate))
    else
      match chosenRepo with
      | Some _ =>
        ret (Break (mkRepositoryVars page providerRepos chosenRepo navigate))
      | None => ret (Return (None, Some ErrCtrlCAbort))
      end
  end.

Fixpoint repositoryLoop (fuel : nat) (providerId namespaceId : string)
    (parentIdentifier : string) (perPage : Z) (v : RepositoryVars)
  : Wiz (Outcome (RepositoryVars + Result)) :=
  match fuel with
  | O => ret OutOfFuel
  | S fuel' =>
    s <- repositoryIteration providerId namespaceId parentIdentifier
           perPage v ;;
    match s with
    | Continue v' =>
      repositoryLoop fuel' providerId namespaceId parentIdentifier perPage v'
    | Break v' => ret (Done (inl v'))
    | Return r => ret (Done (inr r))
    end
  end.

(** *** The function, lines 41-228 *)

(** Lines 170-227: from the end of the namespace loop on. *)
Definition afterNamespace (fuel : nat)
    (gitProviderConfigId providerId : string) (nv : NamespaceVars)
  : Wiz (Outcome Result) :=
  let page := 1 in
  let perPage := 100 in
  let parentIdentifier := providerId ++ "/" ++ namespace nv in
  o <- repositoryLoop fuel providerId (namespaceId nv) parentIdentifier
         perPage (mkRepositoryVars page [] None (ns_navigate nv)) ;;
  match o with
  | OutOfFuel => ret OutOfFuel
  | Done (inr r) => ret (Done r)
  | Done (inl rv) =>
    if SkipBranchSelection config then ret (Done (chosenRepo rv, None))
    else
      r <- callSetBranchFromWizard
             {| GitProviderConfigId := gitProviderConfigId;
                NamespaceId := namespaceId nv;
                Namespace := namespace nv;
                ChosenRepo := chosenRepo rv;
                BranchProjectOrder := ProjectOrder config;
                ProviderId := providerId |} ;;
      ret (Done r)
  end.

(** Lines 103-227: the provider flow. *)
Definition providerFlow (fuel : nat)
    (gitProviderViewList : list GitProviderView.t)
    (gitProviderConfigId : string) : Wiz (Outcome Result) :=
  let providerId := lookupProviderId gitProviderViewList gitProviderConfigId in
  let page := 1 in
  let perPage := 100 in
  o <- namespaceLoop fuel providerId perPage
         (mkNamespaceVars page [] EmptyString EmptyString EmptyString true) ;;
  match o with
  | OutOfFuel => ret OutOfFuel
  | Done (inr r) => ret (Done r)
  | Done (inl nv) => afterNamespace fuel gitProviderConfigId providerId nv
  end.

(** Lines 53-227: what follows the sample query; only the samples
    themselves are used there. *)
Definition withSamples (fuel : nat) (samples : list Sample.t)
  : Wiz (Outcome Result) :=
  if (Nat.eqb (length (UserGitProviders config)) 0
      && Nat.eqb (length samples) 0) || Manual config
  then
    r <- callUrlInput ;; ret (Done r)
  else
    let supportedProviders := GetSupportedGitProviders env in
    let gitProviderViewList :=
      buildGitProviderViewList supportedProviders (UserGitProviders config) in
    gitProviderConfigId <-
      callProviderPrompt gitProviderViewList (Nat.ltb 0 (length samples)) ;;
    if String.eqb gitProviderConfigId EmptyString then
      ret (Done (None, Some ErrCtrlCAbort))
    else if String.eqb gitProviderConfigId (CustomRepoIdentifier env) then
      r <- callUrlInput ;; ret (Done r)
    else if String.eqb gitProviderConfigId (CREATE_FROM_SAMPLE env) then
      sample <- callSamplePrompt samples ;;
      match sample with
      | None => ret (Done (None, Some ErrCtrlCAbort))
      | Some sample =>
        r <- callGetGitContext (Sample.GitUrl sample) ;;
        match snd r with
        | Some err =>
          ret (Done (None, Some (HandleErrorResponse env (snd (fst r)) err)))
        | None => ret (Done (fst (fst r), None))
        end
      end
    else
      providerFlow fuel gitProviderViewList gitProviderConfigId.

Definition getRepositoryFromWizard (fuel : nat) : Wiz (Outcome Result) :=
  r <- callListSamples ;;
  let samples := fst (fst r) in
  let res := snd (fst r) in
  (match snd r with
   | Some err => emit (EvLogDebug (HandleErrorResponse env res err))
   | None => ret tt
   end) ;;;
  withSamples fuel samples.

End Wizard.

(** ** The branch service, [branches.go] *)

Module GitProviderService.

(** [gitprovider.GitBranch] and [gitprovider.ListOptions]. *)
Record GitBranch : Type := mkGitBranch { Name : string; Sha : string }.
Record ListOptions : Type := mkListOptions { Page : Z; PerPage : Z }.

(** The method of the [gitprovider.GitProvider] interface that is called. *)
Record GitProvider : Type := mkGitProvider
  { ProviderGetRepoBranches :
      string -> string -> ListOptions -> list GitBranch * option error }.

(** The receiver: [GetGitProvider] answers with an interface value
    (possibly nil) and an error (possibly nil). *)
Record t : Type := mk
  { GetGitProvider : string -> option GitProvider * option error }.

(** A call either returns or panics (method call on a nil interface). *)
Inductive Go (A : Type) : Type :=
| Returns (a : A)
| Panics.
Arguments Returns {A} a.
Arguments Panics {A}.

Definition GetRepoBranches (s : t)
    (gitProviderId namespaceId repositoryId : string) (options : ListOptions)
  : Go (list GitBranch * option error) :=
  let (gitProvider, err) := GetGitProvider s gitProviderId in
  match err with
  | Some err =>
    Returns ([], Some (wrapError "failed to get git provider: " err))
  | None =>
    match gitProvider with
    | None => Panics
    | Some gitProvider =>
      let (response, err) :=
        ProviderGetRepoBranches gitProvider repositoryId namespaceId options in
      match err with
      | Some err =>
        Returns ([], Some (wrapError "failed to get branches: " err))
      | None => Returns (response, None)
      end
    end
  end.

End GitProviderService.

(** ** One pass of each loop, as a relation *)

Section Passes.

Variable env : Env.
Variable config : RepositoryWizardConfig.
Variable providerId : string.
Variable perPage : Z.

(** *** Namespace loop *)

Definition nsFetched (v : NamespaceVars) (h : History)
  : list GitNamespace.t * option error :=
  GetNamespaces env h providerId (ns_page v) perPage.

Definition nsFetchEvent (v : NamespaceVars) (h : History) : Event :=
  EvGetNamespaces providerId (ns_page v) perPage
    (fst (nsFetched v h)) (snd (nsFetched v h)).

Definition nsAnswer (v : NamespaceVars) (h : History) : string * string :=
  GetNamespaceIdFromPrompt env (nsFetchEvent v h :: h) (fst (nsFetched v h))
    (ProjectOrder config) providerId (namespacePaginationDisabled providerId)
    (ns_page v) perPage.

Definition nsPromptEvent (v : NamespaceVars) (h : History) : Event :=
  EvNamespacePrompt (fst (nsFetched v h)) (ProjectOrder config) providerId
    (namespacePaginationDisabled providerId) (ns_page v) perPage
    (nsAnswer v h).

(** The short circuit of line 132. *)
Definition nsShortCircuits (v : NamespaceVars) (h : History) : bool :=
  isOnlySingleNamespaceAvailable v
  && Nat.eqb (length (fst (nsFetched v h))) 1.

(** The test of lines 144 and 199: the answer is a navigation and
    pagination is on. *)
Definition navigates (isPaginationDisabled : bool) (navigate : string) : bool :=
  negb isPaginationDisabled && negb (String.eqb navigate EmptyString).

Inductive NamespacePass (v : NamespaceVars) (h : History)
  : Step NamespaceVars Result -> History -> Prop :=
| NsFetchFailed err :
    snd (nsFetched v h) = Some err ->
    NamespacePass v h (Return (None, Some err)) (nsFetchEvent v h :: h)
| NsSingle only :
    nsFetched v h = ([only], None) ->
    isOnlySingleNamespaceAvailable v = true ->
    NamespacePass v h
      (Break (mkNamespaceVars (ns_page v) [only] (GitNamespace.Id only)
                (GitNamespace.Name only) (ns_navigate v) true))
      (nsFetchEvent v h :: h)
| NsNext :
    snd (nsFetched v h) = None -> nsShortCircuits v h = false ->
    navigates (namespacePaginationDisabled providerId) (snd (nsAnswer v h))
      = true ->
    snd (nsAnswer v h) = "next" ->
    NamespacePass v h
      (Continue (mkNamespaceVars (wrap32 (ns_page v + 1))
                   (fst (nsFetched v h)) (fst (nsAnswer v h)) (namespace v)
                   "next" false))
      (nsPromptEvent v h :: nsFetchEvent v h :: h)
| NsPrev :
    snd (nsFetched v h) = None -> nsShortCircuits v h = false ->
    navigates (namespacePaginationDisabled providerId) (snd (nsAnswer v h))
      = true ->
    snd (nsAnswer v h) = "prev" -> 1 < ns_page v ->
    NamespacePass v h
      (Continue (mkNamespaceVars (wrap32 (ns_page v - 1))
                   (fst (nsFetched v h)) (fst (nsAnswer v h)) (namespace v)
                   "prev" false))
      (nsPromptEvent v h :: nsFetchEvent v h :: h)
| NsStay :
    snd (nsFetched v h) = None -> nsShortCircuits v h = false ->
    navigates (namespacePaginationDisabled providerId) (snd (nsAnswer v h))
      = true ->
    snd (nsAnswer v h) <> "next" ->
    (snd (nsAnswer v h) = "prev" -> ns_page v <= 1) ->
    NamespacePass v h
      (Continue (mkNamespaceVars (ns_page v)
                   (fst (nsFetched v h)) (fst (nsAnswer v h))
                   (lookupNamespaceName (fst (nsFetched v h))
                      (fst (nsAnswer v h)) (namespace v))
                   (snd (nsAnswer v h)) false))
      (nsPromptEvent v h :: nsFetchEvent v h :: h)
| NsSelected :
    snd (nsFetched v h) = None -> nsShortCircuits v h = false ->
    navigates (namespacePaginationDisabled providerId) (snd (nsAnswer v h))
      = false ->
    fst (nsAnswer v h) <> EmptyString ->
    NamespacePass v h
      (Break (mkNamespaceVars (ns_page v)
                (fst (nsFetched v h)) (fst (nsAnswer v h))
                (lookupNamespaceName (fst (nsFetched v h))
                   (fst (nsAnswer v h)) (namespace v))
                (snd (nsAnswer v h)) false))
      (nsPromptEvent v h :: nsFetchEvent v h :: h)
| NsAborted :
    snd (nsFetched v h) = None -> nsShortCircuits v h = false ->
    navigates (namespacePaginationDisabled providerId) (snd (nsAnswer v h))
      = false ->
    fst (nsAnswer v h) = EmptyString ->
    NamespacePass v h (Return (None, Some ErrCtrlCAbort))
      (nsPromptEvent v h :: nsFetchEvent v h :: h).

(** *** Repository loop *)

Variable namespaceId : string.
Variable parentIdentifier : string.

Definition repoFetched (v : RepositoryVars) (h : History)
  : list GitRepository.t * option error :=
  GetRepositories env h providerId namespaceId (repo_page v) perPage.

Definition repoFetchEvent (v : RepositoryVars) (h : History) : Event :=
  EvGetRepositories providerId namespaceId (repo_page v) perPage
    (fst (repoFetched v h)) (snd (repoFetched v h)).

Definition repoAnswer (v : RepositoryVars) (h : History)
  : option GitRepository.t * string :=
  GetRepositoryFromPrompt env (repoFetchEvent v h :: h)
    (fst (repoFetched v h)) (ProjectOrder config) (SelectedRepos config)
    parentIdentifier (repositoryPaginationDisabled providerId)
    (repo_page v) perPage.

Definition repoPromptEvent (v : RepositoryVars) (h : History) : Event :=
  EvRepositoryPrompt (fst (repoFetched v h)) (ProjectOrder config)
    (SelectedRepos config) parentIdentifier
    (repositoryPaginationDisabled providerId) (repo_page v) perPage
    (repoAnswer v h).

Inductive RepositoryPass (v : RepositoryVars) (h : History)
  : Step RepositoryVars Result -> History -> Prop :=
| RepoFetchFailed err :
    snd (repoFetched v h) = Some err ->
    RepositoryPass v h (Return (None, Some err)) (repoFetchEvent v h :: h)
| RepoNext :
    snd (repoFetched v h) = None ->
    navigates (repositoryPaginationDisabled providerId)
      (snd (repoAnswer v h)) = true ->
    snd (repoAnswer v h) = "next" ->
    RepositoryPass v h
      (Continue (mkRepositoryVars (wrap32 (repo_page v + 1))
                   (fst (repoFetched v h)) (fst (repoAnswer v h)) "next"))
      (repoPromptEvent v h :: repoFetchEvent v h :: h)
| RepoPrev :
    snd (repoFetched v h) = None ->
    navigates (repositoryPaginationDisabled providerId)
      (snd (repoAnswer v h)) = true ->
    snd (repoAnswer v h) = "prev" -> 1 < repo_page v ->
    RepositoryPass v h
      (Continue (mkRepositoryVars (wrap32 (repo_page v - 1))
                   (fst (repoFetched v h)) (fst (repoAnswer v h)) "prev"))
      (repoPromptEvent v h :: repoFetchEvent v h :: h)
| RepoStay :
    snd (repoFetched v h) = None ->
    navigates (repositoryPaginationDisabled providerId)
      (snd (repoAnswer v h)) = true ->
    snd (repoAnswer v h) <> "next" ->
    (snd (repoAnswer v h) = "prev" -> repo_page v <= 1) ->
    RepositoryPass v h
      (Continue (mkRepositoryVars (repo_page v)
                   (fst (repoFetched v h)) (fst (repoAnswer v h))
                   (snd (repoAnswer v h))))
      (repoPromptEvent v h :: repoFetchEvent v h :: h)
| RepoSelected repo :
    snd (repoFetched v h) = None ->
    navigates (repositoryPaginationDisabled providerId)
      (snd (repoAnswer v h)) = false ->
    fst (repoAnswer v h) = Some repo ->
    RepositoryPass v h
      (Break (mkRepositoryVars (repo_page v)
                (fst (repoFetched v h)) (Some repo) (snd (repoAnswer v h))))
      (repoPromptEvent v h :: repoFetchEvent v h :: h)
| RepoAborted :
    snd (repoFetched v h) = None ->
    navigates (repositoryPaginationDisabled providerId)
      (snd (repoAnswer v h)) = false ->
    fst (repoAnswer v h) = None ->
    RepositoryPass v h (Return (None, Some ErrCtrlCAbort))
      (repoPromptEvent v h :: repoFetchEvent v h :: h).

End Passes.

(** ** Whole runs of a loop, as a relation over the passes *)

Section Runs.

Variable env : Env.
Variable config : RepositoryWizardConfig.
Variable providerId : string.
Variable perPage : Z.

Inductive NamespaceRun
  : NamespaceVars -> History -> Outcome (NamespaceVars + Result) ->
    History -> Prop :=
| NsRunOutOfFuel v h : NamespaceRun v h OutOfFuel h
| NsRunContinue v h v' h' o h'' :
    NamespacePass env config providerId perPage v h (Continue v') h' ->
    NamespaceRun v' h' o h'' ->
    NamespaceRun v h o h''
| NsRunBreak v h v' h' :
    NamespacePass env config providerId perPage v h (Break v') h' ->
    NamespaceRun v h (Done (inl v')) h'
| NsRunReturn v h r h' :
    NamespacePass env config providerId perPage v h (Return r) h' ->
    NamespaceRun v h (Done (inr r)) h'.

Variable namespaceId : string.
Variable parentIdentifier : string.

Inductive RepositoryRun
  : RepositoryVars -> History -> Outcome (RepositoryVars + Result) ->
    History -> Prop :=
| RepoRunOutOfFuel v h : RepositoryRun v h OutOfFuel h
| RepoRunContinue v h v' h' o h'' :
    RepositoryPass env config providerId perPage namespaceId
      parentIdentifier v h (Continue v') h' ->
    RepositoryRun v' h' o h'' ->
    RepositoryRun v h o h''
| RepoRunBreak v h v' h' :
    RepositoryPass env config providerId perPage namespaceId
      parentIdentifier v h (Break v') h' ->
    RepositoryRun v h (Done (inl v')) h'
| RepoRunReturn v h r h' :
    RepositoryPass env config providerId perPage namespaceId
      parentIdentifier v h (Return r) h' ->
    RepositoryRun v h (Done (inr r)) h'.

End Runs.

(** ** Reading a history *)

(** The result an event forces on the wizard, if any: an empty provider
    choice, no sample chosen, a failed page query, or a namespace or
    repository prompt that is left without a choice end the run; with
    [skip] (the SkipBranchSelection flag) a chosen repository ends it too. *)
Definition endsWizard (skip : bool) (e : Event) : option Result :=
  match e with
  | EvProviderPrompt _ _ _ answer =>
    if String.eqb answer EmptyString then Some (None, Some ErrCtrlCAbort)
    else None
  | EvSamplePrompt _ None => Some (None, Some ErrCtrlCAbort)
  | EvGetNamespaces _ _ _ _ (Some err) => Some (None, Some err)
  | EvGetRepositories _ _ _ _ _ (Some err) => Some (None, Some err)
  | EvNamespacePrompt _ _ _ disabled _ _ answer =>
    if navigates disabled (snd answer) then None
    else if String.eqb (fst answer) EmptyString
    then Some (None, Some ErrCtrlCAbort)
    else None
  | EvRepositoryPrompt _ _ _ _ disabled _ _ answer =>
    if navigates disabled (snd answer) then None
    else match fst answer with
         | None => Some (None, Some ErrCtrlCAbort)
         | Some repo => if skip then Some (Some repo, None) else None
         end
  | _ => None
  end.

(** The user backs out of a prompt: no provider, no sample, no namespace and
    no navigation, no repository and no navigation. *)
Definition isCancel (e : Event) : bool :=
  match e with
  | EvProviderPrompt _ _ _ answer => String.eqb answer EmptyString
  | EvSamplePrompt _ None => true
  | EvNamespacePrompt _ _ _ _ _ _ answer =>
    String.eqb (fst answer) EmptyString && String.eqb (snd answer) EmptyString
  | EvRepositoryPrompt _ _ _ _ _ _ _ (None, navigate) =>
    String.eqb navigate EmptyString
  | _ => false
  end.

(** A namespace page or repository page query that failed, with its error. *)
Definition pageFetchFailure (e : Event) : option error :=
  match e with
  | EvGetNamespaces _ _ _ _ err => err
  | EvGetRepositories _ _ _ _ _ err => err
  | _ => None
  end.

(** A repository prompt answered with a repository that the loop accepts. *)
Definition chosenRepository (e : Event) : option GitRepository.t :=
  match e with
  | EvRepositoryPrompt _ _ _ _ disabled _ _ answer =>
    if navigates disabled (snd answer) then None else fst answer
  | _ => None
  end.

Definition isBranchWizard (e : Event) : bool :=
  match e with EvSetBranchFromWizard _ _ => true | _ => false end.

Definition isNamespacePrompt (e : Event) : bool :=
  match e with EvNamespacePrompt _ _ _ _ _ _ _ => true | _ => false end.

Definition isNamespacePageLoaded (e : Event) : bool :=
  match e with EvGetNamespaces _ _ _ _ None => true | _ => false end.

Definition isRepositoryPrompt (e : Event) : bool :=
  match e with EvRepositoryPrompt _ _ _ _ _ _ _ _ => true | _ => false end.

Definition isRepositoryPageLoaded (e : Event) : bool :=
  match e with EvGetRepositories _ _ _ _ _ None => true | _ => false end.

Definition isNamespaceEvent (e : Event) : bool :=
  match e with
  | EvGetNamespaces _ _ _ _ _ | EvNamespacePrompt _ _ _ _ _ _ _ => true
  | _ => false
  end.

Definition isRepositoryEvent (e : Event) : bool :=
  match e with
  | EvGetRepositories _ _ _ _ _ _ | EvRepositoryPrompt _ _ _ _ _ _ _ _ => true
  | _ => false
  end.

(** The steps of the function, in program order. *)
Definition stage (e : Event) : nat :=
  match e with
  | EvListSamples _ _ _ => 0
  | EvLogDebug _ => 1
  | EvProviderPrompt _ _ _ _ => 2
  | EvUrlInput _ _ _ _ | EvSamplePrompt _ _ => 3
  | EvGetGitContext _ _ _ _ => 4
  | EvGetNamespaces _ _ _ _ _ | EvNamespacePrompt _ _ _ _ _ _ _ => 5
  | EvGetRepositories _ _ _ _ _ _ | EvRepositoryPrompt _ _ _ _ _ _ _ _ => 6
  | EvSetBranchFromWizard _ _ => 7
  end.

(** Every event of the history is of stage [n] at most. *)
Definition upTo (n : nat) (h : History) : Prop :=
  Forall (fun e => (stage e <= n)%nat) h.

(** No event of the history comes after an event of a later stage. *)
Definition InOrder (h : History) : Prop :=
  StronglySorted (fun later earlier => (stage earlier <= stage later)%nat) h.

Definition count (f : Event -> bool) (h : History) : nat :=
  length (List.filter f h).

(** The part of the history in which no event forces a result yet. *)
Definition Running (skip : bool) (h : History) : Prop :=
  forall e, In e h -> endsWizard skip e = None.

(** A run ends as its history says: an event that forces a result is the
    latest event, and the result is the one it forces. *)
Definition EndsRight (skip : bool) (o : Outcome Result) (h : History) : Prop :=
  forall e r, In e h -> endsWizard skip e = Some r ->
              o = Done r /\ h = e :: tl h.

(** Every repository prompt in the history shows the page that the query
    just before it loaded, at the same page number. *)
Fixpoint promptsShowFetched (h : History) : Prop :=
  match h with
  | [] => True
  | EvRepositoryPrompt shown _ _ _ _ page _ _ :: earlier =>
    match earlier with
    | EvGetRepositories _ _ page' _ repos None :: _ =>
      shown = repos /\ page = page'
    | _ => False
    end /\ promptsShowFetched earlier
  | _ :: earlier => promptsShowFetched earlier
  end.

(** The prompt [prompt] shows the page that the query [e] loaded, at the
    page number of the query. *)
Definition showsPage (prompt e : Event) : Prop :=
  match e, prompt with
  | EvGetNamespaces _ page _ namespaces None,
    EvNamespacePrompt shown _ _ _ page' _ _ =>
    shown = namespaces /\ page' = page
  | EvGetRepositories _ _ page _ repos None,
    EvRepositoryPrompt shown _ _ _ _ page' _ _ =>
    shown = repos /\ page' = page
  | _, _ => False
  end.

(** Of the events [later] that follow the page query [e], the first one
    (the oldest, at the end of the list) is the prompt for its page. *)
Definition promptedNext (e : Event) (later : History) : Prop :=
  exists later' prompt,
    later = (later' ++ [prompt])%list /\ showsPage prompt e.

(** A configured provider whose kind is in the supported list, and the
    configured provider a view was made from. *)
Definition isSupportedProvider
    (supportedProviders : list SupportedGitProvider.t)
    (gitProvider : GitProvider.t) : bool :=
  existsb
    (fun supportedProvider =>
       String.eqb (GitProvider.ProviderId gitProvider)
                  (SupportedGitProvider.Id supportedProvider))
    supportedProviders.

(** The supported providers a configured provider matches. *)
Definition matching (supportedProviders : list SupportedGitProvider.t)
    (gitProvider : GitProvider.t) : list SupportedGitProvider.t :=
  List.filter
    (fun supportedProvider =>
       String.eqb (GitProvider.ProviderId gitProvider)
                  (SupportedGitProvider.Id supportedProvider))
    supportedProviders.

Definition providerOfView (view : GitProviderView.t) : GitProvider.t :=
  GitProvider.mk (GitProviderView.Id view) (GitProviderView.ProviderId view)
    (GitProviderView.Username view) (GitProviderView.Alias view).

(** The events of the sample query: the query itself and, when it failed,
    the debug log line. *)
Definition sampleQueryEvents (env : Env) : History :=
  let r := ListSamples env [] in
  (match snd r with
   | Some err => [EvLogDebug (HandleErrorResponse env (snd (fst r)) err)]
   | None => []
   end ++ [EvListSamples (fst (fst r)) (snd (fst r)) (snd r)])%list.

(** ** Two worlds that differ in the sample query only *)

(** [env1] asked after the events [base1] answers as [env2] asked after the
    events [base2], whatever happened since. *)
Record SameAfter (base1 base2 : History) (env1 env2 : Env) : Prop :=
  mkSameAfter
  { same_HandleErrorResponse :
      forall res err,
        HandleErrorResponse env1 res err = HandleErrorResponse env2 res err;
    same_GetSupportedGitProviders :
      GetSupportedGitProviders env1 = GetSupportedGitProviders env2;
    same_CustomRepoIdentifier :
      CustomRepoIdentifier env1 = CustomRepoIdentifier env2;
    same_CREATE_FROM_SAMPLE :
      CREATE_FROM_SAMPLE env1 = CREATE_FROM_SAMPLE env2;
    same_GetRepositoryFromUrlInput :
      forall x a b c,
        GetRepositoryFromUrlInput env1 (x ++ base1)%list a b c
        = GetRepositoryFromUrlInput env2 (x ++ base2)%list a b c;
    same_GetProviderIdFromPrompt :
      forall x a b c,
        GetProviderIdFromPrompt env1 (x ++ base1)%list a b c
        = GetProviderIdFromPrompt env2 (x ++ base2)%list a b c;
    same_GetSampleFromPrompt :
      forall x a,
        GetSampleFromPrompt env1 (x ++ base1)%list a
        = GetSampleFromPrompt env2 (x ++ base2)%list a;
    same_GetGitContext :
      forall x a,
        GetGitContext env1 (x ++ base1)%list a
        = GetGitContext env2 (x ++ base2)%list a;
    same_GetNamespaces :
      forall x a b c,
        GetNamespaces env1 (x ++ base1)%list a b c
        = GetNamespaces env2 (x ++ base2)%list a b c;
    same_GetNamespaceIdFromPrompt :
      forall x a b c d e f,
        GetNamespaceIdFromPrompt env1 (x ++ base1)%list a b c d e f
        = GetNamespaceIdFromPrompt env2 (x ++ base2)%list a b c d e f;
    same_GetRepositories :
      forall x a b c d,
        GetRepositories env1 (x ++ base1)%list a b c d
        = GetRepositories env2 (x ++ base2)%list a b c d;
    same_GetRepositoryFromPrompt :
      forall x a b c d e f g,
        GetRepositoryFromPrompt env1 (x ++ base1)%list a b c d e f g
        = GetRepositoryFromPrompt env2 (x ++ base2)%list a b c d e f g;
    same_SetBranchFromWizard :
      forall x a,
        SetBranchFromWizard env1 (x ++ base1)%list a
        = SetBranchFromWizard env2 (x ++ base2)%list a }.

(** Two computations, one in each world, return the same value and add the
    same events. *)
Definition Sim (base1 base2 : History) {A : Type} (m1 m2 : Wiz A) : Prop :=
  forall x,
  exists a later,
    m1 (x ++ base1)%list = (a, ((later ++ x) ++ base1)%list) /\
    m2 (x ++ base2)%list = (a, ((later ++ x) ++ base2)%list).

(** The events of a sample query that failed, and of one that succeeded. *)
Definition sampleFailureEvents (env : Env) (samples : list Sample.t)
    (res : option HttpResponse.t) (err : error) : History :=
  [EvLogDebug (HandleErrorResponse env res err);
   EvListSamples samples res (Some err)].

Definition sampleSuccessEvents (samples : list Sample.t)
    (res : option HttpResponse.t) : History :=
  [EvListSamples samples res None].

(** ** Scripted collaborators, for concrete runs *)

Record Script : Type := mkScript
  { sc_samples : list Sample.t * option HttpResponse.t * option error;
    sc_provider : string;
    sc_sample : option Sample.t;
    sc_namespaces : Z -> list GitNamespace.t * option error;
    sc_namespaceAnswers : list (string * string);
    sc_repositories : Z -> list GitRepository.t * option error;
    sc_repositoryAnswers : list (option GitRepository.t * string) }.

Definition github : SupportedGitProvider.t :=
  SupportedGitProvider.mk "github" "GitHub".
Definition gitlab : SupportedGitProvider.t :=
  SupportedGitProvider.mk "gitlab" "GitLab".
Definition bitbucket : SupportedGitProvider.t :=
  SupportedGitProvider.mk "bitbucket" "Bitbucket".

Definition aliceOnGithub : GitProvider.t :=
  GitProvider.mk "gp-1" "github" "alice" "work".
Definition bobOnGitea : GitProvider.t :=
  GitProvider.mk "gp-2" "gitea" "bob" "home".
Definition carolOnGitlab : GitProvider.t :=
  GitProvider.mk "gp-3" "gitlab" "carol" "lab".

Definition acme : GitNamespace.t := GitNamespace.mk "acme" "Acme Inc".
Definition tools : GitNamespace.t := GitNamespace.mk "tools" "Tools".

Definition website : GitRepository.t :=
  GitRepository.mk "website" "https://github.com/acme/website" "website"
    "github" "acme" None.
Definition backend : GitRepository.t :=
  GitRepository.mk "backend" "https://github.com/acme/backend" "backend"
    "github" "acme" None.

Definition withBranch (branch : string) (r : GitRepository.t)
  : GitRepository.t :=
  GitRepository.mk (GitRepository.Id r) (GitRepository.Url r)
    (GitRepository.Name r) (GitRepository.Source r) (GitRepository.Owner r)
    (Some branch).

(** The collaborators of a script: the prompts answer from their lists, the
    nth answer at the nth prompt of that kind; when a list is used up the
    user backs out. *)
Definition scripted (s : Script) : Env :=
  {| ListSamples := fun _ => sc_samples s;
     HandleErrorResponse := fun _ err => err;
     GetSupportedGitProviders := [github; gitlab; bitbucket];
     CustomRepoIdentifier := "<CUSTOM_REPO>";
     CREATE_FROM_SAMPLE := "<CREATE_FROM_SAMPLE>";
     GetRepositoryFromUrlInput := fun _ _ _ _ => (Some backend, None);
     GetProviderIdFromPrompt := fun _ _ _ _ => sc_provider s;
     GetSampleFromPrompt := fun _ _ => sc_sample s;
     GetGitContext := fun _ _ => (Some website, None, None);
     GetNamespaces := fun _ _ page _ => sc_namespaces s page;
     GetNamespaceIdFromPrompt := fun h _ _ _ _ _ _ =>
       nth (count isNamespacePrompt h) (sc_namespaceAnswers s)
         (EmptyString, EmptyString);
     GetRepositories := fun _ _ _ page _ => sc_repositories s page;
     GetRepositoryFromPrompt := fun h _ _ _ _ _ _ _ =>
       nth (count isRepositoryPrompt h) (sc_repositoryAnswers s)
         (None, EmptyString);
     SetBranchFromWizard := fun _ cfg =>
       (option_map (withBranch "main") (ChosenRepo cfg), None) |}.

Definition plainConfig : RepositoryWizardConfig :=
  {| UserGitProviders := [aliceOnGithub];
     Manual := false;
     MultiProject := false;
     SkipBranchSelection := false;
     ProjectOrder := 0;
     SelectedRepos := ∅ |}.

Definition skipBranchConfig : RepositoryWizardConfig :=
  {| UserGitProviders := [aliceOnGithub];
     Manual := false;
     MultiProject := false;
     SkipBranchSelection := true;
     ProjectOrder := 0;
     SelectedRepos := ∅ |}.

Definition manualConfig : RepositoryWizardConfig :=
  {| UserGitProviders := [aliceOnGithub];
     Manual := true;
     MultiProject := false;
     SkipBranchSelection := false;
     ProjectOrder := 0;
     SelectedRepos := ∅ |}.

(** A user on GitHub with two namespaces who asks for the previous page on
    the first page and then backs out. *)
Definition prevOnFirstPage : Script :=
  {| sc_samples := ([], None, None);
     sc_provider := "gp-1";
     sc_sample := None;
     sc_namespaces := fun _ => ([acme; tools], None);
     sc_namespaceAnswers := [(EmptyString, "prev")];
     sc_repositories := fun _ => ([website; backend], None);
     sc_repositoryAnswers := [] |}.

(** A user who pages forward once through the namespaces, picks one, then
    picks a repository. *)
Definition pageAndPick : Script :=
  {| sc_samples := ([], None, None);
     sc_provider := "gp-1";
     sc_sample := None;
     sc_namespaces := fun _ => ([acme; tools], None);
     sc_namespaceAnswers := [(EmptyString, "next"); ("acme", EmptyString)];
     sc_repositories := fun _ => ([website; backend], None);
     sc_repositoryAnswers := [(None, "next"); (Some website, EmptyString)] |}.

(** The namespace query fails. *)
Definition namespacesDown : Script :=
  {| sc_samples := ([], None, None);
     sc_provider := "gp-1";
     sc_sample := None;
     sc_namespaces := fun _ => ([], Some (errorString "connection refused"));
     sc_namespaceAnswers := [];
     sc_repositories := fun _ => ([website; backend], None);
     sc_repositoryAnswers := [] |}.

(** The sample query fails; the user then backs out of the provider
    prompt. *)
Definition samplesDown : Script :=
  {| sc_samples := ([], None, Some (errorString "connection refused"));
     sc_provider := EmptyString;
     sc_sample := None;
     sc_namespaces := fun _ => ([acme; tools], None);
     sc_namespaceAnswers := [];
     sc_repositories := fun _ => ([website; backend], None);
     sc_repositoryAnswers := [] |}.

(** One namespace only: it is taken without a prompt. *)
Definition singleNamespace : Script :=
  {| sc_samples := ([], None, None);
     sc_provider := "gp-1";
     sc_sample := None;
     sc_namespaces := fun _ => ([acme], None);
     sc_namespaceAnswers := [];
     sc_repositories := fun _ => ([website], None);
     sc_repositoryAnswers := [(Some website, EmptyString)] |}.

(** The sample query returns no samples, without error; the user backs out
    of the provider prompt. *)
Definition samplesNone : Script :=
  {| sc_samples := ([], None, None);
     sc_provider := EmptyString;
     sc_sample := None;
     sc_namespaces := fun _ => ([acme; tools], None);
     sc_namespaceAnswers := [];
     sc_repositories := fun _ => ([website; backend], None);
     sc_repositoryAnswers := [] |}.

(** The variables of the namespace loop when the wizard enters it, and after
    a "prev" on the first page of [acme; tools]. *)
Definition firstPageVars : NamespaceVars :=
  mkNamespaceVars 1 [] EmptyString EmptyString EmptyString true.

Definition afterPrevVars : NamespaceVars :=
  mkNamespaceVars 1 [acme; tools] EmptyString EmptyString "prev" false.

Definition firstPageQuery : Event :=
  EvGetNamespaces "github" 1 100 [acme; tools] None.

Definition prevAnswered : Event :=
  EvNamespacePrompt [acme; tools] 0 "github" false 1 100 (EmptyString, "prev").

Definition cancelledNamespacePrompt : Event :=
  EvNamespacePrompt [acme; tools] 0 "github" false 1 100
    (EmptyString, EmptyString).

Definition failedNamespaceQuery : Event :=
  EvGetNamespaces "github" 1 100 [] (Some (errorString "connection refused")).

Definition websiteChosen : Event :=
  EvRepositoryPrompt [website; backend] 0 ∅ "github/Acme Inc" false 2 100
    (Some website, EmptyString).

Definition aliceView : GitProviderView.t :=
  GitProviderView.mk "gp-1" "github" "GitHub" "alice" "work".

(** The history holds no query to the server. *)
Definition noFetch (h : History) : bool :=
  forallb (fun e => negb (isFetch e)) h.

(** The events a computation added to the history [h] it started from. *)
Definition eventsAdded (h' h : History) : History :=
  firstn (length h' - length h) h'.

(** Whether an error is a wrapping of another one. *)
Definition isWrapped (e : error) : bool :=
  match e with wrapError _ _ => true | _ => false end.

Definition returnedError (o : Outcome Result) : option error :=
  match o with Done (_, err) => err | OutOfFuel => None end.

(** The run of [singleNamespace]: what comes before the namespace query,
    the query, and what comes after it. *)
Definition beforeNamespaces : History :=
  [EvProviderPrompt [aliceView] 0 false "gp-1"; EvListSamples [] None None].

Definition onlyAcmeLoaded : Event := EvGetNamespaces "github" 1 100 [acme] None.

Definition websiteLoaded : Event :=
  EvGetRepositories "github" "acme" 1 100 [website] None.

Definition afterOnlyAcme : History :=
  [EvSetBranchFromWizard
     {| GitProviderConfigId := "gp-1";
        NamespaceId := "acme";
        Namespace := "Acme Inc";
        ChosenRepo := Some website;
        BranchProjectOrder := 0;
        ProviderId := "github" |}
     (Some (withBranch "main" website), None);
   EvRepositoryPrompt [website] 0 ∅ "github/Acme Inc" false 1 100
     (Some website, EmptyString);
   websiteLoaded].

(** * The rest of the code *)

(** ** [strconv.Atoi] and [strconv.Itoa] *)

(** Go's [int] on the 64-bit platforms the server is built for. *)
Definition int_min : Z := -9223372036854775808.
Definition int_max : Z := 9223372036854775807.

(** [ch -= '0'; if ch > 9 { error }] on a byte. *)
Definition digit (ch : ascii) : option Z :=
  let d := (Z.of_N (N_of_ascii ch) - 48) mod 256 in
  if Z.ltb 9 d then None else Some d.

(** [n = n*10 + int(ch)] over the bytes of the string. *)
Fixpoint digits (s : string) (n : Z) : option Z :=
  match s with
  | EmptyString => Some n
  | String ch s' =>
    match digit ch with
    | Some d => digits s' (n * 10 + d)
    | None => None
    end
  end.

(** A leading sign and what follows it. *)
Definition stripSign (s : string) : bool * string :=
  match s with
  | String "-"%char s' => (true, s')
  | String "+"%char s' => (false, s')
  | _ => (false, s)
  end.

(** The fast path of [Atoi], for strings of 1 to 18 bytes. *)
Definition AtoiFast (s : string) : option Z :=
  let (neg, body) := stripSign s in
  match body with
  | EmptyString => None
  | _ =>
    match digits body 0 with
    | Some n => Some (if neg then - n else n)
    | None => None
    end
  end.

(** The slow path, [ParseInt(s, 10, 0)]: the same syntax, and a range error
    when the value does not fit. *)
Definition ParseInt10 (s : string) : option Z :=
  match s with
  | EmptyString => None
  | _ =>
    let (neg, body) := stripSign s in
    match body with
    | EmptyString => None
    | _ =>
      match digits body 0 with
      | Some un =>
        if negb neg && Z.leb 9223372036854775808 un then None
        else if neg && Z.ltb 9223372036854775808 un then None
        else Some (if neg then - un else un)
      | None => None
      end
    end
  end.

(** [strconv.Atoi], as far as its callers here look at it: the value when the
    error is nil, nothing otherwise. *)
Definition Atoi (s : string) : option Z :=
  let sLen := Z.of_nat (String.length s) in
  if Z.ltb 0 sLen && Z.ltb sLen 19 then AtoiFast s else ParseInt10 s.

(** [strconv.Itoa]: the decimal numeral, with a minus sign for negative
    numbers. *)
Definition Itoa (n : Z) : string :=
  DecimalString.NilZero.string_of_int (Z.to_int n).

(** The value of a row of decimal digits read after [acc]. *)
Fixpoint uintValue (d : Decimal.uint) (acc : Z) : Z :=
  match d with
  | Decimal.Nil => acc
  | Decimal.D0 d => uintValue d (acc * 10 + 0)
  | Decimal.D1 d => uintValue d (acc * 10 + 1)
  | Decimal.D2 d => uintValue d (acc * 10 + 2)
  | Decimal.D3 d => uintValue d (acc * 10 + 3)
  | Decimal.D4 d => uintValue d (acc * 10 + 4)
  | Decimal.D5 d => uintValue d (acc * 10 + 5)
  | Decimal.D6 d => uintValue d (acc * 10 + 6)
  | Decimal.D7 d => uintValue d (acc * 10 + 7)
  | Decimal.D8 d => uintValue d (acc * 10 + 8)
  | Decimal.D9 d => uintValue d (acc * 10 + 9)
  end.

(** ** The repositories controller, [GetRepositories] *)

Module GitProviderController.

(** [gin.Params]: the URL parameters, in order. *)
Definition Params : Type := list (string * string).

(** [ctx.Param(key)]: the value of the first entry with that key, the empty
    string when there is none. *)
Fixpoint Param (params : Params) (key : string) : string :=
  match params with
  | [] => EmptyString
  | (k, v) :: params' => if String.eqb k key then v else Param params' key
  end.

(** What the handler does to the response. *)
Inductive Action : Type :=
| AbortWithError (statusCode : Z) (err : error)
| JSON (code : Z) (obj : list GitRepository.t).

(** The server instance and the controllers helper. *)
Record Server : Type := mkServer
  { ServiceGetRepositories :
      string -> string -> Z -> Z -> list GitRepository.t * option error;
    GetHTTPStatusCodeAndMessageFromError :
      error -> Z * string * option error }.

(** A handled request: the arguments the service was called with, and the
    actions on the response in the order they were made. *)
Record Handled : Type := mkHandled
  { asked : string * string * Z * Z;
    actions : list Action }.

Definition GetRepositories (server : Server) (params : Params) : Handled :=
  let gitProviderId := Param params "gitProviderId" in
  let namespaceId := Param params "namespaceId" in
  let page :=
    match Atoi (Param params "page") with Some page => page | None => 1 end in
  let perPage :=
    match Atoi (Param params "perPage") with
    | Some perPage => perPage
    | None => 100
    end in
  let (response, err) :=
    ServiceGetRepositories server gitProviderId namespaceId page perPage in
  {| asked := (gitProviderId, namespaceId, page, perPage);
     actions :=
       match err with
       | Some err =>
         let '(statusCode, message, codeErr) :=
           GetHTTPStatusCodeAndMessageFromError server err in
         (match codeErr with
          | Some codeErr => [AbortWithError statusCode codeErr]
          | None => []
          end ++ [AbortWithError statusCode (errorString message)])%list
       | None => [JSON 200 response]
       end |}.

Definition isJSON (a : Action) : bool :=
  match a with JSON _ _ => true | _ => false end.

Definition statusOf (a : Action) : Z :=
  match a with
  | AbortWithError statusCode _ => statusCode
  | JSON code _ => code
  end.

End GitProviderController.

(** ** Reading a history, continued *)

(** A namespace or repository prompt of a provider without pagination that
    is answered without a choice, whatever navigation the answer carries. *)
Definition leftWithoutChoice (e : Event) : bool :=
  match e with
  | EvNamespacePrompt _ _ _ disabled _ _ answer =>
    disabled && String.eqb (fst answer) EmptyString
  | EvRepositoryPrompt _ _ _ _ disabled _ _ (None, _) => disabled
  | _ => false
  end.

Definition isListSamples (e : Event) : bool :=
  match e with EvListSamples _ _ _ => true | _ => false end.

Definition isLogDebug (e : Event) : bool :=
  match e with EvLogDebug _ => true | _ => false end.

(** The page number a page query or a prompt was made with. *)
Definition pageOf (e : Event) : option Z :=
  match e with
  | EvGetNamespaces _ page _ _ _ => Some page
  | EvNamespacePrompt _ _ _ _ page _ _ => Some page
  | EvGetRepositories _ _ page _ _ _ => Some page
  | EvRepositoryPrompt _ _ _ _ _ page _ _ => Some page
  | _ => None
  end.

Definition pagesBetween (lo hi : Z) (h : History) : Prop :=
  Forall
    (fun e =>
       match pageOf e with
       | Some page => lo <= page <= hi
       | None => True
       end)
    h.

(** The last entry of a list that satisfies a test. *)
Definition lastMatch {A : Type} (test : A -> bool) (l : list A) : option A :=
  List.find test (rev l).

(** ** More scripted runs *)

(** A user on Bitbucket, a provider without pagination for namespaces, who
    answers the namespace prompt with a navigation only. *)
Definition erinOnBitbucket : GitProvider.t :=
  GitProvider.mk "gp-5" "bitbucket" "erin" "team".

Definition bitbucketConfig : RepositoryWizardConfig :=
  {| UserGitProviders := [erinOnBitbucket];
     Manual := false;
     MultiProject := false;
     SkipBranchSelection := false;
     ProjectOrder := 0;
     SelectedRepos := ∅ |}.

Definition nextOnBitbucket : Script :=
  {| sc_samples := ([], None, None);
     sc_provider := "gp-5";
     sc_sample := None;
     sc_namespaces := fun _ => ([acme; tools], None);
     sc_namespaceAnswers := [(EmptyString, "next")];
     sc_repositories := fun _ => ([website; backend], None);
     sc_repositoryAnswers := [] |}.

Definition nextWithoutPagination : Event :=
  EvNamespacePrompt [acme; tools] 0 "bitbucket" true 1 100
    (EmptyString, "next").

(** A user who picks a namespace and a repository, no paging. *)
Definition pickAtOnce : Script :=
  {| sc_samples := ([], None, None);
     sc_provider := "gp-1";
     sc_sample := None;
     sc_namespaces := fun _ => ([acme; tools], None);
     sc_namespaceAnswers := [("tools", EmptyString)];
     sc_repositories := fun _ => ([website; backend], None);
     sc_repositoryAnswers := [(Some backend, EmptyString)] |}.

(** A user who answers the namespace prompt with both a namespace and an
    unknown navigation. *)
Definition choiceAndNavigation : Script :=
  {| sc_samples := ([], None, None);
     sc_provider := "gp-1";
     sc_sample := None;
     sc_namespaces := fun _ => ([acme; tools], None);
     sc_namespaceAnswers := [("acme", "first")];
     sc_repositories := fun _ => ([website; backend], None);
     sc_repositoryAnswers := [] |}.

(** A user who takes the sample option and picks a sample. *)
Definition sampleOne : Sample.t :=
  Sample.mk "starter" "https://github.com/samples/starter".

Definition pickSample : Script :=
  {| sc_samples := ([sampleOne], None, None);
     sc_provider := "<CREATE_FROM_SAMPLE>";
     sc_sample := Some sampleOne;
     sc_namespaces := fun _ => ([acme; tools], None);
     sc_namespaceAnswers := [];
     sc_repositories := fun _ => ([website; backend], None);
     sc_repositoryAnswers := [] |}.

(** A user who takes the custom URL option. *)
Definition pickCustomUrl : Script :=
  {| sc_samples := ([], None, None);
     sc_provider := "<CUSTOM_REPO>";
     sc_sample := None;
     sc_namespaces := fun _ => ([acme; tools], None);
     sc_namespaceAnswers := [];
     sc_repositories := fun _ => ([website; backend], None);
     sc_repositoryAnswers := [] |}.

(** A server whose service fails and whose helper fails too, and a request
    with a negative page. *)
Definition brokenServer : GitProviderController.Server :=
  {| GitProviderController.ServiceGetRepositories :=
       fun _ _ _ _ => ([website], Some (errorString "no such provider"));
     GitProviderController.GetHTTPStatusCodeAndMessageFromError :=
       fun _ => (404, "not found", Some (errorString "bad status")) |}.

Definition negativePage : GitProviderController.Params :=
  [("gitProviderId", "github"); ("namespaceId", "acme"); ("page", "-3")].

(** Events of the runs above. *)
Definition toolsBranchConfig : BranchWizardConfig :=
  {| GitProviderConfigId := "gp-1";
     NamespaceId := "tools";
     Namespace := "Tools";
     ChosenRepo := Some backend;
     BranchProjectOrder := 0;
     ProviderId := "github" |}.

Definition backendWithBranch : Result :=
  (Some (withBranch "main" backend), None).

Definition sampleLookedUp : Event :=
  EvGetGitContext "https://github.com/samples/starter" (Some website) None
    None.

Definition urlEntered : Event :=
  EvUrlInput false 0 ∅ (Some backend, None).

(** No configured provider; a sample query that fails and still hands back
    a sample, which the user takes; and the same user when the query
    succeeds without samples. *)
Definition noProviders : RepositoryWizardConfig :=
  {| UserGitProviders := [];
     Manual := false;
     MultiProject := false;
     SkipBranchSelection := false;
     ProjectOrder := 0;
     SelectedRepos := ∅ |}.

Definition samplesDownWithSample : Script :=
  {| sc_samples :=
       ([sampleOne], None, Some (errorString "connection refused"));
     sc_provider := "<CREATE_FROM_SAMPLE>";
     sc_sample := Some sampleOne;
     sc_namespaces := fun _ => ([acme; tools], None);
     sc_namespaceAnswers := [];
     sc_repositories := fun _ => ([website; backend], None);
     sc_repositoryAnswers := [] |}.

Definition noSamplesAtAll : Script :=
  {| sc_samples := ([], None, None);
     sc_provider := "<CREATE_FROM_SAMPLE>";
     sc_sample := Some sampleOne;
     sc_namespaces := fun _ => ([acme; tools], None);
     sc_namespaceAnswers := [];
     sc_repositories := fun _ => ([website; backend], None);
     sc_repositoryAnswers := [] |}.

(** What every event of a run agrees on: one provider kind and one
    namespace id for all page queries, 100 items per page, the project order
    and the selected repositories of the configuration in the prompts, and
    the pagination flag of the provider kind. *)
Definition consistentEvent (config : RepositoryWizardConfig)
    (providerId namespaceId : string) (e : Event) : Prop :=
  match e with
  | EvGetNamespaces p _ perPage _ _ => p = providerId /\ perPage = 100
  | EvNamespacePrompt _ order p disabled _ perPage _ =>
    p = providerId /\ perPage = 100 /\ order = ProjectOrder config /\
    disabled = isGitProviderWithUnsupportedPagination providerId
  | EvGetRepositories p n _ perPage _ _ =>
    p = providerId /\ n = namespaceId /\ perPage = 100
  | EvRepositoryPrompt _ order selected parent disabled _ perPage _ =>
    perPage = 100 /\ order = ProjectOrder config /\
    selected = SelectedRepos config /\
    disabled = repositoryPaginationDisabled providerId /\
    exists namespace, parent = providerId ++ "/" ++ namespace
  | EvProviderPrompt _ order _ _ => order = ProjectOrder config
  | _ => True
  end.

(** * Properties *)

(** ** Each pass of a loop is one of the cases of its relation *)

Ltac wiz_unfold :=
  unfold getRepositoryFromWizard, withSamples, providerFlow, afterNamespace,
    namespaceIteration, repositoryIteration, WithSpinner, loadNamespaces,
    loadRepositories, callListSamples, callUrlInput, callProviderPrompt,
    callSamplePrompt, callGetGitContext, callGetNamespaces,
    callNamespacePrompt, callGetRepositories, callRepositoryPrompt,
    callSetBranchFromWizard, emit, bind, ret in *.

Lemma navigates_false (isPaginationDisabled : bool) (navigate : string) :
  navigates isPaginationDisabled navigate = false <->
  isPaginationDisabled = true \/ navigate = EmptyString.
Proof.
  unfold navigates.
  destruct isPaginationDisabled, (String.eqb_spec navigate EmptyString); simpl;
    intuition congruence.
Qed.

Section PassLemmas.

Variable env : Env.
Variable config : RepositoryWizardConfig.
Variable providerId : string.
Variable perPage : Z.

Ltac use_pass C :=
  let H := fresh "Hpass" in
  pose proof C as H;
  unfold nsPromptEvent, nsAnswer, nsShortCircuits, nsFetchEvent, nsFetched,
    repoPromptEvent, repoAnswer, repoFetchEvent, repoFetched in H;
  match goal with
  | Hf : GetNamespaces _ _ _ _ _ = _ |- _ => rewrite Hf in H
  | Hf : GetRepositories _ _ _ _ _ _ = _ |- _ => rewrite Hf in H
  end;
  simpl in H; apply H; clear H;
  try solve
    [ reflexivity | assumption | intros; lia | intros; contradiction
    | match goal with
      | Hx : isOnlySingleNamespaceAvailable _ = _ |- _ =>
        rewrite Hx; reflexivity
      end ].

Ltac prompt_cases a :=
  let Hnav := fresh "Hnav" in
  let Hn := fresh "Hn" in
  let Hp := fresh "Hp" in
  destruct (navigates _ (snd a)) eqn:Hnav;
  [ destruct (String.eqb_spec (snd a) "next") as [Hn | Hn];
    [ rewrite Hn
    | destruct (String.eqb_spec (snd a) "prev") as [Hp | Hp]; simpl;
      [ match goal with
        | |- context [Z.ltb 1 ?p] => destruct (Z.ltb_spec 1 p)
        end; [ rewrite Hp | ]
      | ] ]
  | ].

Lemma namespaceIteration_pass (v : NamespaceVars) (h : History) :
  NamespacePass env config providerId perPage v h
    (fst (namespaceIteration env config providerId perPage v h))
    (snd (namespaceIteration env config providerId perPage v h)).
Proof.
  wiz_unfold. simpl.
  destruct (GetNamespaces env h providerId (ns_page v) perPage)
    as [namespaces [err|]] eqn:Hf; simpl.
  - use_pass (NsFetchFailed env config providerId perPage v h err).
  - destruct (isOnlySingleNamespaceAvailable v) eqn:Hone;
      [ destruct namespaces as [|only [|second more]] | ]; simpl.
    2: use_pass (NsSingle env config providerId perPage v h only).
    all: match goal with
         | |- context [GetNamespaceIdFromPrompt ?e ?h0 ?l ?o ?p ?d ?pg ?pp] =>
           set (a := GetNamespaceIdFromPrompt e h0 l o p d pg pp)
         end.
    all: fold (navigates (namespacePaginationDisabled providerId) (snd a)).
    all: prompt_cases a; simpl.
    all: try solve
      [ use_pass (NsNext env config providerId perPage v h)
      | use_pass (NsPrev env config providerId perPage v h)
      | use_pass (NsStay env config providerId perPage v h) ].
    all: destruct (String.eqb_spec (fst a) EmptyString) as [He | He]; simpl.
    all: try solve
      [ use_pass (NsSelected env config providerId perPage v h)
      | use_pass (NsAborted env config providerId perPage v h) ].
Qed.

Variable namespaceId : string.
Variable parentIdentifier : string.

Lemma repositoryIteration_pass (v : RepositoryVars) (h : History) :
  RepositoryPass env config providerId perPage namespaceId parentIdentifier
    v h
    (fst (repositoryIteration env config providerId namespaceId
            parentIdentifier perPage v h))
    (snd (repositoryIteration env config providerId namespaceId
            parentIdentifier perPage v h)).
Proof.
  wiz_unfold. simpl.
  destruct (GetRepositories env h providerId namespaceId (repo_page v)
              perPage) as [repos [err|]] eqn:Hf; simpl.
  - use_pass (RepoFetchFailed env config providerId perPage namespaceId
                parentIdentifier v h err).
  - match goal with
    | |- context [GetRepositoryFromPrompt ?e ?h0 ?l ?o ?sr ?p ?d ?pg ?pp] =>
      set (a := GetRepositoryFromPrompt e h0 l o sr p d pg pp)
    end.
    fold (navigates (repositoryPaginationDisabled providerId) (snd a)).
    prompt_cases a; simpl.
    all: try solve
      [ use_pass (RepoNext env config providerId perPage namespaceId
                    parentIdentifier v h)
      | use_pass (RepoPrev env config providerId perPage namespaceId
                    parentIdentifier v h)
      | use_pass (RepoStay env config providerId perPage namespaceId
                    parentIdentifier v h) ].
    destruct (fst a) as [repo|] eqn:Hrepo; simpl.
    + use_pass (RepoSelected env config providerId perPage namespaceId
                  parentIdentifier v h repo).
    + use_pass (RepoAborted env config providerId perPage namespaceId
                  parentIdentifier v h).
Qed.

(** Unrolling the loops by one pass. *)
Lemma namespaceLoop_S (fuel : nat) (v : NamespaceVars) (h : History) :
  namespaceLoop env config (S fuel) providerId perPage v h =
  match fst (namespaceIteration env config providerId perPage v h) with
  | Continue v' =>
    namespaceLoop env config fuel providerId perPage v'
      (snd (namespaceIteration env config providerId perPage v h))
  | Break v' =>
    (Done (inl v'),
     snd (namespaceIteration env config providerId perPage v h))
  | Return r =>
    (Done (inr r),
     snd (namespaceIteration env config providerId perPage v h))
  end.
Proof.
  simpl. unfold bind at 1.
  destruct (namespaceIteration env config providerId perPage v h)
    as [[v' | v' | r] h']; reflexivity.
Qed.

Lemma repositoryLoop_S (fuel : nat) (v : RepositoryVars) (h : History) :
  repositoryLoop env config (S fuel) providerId namespaceId
    parentIdentifier perPage v h =
  match fst (repositoryIteration env config providerId namespaceId
               parentIdentifier perPage v h) with
  | Continue v' =>
    repositoryLoop env config fuel providerId namespaceId parentIdentifier
      perPage v'
      (snd (repositoryIteration env config providerId namespaceId
              parentIdentifier perPage v h))
  | Break v' =>
    (Done (inl v'),
     snd (repositoryIteration env config providerId namespaceId
            parentIdentifier perPage v h))
  | Return r =>
    (Done (inr r),
     snd (repositoryIteration env config providerId namespaceId
            parentIdentifier perPage v h))
  end.
Proof.
  simpl. unfold bind at 1.
  destruct (repositoryIteration env config providerId namespaceId
              parentIdentifier perPage v h) as [[v' | v' | r] h'];
    reflexivity.
Qed.

End PassLemmas.

(** ** The loops run pass after pass *)

Section RunLemmas.

Variable env : Env.
Variable config : RepositoryWizardConfig.
Variable providerId : string.
Variable perPage : Z.

Lemma namespaceLoop_run (fuel : nat) :
  forall v h,
    NamespaceRun env config providerId perPage v h
      (fst (namespaceLoop env config fuel providerId perPage v h))
      (snd (namespaceLoop env config fuel providerId perPage v h)).
Proof.
  induction fuel as [|fuel IH]; intros v h.
  - apply NsRunOutOfFuel.
  - rewrite namespaceLoop_S.
    pose proof (namespaceIteration_pass env config providerId perPage v h)
      as Hpass.
    destruct (fst (namespaceIteration env config providerId perPage v h))
      as [v' | v' | r]; simpl.
    + eapply NsRunContinue; [exact Hpass | apply IH].
    + apply NsRunBreak; exact Hpass.
    + apply NsRunReturn; exact Hpass.
Qed.

Variable namespaceId : string.
Variable parentIdentifier : string.

Lemma repositoryLoop_run (fuel : nat) :
  forall v h,
    RepositoryRun env config providerId perPage namespaceId
      parentIdentifier v h
      (fst (repositoryLoop env config fuel providerId namespaceId
              parentIdentifier perPage v h))
      (snd (repositoryLoop env config fuel providerId namespaceId
              parentIdentifier perPage v h)).
Proof.
  induction fuel as [|fuel IH]; intros v h.
  - apply RepoRunOutOfFuel.
  - rewrite repositoryLoop_S.
    pose proof (repositoryIteration_pass env config providerId perPage
                  namespaceId parentIdentifier v h) as Hpass.
    destruct (fst (repositoryIteration env config providerId namespaceId
                     parentIdentifier perPage v h)) as [v' | v' | r]; simpl.
    + eapply RepoRunContinue; [exact Hpass | apply IH].
    + apply RepoRunBreak; exact Hpass.
    + apply RepoRunReturn; exact Hpass.
Qed.

(** *** What a pass leaves in the history *)

Lemma Running_cons (skip : bool) (e : Event) (h : History) :
  endsWizard skip e = None -> Running skip h -> Running skip (e :: h).
Proof.
  intros He Hh e' [<- | Hin]; [exact He | apply Hh, Hin].
Qed.

Lemma nsFetchEvent_loaded (skip : bool) v h :
  snd (nsFetched env providerId perPage v h) = None ->
  endsWizard skip (nsFetchEvent env providerId perPage v h) = None.
Proof. unfold nsFetchEvent. intros ->. reflexivity. Qed.

Lemma repoFetchEvent_loaded (skip : bool) v h :
  snd (repoFetched env providerId perPage namespaceId v h) = None ->
  endsWizard skip (repoFetchEvent env providerId perPage namespaceId v h)
  = None.
Proof. unfold repoFetchEvent. intros ->. reflexivity. Qed.

(** A pass of the namespace loop that goes on or breaks leaves the history
    running; one that returns [r] ends it with an event that forces [r]. *)
Lemma NamespacePass_ends (skip : bool) v h s h' :
  NamespacePass env config providerId perPage v h s h' ->
  Running skip h ->
  match s with
  | Continue _ | Break _ => Running skip h'
  | Return r =>
    exists e, h' = e :: tl h' /\ endsWizard skip e = Some r /\
              Running skip (tl h')
  end.
Proof.
  intros Hpass Hrun.
  destruct Hpass;
    try (apply Running_cons;
         [ unfold nsPromptEvent; simpl;
           match goal with H : navigates _ _ = _ |- _ => rewrite H end
         | apply Running_cons;
           [ apply nsFetchEvent_loaded; assumption | assumption ] ]).
  - exists (nsFetchEvent env providerId perPage v h). simpl.
    repeat split; [ | assumption].
    unfold nsFetchEvent.
    match goal with H : snd _ = Some _ |- _ => rewrite H end. reflexivity.
  - apply Running_cons; [ | assumption].
    apply nsFetchEvent_loaded.
    match goal with H : nsFetched _ _ _ _ _ = _ |- _ => rewrite H end.
    reflexivity.
  - reflexivity.
  - reflexivity.
  - reflexivity.
  - destruct (String.eqb_spec (fst (nsAnswer env config providerId perPage
                                        v h)) EmptyString); [contradiction | ].
    reflexivity.
  - exists (nsPromptEvent env config providerId perPage v h). simpl.
    repeat split.
    + match goal with H : navigates _ _ = _ |- _ => rewrite H end.
      match goal with H : fst _ = EmptyString |- _ => rewrite H end.
      reflexivity.
    + apply Running_cons;
        [ apply nsFetchEvent_loaded; assumption | assumption ].
Qed.

Lemma RepositoryPass_ends (skip : bool) v h s h' :
  RepositoryPass env config providerId perPage namespaceId parentIdentifier
    v h s h' ->
  Running skip h ->
  match s with
  | Continue _ => Running skip h'
  | Break rv =>
    exists e repo,
      h' = e :: tl h' /\ chosenRepo rv = Some repo /\
      chosenRepository e = Some repo /\
      endsWizard skip e = (if skip then Some (Some repo, None) else None) /\
      Running skip (tl h')
  | Return r =>
    exists e, h' = e :: tl h' /\ endsWizard skip e = Some r /\
              Running skip (tl h')
  end.
Proof.
  intros Hpass Hrun.
  destruct Hpass;
    try (apply Running_cons;
         [ unfold repoPromptEvent; simpl;
           match goal with H : navigates _ _ = _ |- _ => rewrite H end;
           reflexivity
         | apply Running_cons;
           [ apply repoFetchEvent_loaded; assumption | assumption ] ]).
  - exists (repoFetchEvent env providerId perPage namespaceId v h). simpl.
    repeat split; [ | assumption].
    unfold repoFetchEvent.
    match goal with H : snd _ = Some _ |- _ => rewrite H end. reflexivity.
  - exists (repoPromptEvent env config providerId perPage namespaceId
              parentIdentifier v h), repo.
    unfold repoPromptEvent; simpl.
    repeat match goal with
           | H : navigates _ _ = _ |- _ => rewrite H
           | H : fst _ = Some _ |- _ => rewrite H
           end.
    repeat split.
    apply Running_cons;
      [ apply repoFetchEvent_loaded; assumption | assumption ].
  - exists (repoPromptEvent env config providerId perPage namespaceId
              parentIdentifier v h).
    unfold repoPromptEvent; simpl.
    repeat match goal with
           | H : navigates _ _ = _ |- _ => rewrite H
           | H : fst _ = None |- _ => rewrite H
           end.
    repeat split.
    apply Running_cons;
      [ apply repoFetchEvent_loaded; assumption | assumption ].
Qed.

(** *** What a whole loop leaves in the history *)

Lemma NamespaceRun_ends (skip : bool) v h o h' :
  NamespaceRun env config providerId perPage v h o h' ->
  Running skip h ->
  match o with
  | OutOfFuel | Done (inl _) => Running skip h'
  | Done (inr r) =>
    exists e, h' = e :: tl h' /\ endsWizard skip e = Some r /\
              Running skip (tl h')
  end.
Proof.
  induction 1 as [v h | v h v' h' o h'' Hpass Hrun IH | v h v' h' Hpass
                 | v h r h' Hpass]; intros Hh.
  - exact Hh.
  - apply IH. exact (NamespacePass_ends skip _ _ _ _ Hpass Hh).
  - exact (NamespacePass_ends skip _ _ _ _ Hpass Hh).
  - exact (NamespacePass_ends skip _ _ _ _ Hpass Hh).
Qed.

Lemma RepositoryRun_ends (skip : bool) v h o h' :
  RepositoryRun env config providerId perPage namespaceId parentIdentifier
    v h o h' ->
  Running skip h ->
  match o with
  | OutOfFuel => Running skip h'
  | Done (inl rv) =>
    exists e repo,
      h' = e :: tl h' /\ chosenRepo rv = Some repo /\
      chosenRepository e = Some repo /\
      endsWizard skip e = (if skip then Some (Some repo, None) else None) /\
      Running skip (tl h')
  | Done (inr r) =>
    exists e, h' = e :: tl h' /\ endsWizard skip e = Some r /\
              Running skip (tl h')
  end.
Proof.
  induction 1 as [v h | v h v' h' o h'' Hpass Hrun IH | v h v' h' Hpass
                 | v h r h' Hpass]; intros Hh.
  - exact Hh.
  - apply IH. exact (RepositoryPass_ends skip _ _ _ _ Hpass Hh).
  - exact (RepositoryPass_ends skip _ _ _ _ Hpass Hh).
  - exact (RepositoryPass_ends skip _ _ _ _ Hpass Hh).
Qed.

(** The loops add events of their own stage only, on top of the history
    they start from. *)
Ltac pass_events :=
  first
    [ solve [ eexists [_]; split; [reflexivity | repeat constructor] ]
    | solve [ eexists [_; _]; split; [reflexivity | repeat constructor] ] ].

Lemma NamespaceRun_events v h o h' :
  NamespaceRun env config providerId perPage v h o h' ->
  exists ext, h' = (ext ++ h)%list /\
              Forall (fun e => isNamespaceEvent e = true) ext.
Proof.
  induction 1 as [v h | v h v' h' o h'' Hpass Hrun IH | v h v' h' Hpass
                 | v h r h' Hpass].
  - exists []. split; [reflexivity | constructor].
  - destruct IH as [ext [-> Hext]].
    assert (exists one, h' = (one ++ h)%list /\
                        Forall (fun e => isNamespaceEvent e = true) one)
      as [one [-> Hone]].
    { destruct Hpass; pass_events. }
    exists (ext ++ one)%list. rewrite <- app_assoc. split; [reflexivity | ].
    apply Forall_app; split; assumption.
  - destruct Hpass; pass_events.
  - destruct Hpass; pass_events.
Qed.

Lemma RepositoryRun_events v h o h' :
  RepositoryRun env config providerId perPage namespaceId parentIdentifier
    v h o h' ->
  exists ext, h' = (ext ++ h)%list /\
              Forall (fun e => isRepositoryEvent e = true) ext.
Proof.
  induction 1 as [v h | v h v' h' o h'' Hpass Hrun IH | v h v' h' Hpass
                 | v h r h' Hpass].
  - exists []. split; [reflexivity | constructor].
  - destruct IH as [ext [-> Hext]].
    assert (exists one, h' = (one ++ h)%list /\
                        Forall (fun e => isRepositoryEvent e = true) one)
      as [one [-> Hone]].
    { destruct Hpass; pass_events. }
    exists (ext ++ one)%list. rewrite <- app_assoc. split; [reflexivity | ].
    apply Forall_app; split; assumption.
  - destruct Hpass; pass_events.
  - destruct Hpass; pass_events.
Qed.

End RunLemmas.

(** ** The whole wizard *)

Section WizardLemmas.

Variable env : Env.
Variable config : RepositoryWizardConfig.

Lemma EndsRight_running (skip : bool) (o : Outcome Result) (h : History) :
  Running skip h -> EndsRight skip o h.
Proof.
  intros Hrun e r Hin He. rewrite (Hrun e Hin) in He. discriminate He.
Qed.

Lemma EndsRight_last (skip : bool) (r : Result) (e : Event) (h : History) :
  endsWizard skip e = Some r -> Running skip h ->
  EndsRight skip (Done r) (e :: h).
Proof.
  intros He Hrun e' r' [<- | Hin] He'.
  - rewrite He in He'. injection He' as <-. split; reflexivity.
  - rewrite (Hrun e' Hin) in He'. discriminate He'.
Qed.

Lemma EndsRight_last' (skip : bool) (r : Result) (h : History) :
  (exists e, h = e :: tl h /\ endsWizard skip e = Some r /\
             Running skip (tl h)) ->
  EndsRight skip (Done r) h.
Proof.
  intros [e [Hh [He Hrun]]]. rewrite Hh. apply EndsRight_last; assumption.
Qed.

Variable skip : bool.
Hypothesis Hskip : SkipBranchSelection config = skip.

Lemma afterNamespace_ends (fuel : nat)
    (gitProviderConfigId providerId : string) (nv : NamespaceVars)
    (h : History) :
  Running skip h ->
  EndsRight skip
    (fst (afterNamespace env config fuel gitProviderConfigId providerId nv h))
    (snd (afterNamespace env config fuel gitProviderConfigId providerId nv h)).
Proof.
  intros Hrun. unfold afterNamespace, bind.
  match goal with
  | |- context [repositoryLoop env config fuel ?p ?n ?pi ?pp ?v h] =>
    pose proof (RepositoryRun_ends env config p pp n pi skip _ _ _ _
                  (repositoryLoop_run env config p pp n pi fuel v h) Hrun)
      as Hends;
    destruct (repositoryLoop env config fuel p n pi pp v h)
      as [[[rv | r] | ] h'] eqn:Hloop
  end; simpl in Hends |- *.
  - destruct Hends as [e [repo [Hh [Hchosen [_ [He Hrest]]]]]].
    rewrite Hskip. destruct skip; unfold ret, callSetBranchFromWizard;
      simpl.
    + rewrite Hchosen, Hh. apply EndsRight_last; assumption.
    + apply EndsRight_running. apply Running_cons; [reflexivity | ].
      rewrite Hh. apply Running_cons; assumption.
  - apply EndsRight_last'. exact Hends.
  - apply EndsRight_running. exact Hends.
Qed.

Lemma providerFlow_ends (fuel : nat)
    (gitProviderViewList : list GitProviderView.t)
    (gitProviderConfigId : string) (h : History) :
  Running skip h ->
  EndsRight skip
    (fst (providerFlow env config fuel gitProviderViewList
            gitProviderConfigId h))
    (snd (providerFlow env config fuel gitProviderViewList
            gitProviderConfigId h)).
Proof.
  intros Hrun. unfold providerFlow, bind.
  match goal with
  | |- context [namespaceLoop env config fuel ?p ?pp ?v h] =>
    pose proof (NamespaceRun_ends env config p pp skip _ _ _ _
                  (namespaceLoop_run env config p pp fuel v h) Hrun)
      as Hends;
    destruct (namespaceLoop env config fuel p pp v h)
      as [[[nv | r] | ] h'] eqn:Hloop
  end; simpl in Hends |- *.
  - apply afterNamespace_ends. exact Hends.
  - apply EndsRight_last'. exact Hends.
  - apply EndsRight_running. exact Hends.
Qed.

Lemma withSamples_ends (fuel : nat) (samples : list Sample.t)
    (h : History) :
  Running skip h ->
  EndsRight skip (fst (withSamples env config fuel samples h))
                 (snd (withSamples env config fuel samples h)).
Proof.
  intros Hrun. unfold withSamples.
  destruct (_ || Manual config).
  { apply EndsRight_running, Running_cons; [reflexivity | exact Hrun]. }
  unfold bind, ret, callProviderPrompt, callUrlInput, callSamplePrompt,
    callGetGitContext. cbv beta zeta.
  set (views := buildGitProviderViewList _ _).
  set (answer := GetProviderIdFromPrompt env h views _ _).
  destruct (String.eqb answer EmptyString) eqn:Hempty.
  { apply EndsRight_last; [ | exact Hrun]. simpl. rewrite Hempty.
    reflexivity. }
  assert (Hrun' : Running skip
                    (EvProviderPrompt views (ProjectOrder config)
                       (Nat.ltb 0 (length samples)) answer :: h)).
  { apply Running_cons; [ | exact Hrun]. simpl. rewrite Hempty.
    reflexivity. }
  destruct (String.eqb answer (CustomRepoIdentifier env)).
  { apply EndsRight_running, Running_cons; [reflexivity | exact Hrun']. }
  destruct (String.eqb answer (CREATE_FROM_SAMPLE env)).
  { destruct (GetSampleFromPrompt env _ samples) as [sample|] eqn:Hsample.
    - match goal with
      | |- context [GetGitContext env ?h0 ?u] =>
        destruct (GetGitContext env h0 u) as [[repo res] [err|]]
      end; simpl;
        (apply EndsRight_running, Running_cons; [reflexivity | ];
         apply Running_cons; [reflexivity | exact Hrun']).
    - apply EndsRight_last; [reflexivity | exact Hrun']. }
  apply providerFlow_ends. exact Hrun'.
Qed.

(** The latest event of a finished run decides its result: whenever the
    history holds an event that forces a result, that event is the latest
    one and the wizard returned what it forces. *)
Lemma wizard_ends_right (fuel : nat) :
  EndsRight skip (fst (getRepositoryFromWizard env config fuel []))
                 (snd (getRepositoryFromWizard env config fuel [])).
Proof.
  unfold getRepositoryFromWizard, bind, emit, ret, callListSamples.
  destruct (ListSamples env []) as [[samples res] [err|]]; simpl;
    apply withSamples_ends.
  - apply Running_cons; [reflexivity | ].
    apply Running_cons; [reflexivity | ]. intros e [].
  - apply Running_cons; [reflexivity | ]. intros e [].
Qed.

End WizardLemmas.

(** ** Invariants of the history *)

(** A property of histories that survives every event the wizard can add
    holds of the history of every run. *)
Section HistoryInvariant.

Variable env : Env.
Variable config : RepositoryWizardConfig.
Variable Inv : History -> Prop.

Hypothesis Inv_event :
  forall e h,
    isRepositoryPrompt e = false ->
    (isBranchWizard e = true -> SkipBranchSelection config = false) ->
    Inv h -> Inv (e :: h).

Hypothesis Inv_repositoryPrompt :
  forall providerId perPage namespaceId parentIdentifier v h,
    snd (repoFetched env providerId perPage namespaceId v h) = None ->
    Inv h ->
    Inv (repoPromptEvent env config providerId perPage namespaceId
           parentIdentifier v h
         :: repoFetchEvent env providerId perPage namespaceId v h :: h).

Ltac inv_event :=
  repeat (apply Inv_event;
          [ reflexivity | intros Hb; discriminate Hb | ]);
  try assumption.

Lemma NamespaceRun_invariant providerId perPage v h o h' :
  NamespaceRun env config providerId perPage v h o h' -> Inv h -> Inv h'.
Proof.
  induction 1 as [v h | v h v' h' o h'' Hpass Hrun IH | v h v' h' Hpass
                 | v h r h' Hpass]; intros Hh;
    [ assumption | apply IH | | ]; destruct Hpass; inv_event.
Qed.

Lemma RepositoryRun_invariant providerId perPage namespaceId
    parentIdentifier v h o h' :
  RepositoryRun env config providerId perPage namespaceId parentIdentifier
    v h o h' ->
  Inv h -> Inv h'.
Proof.
  induction 1 as [v h | v h v' h' o h'' Hpass Hrun IH | v h v' h' Hpass
                 | v h r h' Hpass]; intros Hh;
    [ assumption | apply IH | | ]; destruct Hpass;
    first [ apply Inv_repositoryPrompt; assumption | inv_event ].
Qed.

Lemma afterNamespace_invariant fuel gitProviderConfigId providerId nv h :
  Inv h ->
  Inv (snd (afterNamespace env config fuel gitProviderConfigId providerId
              nv h)).
Proof.
  intros Hh. unfold afterNamespace, bind.
  match goal with
  | |- context [repositoryLoop env config fuel ?p ?n ?pi ?pp ?v h] =>
    pose proof (RepositoryRun_invariant p pp n pi _ _ _ _
                  (repositoryLoop_run env config p pp n pi fuel v h) Hh)
      as Hinv;
    destruct (repositoryLoop env config fuel p n pi pp v h)
      as [[[rv | r] | ] h']
  end; simpl in Hinv |- *; try assumption.
  destruct (SkipBranchSelection config) eqn:Hskip; simpl; [assumption | ].
  apply Inv_event; [reflexivity | intros _; reflexivity | assumption].
Qed.

Lemma providerFlow_invariant fuel gitProviderViewList gitProviderConfigId h :
  Inv h ->
  Inv (snd (providerFlow env config fuel gitProviderViewList
              gitProviderConfigId h)).
Proof.
  intros Hh. unfold providerFlow, bind.
  match goal with
  | |- context [namespaceLoop env config fuel ?p ?pp ?v h] =>
    pose proof (NamespaceRun_invariant p pp _ _ _ _
                  (namespaceLoop_run env config p pp fuel v h) Hh)
      as Hinv;
    destruct (namespaceLoop env config fuel p pp v h)
      as [[[nv | r] | ] h']
  end; simpl in Hinv |- *; try assumption.
  apply afterNamespace_invariant. assumption.
Qed.

Lemma withSamples_invariant fuel samples h :
  Inv h -> Inv (snd (withSamples env config fuel samples h)).
Proof.
  intros Hh. unfold withSamples.
  destruct (_ || Manual config); [simpl; inv_event | ].
  unfold bind, ret, callProviderPrompt, callUrlInput, callSamplePrompt,
    callGetGitContext. cbv beta zeta.
  repeat match goal with
         | |- context [if ?c then _ else _] => destruct c
         | |- context [match GetSampleFromPrompt ?e ?h0 ?s with _ => _ end] =>
           destruct (GetSampleFromPrompt e h0 s)
         | |- context [match snd (GetGitContext ?e ?h0 ?u) with _ => _ end] =>
           destruct (GetGitContext e h0 u) as [[? ?] [?|]]
         end; simpl; inv_event.
  apply providerFlow_invariant. inv_event.
Qed.

Lemma wizard_invariant fuel :
  Inv [] -> Inv (snd (getRepositoryFromWizard env config fuel [])).
Proof.
  intros Hnil.
  unfold getRepositoryFromWizard, bind, emit, ret, callListSamples.
  destruct (ListSamples env []) as [[samples res] [err|]]; simpl;
    apply withSamples_invariant; inv_event.
Qed.

End HistoryInvariant.

(** ** The history is in program order *)

Lemma upTo_le (n m : nat) (h : History) :
  (n <= m)%nat -> upTo n h -> upTo m h.
Proof.
  intros Hle Hh. unfold upTo in *. eapply List.Forall_impl; [ | exact Hh].
  simpl. intros e He. lia.
Qed.

Lemma InOrder_cons (e : Event) (h : History) :
  upTo (stage e) h -> InOrder h ->
  InOrder (e :: h) /\ upTo (stage e) (e :: h).
Proof.
  intros Hup Hord. split.
  - constructor; assumption.
  - constructor; [lia | assumption].
Qed.

Lemma InOrder_app (n : nat) (ext h : History) :
  Forall (fun e => stage e = n) ext -> upTo n h -> InOrder h ->
  InOrder (ext ++ h)%list /\ upTo n (ext ++ h)%list.
Proof.
  intros Hext Hup Hord. induction Hext as [|e ext He Hext IH]; simpl.
  - split; assumption.
  - destruct IH as [IHord IHup]. rewrite <- He in *.
    apply InOrder_cons; assumption.
Qed.

Lemma isNamespaceEvent_stage (ext : History) :
  Forall (fun e => isNamespaceEvent e = true) ext ->
  Forall (fun e => stage e = 5%nat) ext.
Proof.
  apply List.Forall_impl. intros e He.
  destruct e; try discriminate He; reflexivity.
Qed.

Lemma isRepositoryEvent_stage (ext : History) :
  Forall (fun e => isRepositoryEvent e = true) ext ->
  Forall (fun e => stage e = 6%nat) ext.
Proof.
  apply List.Forall_impl. intros e He.
  destruct e; try discriminate He; reflexivity.
Qed.

Section StageOrder.

Variable env : Env.
Variable config : RepositoryWizardConfig.

Ltac in_order :=
  repeat match goal with
         | |- InOrder (_ :: _) => apply InOrder_cons; [cbn [stage] | ]
         | |- upTo ?n (_ :: ?h) =>
           apply List.Forall_cons; [cbn [stage]; lia | change (upTo n h)]
         | H : upTo ?n ?h |- upTo ?m ?h =>
           apply (upTo_le n m h); [lia | exact H]
         | H : InOrder ?h |- InOrder ?h => exact H
         | |- upTo _ [] => apply List.Forall_nil
         | |- InOrder [] => constructor
         end.

Lemma afterNamespace_in_order fuel gitProviderConfigId providerId nv h :
  upTo 5 h -> InOrder h ->
  InOrder (snd (afterNamespace env config fuel gitProviderConfigId providerId
                  nv h)).
Proof.
  intros Hup Hord. unfold afterNamespace, bind.
  match goal with
  | |- context [repositoryLoop env config fuel ?p ?n ?pi ?pp ?v h] =>
    destruct (RepositoryRun_events env config p pp n pi _ _ _ _
                (repositoryLoop_run env config p pp n pi fuel v h))
      as [ext [Hh Hext]];
    destruct (repositoryLoop env config fuel p n pi pp v h)
      as [[[rv | r] | ] h']
  end; simpl in Hh |- *; subst h';
    destruct (InOrder_app 6 ext h (isRepositoryEvent_stage ext Hext)
                (upTo_le 5 6 h ltac:(lia) Hup) Hord) as [Hord' Hup'];
    try exact Hord'.
  destruct (SkipBranchSelection config); simpl; [exact Hord' | ].
  apply InOrder_cons; [simpl | exact Hord'].
  apply (upTo_le 6 7); [lia | exact Hup'].
Qed.

Lemma providerFlow_in_order fuel views gitProviderConfigId h :
  upTo 2 h -> InOrder h ->
  InOrder (snd (providerFlow env config fuel views gitProviderConfigId h)).
Proof.
  intros Hup Hord. unfold providerFlow, bind.
  match goal with
  | |- context [namespaceLoop env config fuel ?p ?pp ?v h] =>
    destruct (NamespaceRun_events env config p pp _ _ _ _
                (namespaceLoop_run env config p pp fuel v h))
      as [ext [Hh Hext]];
    destruct (namespaceLoop env config fuel p pp v h)
      as [[[nv | r] | ] h']
  end; simpl in Hh |- *; subst h';
    destruct (InOrder_app 5 ext h (isNamespaceEvent_stage ext Hext)
                (upTo_le 2 5 h ltac:(lia) Hup) Hord) as [Hord' Hup'];
    try exact Hord'.
  apply afterNamespace_in_order; assumption.
Qed.

Lemma withSamples_in_order fuel samples h :
  upTo 1 h -> InOrder h ->
  InOrder (snd (withSamples env config fuel samples h)).
Proof.
  intros Hup Hord. unfold withSamples.
  destruct (_ || Manual config); [simpl; in_order | ].
  unfold bind, ret, callProviderPrompt, callUrlInput, callSamplePrompt,
    callGetGitContext. cbv beta zeta.
  repeat match goal with
         | |- context [if ?c then _ else _] => destruct c
         | |- context [match GetSampleFromPrompt ?e ?h0 ?s with _ => _ end] =>
           destruct (GetSampleFromPrompt e h0 s)
         | |- context [match snd (GetGitContext ?e ?h0 ?u) with _ => _ end] =>
           destruct (GetGitContext e h0 u) as [[? ?] [?|]]
         end; simpl; in_order.
  apply providerFlow_in_order; in_order.
Qed.

(** In the history of a run no event comes after an event of a later
    stage: sample query, log line, provider prompt, URL input or sample
    prompt, sample lookup, namespace loop, repository loop, branch wizard. *)
Lemma wizard_in_order fuel :
  InOrder (snd (getRepositoryFromWizard env config fuel [])).
Proof.
  unfold getRepositoryFromWizard, bind, emit, ret, callListSamples.
  destruct (ListSamples env []) as [[samples res] [err|]]; simpl;
    apply withSamples_in_order; in_order.
Qed.

End StageOrder.

(** ** The claims *)

(** C1. The quirk predicate is true for exactly azure-devops, bitbucket,
    gitness and aws-codecommit.  The namespace loop uses it as it is, so
    bitbucket stays without pagination there; the repository loop differs
    from it for bitbucket and for no other provider, and for bitbucket its
    test is false, so that a navigation answer is followed in the repository
    loop and not in the namespace loop. *)
Theorem pagination_quirk_providers (providerId : string) :
  (isGitProviderWithUnsupportedPagination providerId = true <->
   providerId = "azure-devops" \/ providerId = "bitbucket" \/
   providerId = "gitness" \/ providerId = "aws-codecommit") /\
  namespacePaginationDisabled providerId
  = isGitProviderWithUnsupportedPagination providerId /\
  (repositoryPaginationDisabled providerId
   <> isGitProviderWithUnsupportedPagination providerId <->
   providerId = "bitbucket") /\
  repositoryPaginationDisabled "bitbucket" = false /\
  namespacePaginationDisabled "bitbucket" = true /\
  navigates (repositoryPaginationDisabled "bitbucket") "next" = true /\
  navigates (namespacePaginationDisabled "bitbucket") "next" = false.
Proof.
  unfold repositoryPaginationDisabled, namespacePaginationDisabled,
    isGitProviderWithUnsupportedPagination.
  repeat split; try reflexivity.
  - destruct (String.eqb_spec providerId "azure-devops"); [auto | ].
    destruct (String.eqb_spec providerId "bitbucket"); [auto | ].
    destruct (String.eqb_spec providerId "gitness"); [auto | ].
    destruct (String.eqb_spec providerId "aws-codecommit"); [auto | ].
    intros H; discriminate H.
  - intros [-> | [-> | [-> | ->]]]; reflexivity.
  - destruct (String.eqb_spec providerId "bitbucket") as [-> | Hne];
      [reflexivity | ].
    rewrite andb_true_r. intros H. contradiction H. reflexivity.
  - intros ->. simpl. discriminate.
Qed.

(** C4. Whenever the user backs out of a prompt (provider, sample, namespace
    or repository), that prompt is the latest event of the run, so nothing
    is queried after it, and the wizard returns a nil repository with the
    sentinel [ErrCtrlCAbort] itself.  When the prompt is the namespace
    prompt, the run holds no repository query, no repository prompt and no
    call of the branch wizard at all. *)
Theorem cancel_returns_ErrCtrlCAbort
    (env : Env) (config : RepositoryWizardConfig) (fuel : nat) (e : Event) :
  In e (snd (getRepositoryFromWizard env config fuel [])) ->
  isCancel e = true ->
  fst (getRepositoryFromWizard env config fuel [])
  = Done (None, Some ErrCtrlCAbort) /\
  snd (getRepositoryFromWizard env config fuel [])
  = e :: tl (snd (getRepositoryFromWizard env config fuel [])) /\
  (isNamespacePrompt e = true ->
   Forall (fun e' => isRepositoryEvent e' = false /\ isBranchWizard e' = false)
     (snd (getRepositoryFromWizard env config fuel []))).
Proof.
  intros Hin Hcancel.
  assert (Hends : endsWizard (SkipBranchSelection config) e
                  = Some (None, Some ErrCtrlCAbort)).
  { destruct e; simpl in Hcancel |- *; try discriminate Hcancel.
    - rewrite Hcancel. reflexivity.
    - destruct answer; [discriminate Hcancel | reflexivity].
    - apply andb_true_iff in Hcancel as [Hid Hnav].
      apply String.eqb_eq in Hnav. rewrite Hnav, Hid.
      unfold navigates. rewrite andb_false_r. reflexivity.
    - destruct answer as [[repo|] navigate]; [discriminate Hcancel | ].
      apply String.eqb_eq in Hcancel. simpl. rewrite Hcancel.
      unfold navigates. rewrite andb_false_r. reflexivity. }
  destruct (wizard_ends_right env config (SkipBranchSelection config) eq_refl
              fuel e (None, Some ErrCtrlCAbort) Hin Hends) as [Hres Hlast].
  split; [exact Hres | split; [exact Hlast | ]].
  intros Hns. pose proof (wizard_in_order env config fuel) as Hord.
  rewrite Hlast in Hord |- *. inversion Hord as [|e0 h0 Hord' Hle]; subst.
  assert (Hstage : stage e = 5%nat).
  { destruct e; try discriminate Hns; reflexivity. }
  rewrite Hstage in Hle. constructor.
  - destruct e; try discriminate Hns. split; reflexivity.
  - eapply List.Forall_impl; [ | exact Hle]. simpl. intros e' He'.
    destruct e'; simpl in He' |- *; try (split; reflexivity); lia.
Qed.

(** C6, as the code has it.  Whenever a namespace page or repository page
    query fails, the failed query is the latest event of the run (no retry,
    no prompt after it) and the wizard returns a nil repository with the
    very error of the query, not wrapped and with no context added. *)
Theorem page_fetch_failure_returned_as_is
    (env : Env) (config : RepositoryWizardConfig) (fuel : nat) (e : Event)
    (err : error) :
  In e (snd (getRepositoryFromWizard env config fuel [])) ->
  pageFetchFailure e = Some err ->
  fst (getRepositoryFromWizard env config fuel []) = Done (None, Some err) /\
  snd (getRepositoryFromWizard env config fuel [])
  = e :: tl (snd (getRepositoryFromWizard env config fuel [])).
Proof.
  intros Hin Hfail.
  apply (wizard_ends_right env config (SkipBranchSelection config) eq_refl
           fuel e (None, Some err) Hin).
  destruct e; simpl in Hfail |- *; try discriminate Hfail;
    rewrite Hfail; reflexivity.
Qed.

(** C7. With SkipBranchSelection set, the branch wizard is never called, and
    once a repository prompt is answered with a repository that the loop
    accepts, that prompt is the latest event, it showed the page loaded just
    before it, and the wizard returns that very repository with a nil
    error. *)
Theorem skip_branch_selection_returns_chosen_repository
    (env : Env) (config : RepositoryWizardConfig) (fuel : nat) :
  SkipBranchSelection config = true ->
  Forall (fun e => isBranchWizard e = false)
    (snd (getRepositoryFromWizard env config fuel [])) /\
  promptsShowFetched (snd (getRepositoryFromWizard env config fuel [])) /\
  forall e repo,
    In e (snd (getRepositoryFromWizard env config fuel [])) ->
    chosenRepository e = Some repo ->
    fst (getRepositoryFromWizard env config fuel []) = Done (Some repo, None) /\
    snd (getRepositoryFromWizard env config fuel [])
    = e :: tl (snd (getRepositoryFromWizard env config fuel [])).
Proof.
  intros Hskip. split; [ | split].
  - apply (wizard_invariant env config
             (fun h => Forall (fun e => isBranchWizard e = false) h)).
    + intros e h _ Hbranch Hh. constructor; [ | exact Hh].
      destruct (isBranchWizard e); [ | reflexivity].
      rewrite Hskip in Hbranch. discriminate (Hbranch eq_refl).
    + intros. repeat constructor. assumption.
    + constructor.
  - apply (wizard_invariant env config promptsShowFetched).
    + intros e h Hprompt _ Hh. destruct e; try exact Hh.
      discriminate Hprompt.
    + intros providerId perPage namespaceId parentIdentifier v h Hloaded Hh.
      unfold repoPromptEvent, repoFetchEvent. rewrite Hloaded. simpl.
      repeat split. exact Hh.
    + exact I.
  - intros e repo Hin Hchosen.
    apply (wizard_ends_right env config true Hskip fuel e (Some repo, None)
             Hin).
    destruct e; simpl in Hchosen |- *; try discriminate Hchosen.
    destruct (navigates isPaginationDisabled (snd answer));
      [discriminate Hchosen | ]. rewrite Hchosen. reflexivity.
Qed.

(** C10.  [GetRepoBranches] returns an error exactly when the provider
    lookup fails or the provider's branch listing fails; the error is the
    underlying one wrapped with "failed to get git provider: " or
    "failed to get branches: ", and the branch list is then nil.  It returns
    a nil error exactly when both succeed, and then the list is the
    provider's.  (When the lookup hands back a nil provider with a nil
    error the call panics and returns nothing.) *)
Theorem GetRepoBranches_errors
    (s : GitProviderService.t) (gitProviderId namespaceId repositoryId : string)
    (options : GitProviderService.ListOptions) :
  (forall branches e,
     GitProviderService.GetRepoBranches s gitProviderId namespaceId
       repositoryId options
     = GitProviderService.Returns (branches, Some e) <->
     branches = [] /\
     ((exists cause,
         snd (GitProviderService.GetGitProvider s gitProviderId) = Some cause /\
         e = wrapError "failed to get git provider: " cause) \/
      (exists gitProvider cause,
         GitProviderService.GetGitProvider s gitProviderId
         = (Some gitProvider, None) /\
         snd (GitProviderService.ProviderGetRepoBranches gitProvider
                repositoryId namespaceId options) = Some cause /\
         e = wrapError "failed to get branches: " cause))) /\
  (forall branches,
     GitProviderService.GetRepoBranches s gitProviderId namespaceId
       repositoryId options
     = GitProviderService.Returns (branches, None) <->
     exists gitProvider,
       GitProviderService.GetGitProvider s gitProviderId
       = (Some gitProvider, None) /\
       GitProviderService.ProviderGetRepoBranches gitProvider repositoryId
         namespaceId options = (branches, None)) /\
  (forall prefix cause abortText,
     Unwrap (wrapError prefix cause) = Some cause /\
     Error abortText (wrapError prefix cause)
     = prefix ++ Error abortText cause).
Proof.
  unfold GitProviderService.GetRepoBranches.
  split; [ | split]; [ intros branches e | intros branches | ].
  3: { intros prefix cause abortText. split; reflexivity. }
  - destruct (GitProviderService.GetGitProvider s gitProviderId)
      as [[gitProvider|] [err|]]; simpl.
    + split.
      * intros H. injection H as <- <-. split; [reflexivity | ].
        left. exists err. split; reflexivity.
      * intros [-> [[cause [Hc ->]] | [gp [cause [Hc _]]]]].
        -- injection Hc as ->. reflexivity.
        -- discriminate Hc.
    + destruct (GitProviderService.ProviderGetRepoBranches gitProvider
                  repositoryId namespaceId options) as [response [err|]] eqn:Hb.
      * split.
        -- intros H. injection H as <- <-. split; [reflexivity | ].
           right. exists gitProvider, err. rewrite Hb. repeat split.
        -- intros [-> [[cause [Hc _]] | [gp [cause [Hgp [Hc ->]]]]]].
           ++ discriminate Hc.
           ++ injection Hgp as <-. rewrite Hb in Hc. injection Hc as ->.
              reflexivity.
      * split.
        -- intros H. discriminate H.
        -- intros [-> [[cause [Hc _]] | [gp [cause [Hgp [Hc _]]]]]].
           ++ discriminate Hc.
           ++ injection Hgp as <-. rewrite Hb in Hc. discriminate Hc.
    + split.
      * intros H. injection H as <- <-. split; [reflexivity | ].
        left. exists err. split; reflexivity.
      * intros [-> [[cause [Hc ->]] | [gp [cause [Hc _]]]]].
        -- injection Hc as ->. reflexivity.
        -- discriminate Hc.
    + split.
      * intros H. discriminate H.
      * intros [-> [[cause [Hc _]] | [gp [cause [Hgp _]]]]]; discriminate.
  - destruct (GitProviderService.GetGitProvider s gitProviderId)
      as [[gitProvider|] [err|]]; simpl.
    + split; [intros H; discriminate H | intros [gp [H _]]; discriminate H].
    + destruct (GitProviderService.ProviderGetRepoBranches gitProvider
                  repositoryId namespaceId options) as [response [err|]] eqn:Hb.
      * split; [intros H; discriminate H | ].
        intros [gp [Hgp Hc]]. injection Hgp as <-. rewrite Hb in Hc.
        discriminate Hc.
      * split.
        -- intros H. injection H as <-. exists gitProvider.
           split; [reflexivity | exact Hb].
        -- intros [gp [Hgp Hc]]. injection Hgp as <-. rewrite Hb in Hc.
           injection Hc as ->. reflexivity.
    + split; [intros H; discriminate H | intros [gp [H _]]; discriminate H].
    + split; [intros H; discriminate H | intros [gp [H _]]; discriminate H].
Qed.

(** *** The provider choice list *)

Section ProviderViews.

Variable supportedProviders : list SupportedGitProvider.t.

Lemma inner_loop_appends (gitProvider : GitProvider.t)
    (l : list SupportedGitProvider.t) :
  forall views,
    fold_left
      (fun gitProviderViewList supportedProvider =>
         if String.eqb (GitProvider.ProviderId gitProvider)
                       (SupportedGitProvider.Id supportedProvider)
         then (gitProviderViewList
               ++ [viewOf gitProvider supportedProvider])%list
         else gitProviderViewList)
      l views
    = (views ++
       map (viewOf gitProvider)
         (List.filter
            (fun supportedProvider =>
               String.eqb (GitProvider.ProviderId gitProvider)
                          (SupportedGitProvider.Id supportedProvider))
            l))%list.
Proof.
  induction l as [|sp l IH]; intros views; simpl.
  - symmetry. apply app_nil_r.
  - rewrite IH.
    destruct (String.eqb (GitProvider.ProviderId gitProvider)
                         (SupportedGitProvider.Id sp)); simpl.
    + rewrite <- app_assoc. reflexivity.
    + reflexivity.
Qed.

Lemma outer_loop_appends (userGitProviders : list GitProvider.t) :
  forall views,
    fold_left
      (fun gitProviderViewList gitProvider =>
         fold_left
           (fun gitProviderViewList supportedProvider =>
              if String.eqb (GitProvider.ProviderId gitProvider)
                            (SupportedGitProvider.Id supportedProvider)
              then (gitProviderViewList
                    ++ [viewOf gitProvider supportedProvider])%list
              else gitProviderViewList)
           supportedProviders gitProviderViewList)
      userGitProviders views
    = (views ++
       flat_map (fun gp => map (viewOf gp) (matching supportedProviders gp))
         userGitProviders)%list.
Proof.
  induction userGitProviders as [|gp l IH]; intros views.
  - simpl. symmetry. apply app_nil_r.
  - cbn [fold_left flat_map]. rewrite IH, inner_loop_appends, <- app_assoc.
    reflexivity.
Qed.

Lemma buildGitProviderViewList_flat_map
    (userGitProviders : list GitProvider.t) :
  buildGitProviderViewList supportedProviders userGitProviders
  = flat_map (fun gp => map (viewOf gp) (matching supportedProviders gp))
      userGitProviders.
Proof.
  unfold buildGitProviderViewList. apply outer_loop_appends.
Qed.

(** With distinct identifiers in the supported list, a configured
    provider matches one entry at most. *)
Lemma matching_at_most_one (gitProvider : GitProvider.t) :
  List.NoDup (map SupportedGitProvider.Id supportedProviders) ->
  (isSupportedProvider supportedProviders gitProvider = false /\
   matching supportedProviders gitProvider = []) \/
  (isSupportedProvider supportedProviders gitProvider = true /\
   exists sp, matching supportedProviders gitProvider = [sp]).
Proof.
  unfold isSupportedProvider, matching.
  induction supportedProviders as [|sp l IH]; simpl; intros Hnodup.
  - left. split; reflexivity.
  - inversion Hnodup as [|x xs Hnotin Hnodup']; subst.
    destruct (String.eqb_spec (GitProvider.ProviderId gitProvider)
                              (SupportedGitProvider.Id sp)) as [Heq | Hne];
      simpl.
    + right. split; [reflexivity | ]. exists sp. f_equal.
      clear IH Hnodup Hnodup'.
      induction l as [|sp' l IHl]; simpl; [reflexivity | ].
      destruct (String.eqb_spec (GitProvider.ProviderId gitProvider)
                                (SupportedGitProvider.Id sp')) as [Heq' | _].
      * contradiction Hnotin. left. congruence.
      * apply IHl. intros Hin. apply Hnotin. right. exact Hin.
    + apply IH. exact Hnodup'.
Qed.

Lemma providerOfView_viewOf gp sp : providerOfView (viewOf gp sp) = gp.
Proof. destruct gp. reflexivity. Qed.

End ProviderViews.

(** C9.  The providers behind the views of the choice list are the
    configured providers whose ProviderId is the Id of a supported provider:
    a configured provider of an unsupported kind has no view.  With distinct
    identifiers in the supported list they are exactly these, in
    configuration order, each once.  Every view carries the name of a
    supported provider with its ProviderId. *)
Theorem provider_choice_list
    (supportedProviders : list SupportedGitProvider.t)
    (userGitProviders : list GitProvider.t) :
  (forall gitProvider,
     In gitProvider
       (map providerOfView
          (buildGitProviderViewList supportedProviders userGitProviders)) <->
     In gitProvider userGitProviders /\
     isSupportedProvider supportedProviders gitProvider = true) /\
  (List.NoDup (map SupportedGitProvider.Id supportedProviders) ->
   map providerOfView
     (buildGitProviderViewList supportedProviders userGitProviders)
   = List.filter (isSupportedProvider supportedProviders) userGitProviders) /\
  (forall view,
     In view (buildGitProviderViewList supportedProviders userGitProviders) ->
     exists supportedProvider,
       In supportedProvider supportedProviders /\
       SupportedGitProvider.Id supportedProvider
       = GitProviderView.ProviderId view /\
       SupportedGitProvider.Name supportedProvider
       = GitProviderView.Name view).
Proof.
  rewrite buildGitProviderViewList_flat_map. split; [ | split].
  - intros gitProvider. split.
    + intros Hin. apply in_map_iff in Hin as [view [<- Hin]].
      apply in_flat_map in Hin as [gp [Hgp Hin]].
      apply in_map_iff in Hin as [sp [<- Hin]].
      rewrite providerOfView_viewOf. split; [exact Hgp | ].
      apply filter_In in Hin as [Hin Heq].
      unfold isSupportedProvider. apply existsb_exists. exists sp.
      split; assumption.
    + intros [Hin Hsup]. unfold isSupportedProvider in Hsup.
      apply existsb_exists in Hsup as [sp [Hsp Heq]].
      apply in_map_iff. exists (viewOf gitProvider sp).
      split; [apply providerOfView_viewOf | ].
      apply in_flat_map. exists gitProvider. split; [exact Hin | ].
      apply in_map. apply filter_In. split; assumption.
  - intros Hnodup.
    induction userGitProviders as [|gp l IH]; simpl; [reflexivity | ].
    rewrite map_app, IH.
    destruct (matching_at_most_one supportedProviders gp Hnodup)
      as [[-> ->] | [-> [sp ->]]]; simpl.
    + reflexivity.
    + rewrite providerOfView_viewOf. reflexivity.
  - intros view Hin. apply in_flat_map in Hin as [gp [_ Hin]].
    apply in_map_iff in Hin as [sp [<- Hin]].
    apply filter_In in Hin as [Hin Heq]. apply String.eqb_eq in Heq.
    exists sp. repeat split; [exact Hin | ]. simpl. symmetry. exact Heq.
Qed.

(** *** Manual entry *)

(** C5, as the code has it.  With no configured provider and no sample, or
    in manual mode, the wizard queries the samples (and logs the failure if
    that query failed), then goes to the URL input and returns its result.
    Before the URL input the sample query is the one and only query: what
    precedes the input is that query and, when it failed, its log line, and
    no provider prompt, namespace query or repository query. *)
Theorem manual_entry_follows_sample_query
    (env : Env) (config : RepositoryWizardConfig) (fuel : nat) :
  (UserGitProviders config = [] /\ fst (fst (ListSamples env [])) = []) \/
  Manual config = true ->
  let r := GetRepositoryFromUrlInput env (sampleQueryEvents env)
             (MultiProject config) (ProjectOrder config)
             (SelectedRepos config) in
  exists before,
    getRepositoryFromWizard env config fuel []
    = (Done r,
       EvUrlInput (MultiProject config) (ProjectOrder config)
         (SelectedRepos config) r :: before) /\
    before = sampleQueryEvents env /\
    count isFetch before = 1%nat /\
    Forall (fun e => (stage e <= 1)%nat) before /\
    (exists samples res err log,
       before = (log ++ [EvListSamples samples res err])%list /\
       (err = None -> log = [])).
Proof.
  intros Hmanual.
  assert (Hcond :
    (Nat.eqb (length (UserGitProviders config)) 0
     && Nat.eqb (length (fst (fst (ListSamples env [])))) 0)
    || Manual config = true).
  { destruct Hmanual as [[-> ->] | ->]; [reflexivity | apply orb_true_r]. }
  exists (sampleQueryEvents env).
  unfold getRepositoryFromWizard, withSamples, sampleQueryEvents, bind, emit,
    ret, callListSamples, callUrlInput.
  cbv beta zeta.
  destruct (ListSamples env []) as [[samples res] [err|]]; simpl in Hcond |- *;
    rewrite Hcond; simpl;
    (split; [reflexivity | split; [reflexivity | split; [reflexivity | ]]]);
    (split; [repeat constructor | ]).
  - eexists samples, res, (Some err), [_].
    split; [reflexivity | intros H; discriminate H].
  - exists samples, res, None, []. split; reflexivity.
Qed.

(** *** Prompts and loaded pages *)

Lemma count_cons (f : Event -> bool) (e : Event) (h : History) :
  count f (e :: h) = if f e then S (count f h) else count f h.
Proof. unfold count. simpl. destruct (f e); reflexivity. Qed.

Lemma count_app (f : Event -> bool) (h1 h2 : History) :
  count f (h1 ++ h2)%list = (count f h1 + count f h2)%nat.
Proof. unfold count. rewrite List.filter_app. apply List.length_app. Qed.

(** *** Where a history splits *)

Lemma split_app (l1 l2 later : History) (e : Event) (earlier : History) :
  (l1 ++ l2)%list = (later ++ e :: earlier)%list ->
  (exists m, l1 = (later ++ e :: m)%list /\ earlier = (m ++ l2)%list) \/
  (exists m, later = (l1 ++ m)%list /\ l2 = (m ++ e :: earlier)%list).
Proof.
  revert later. induction l1 as [|x l1 IH]; intros later H.
  - right. exists later. split; [reflexivity | exact H].
  - destruct later as [|y later]; simpl in H.
    + injection H as -> <-. left. exists l1. split; reflexivity.
    + injection H as -> H. destruct (IH later H) as [[m [-> ->]] | [m [-> ->]]].
      * left. exists m. split; reflexivity.
      * right. exists m. split; reflexivity.
Qed.

(** A split of [above ++ middle ++ below] at an event that occurs neither
    above nor below is a split of the middle. *)
Lemma split_middle (above middle below later : History) (e : Event)
    (earlier : History) :
  (above ++ middle ++ below)%list = (later ++ e :: earlier)%list ->
  ~ In e above -> ~ In e below ->
  exists m n,
    later = (above ++ m)%list /\ middle = (m ++ e :: n)%list /\
    earlier = (n ++ below)%list.
Proof.
  intros H Ha Hb.
  destruct (split_app _ _ _ _ _ H) as [[m [-> _]] | [m [-> H']]].
  - contradiction Ha. apply in_elt.
  - symmetry in H'.
    destruct (split_app _ _ _ _ _ (eq_sym H')) as [[n [-> ->]] | [n [-> ->]]].
    + exists m, n. repeat split.
    + contradiction Hb. apply in_elt.
Qed.

Lemma promptedNext_app (e : Event) (above later : History) :
  promptedNext e later -> promptedNext e (above ++ later)%list.
Proof.
  intros [later' [prompt [-> Hshows]]].
  exists (above ++ later')%list, prompt. rewrite app_assoc.
  split; [reflexivity | exact Hshows].
Qed.

Lemma count_all (f : Event -> bool) (h : History) :
  Forall (fun e => f e = true) h -> count f h = length h.
Proof.
  induction 1 as [|e h He Hh IH]; [reflexivity | ].
  rewrite count_cons, He. simpl. rewrite IH. reflexivity.
Qed.

Lemma count_zero (f : Event -> bool) (h : History) :
  Forall (fun e => f e = false) h -> count f h = 0%nat.
Proof.
  induction 1 as [|e h He Hh IH]; [reflexivity | ].
  rewrite count_cons, He. exact IH.
Qed.

Section Prompts.

Variable env : Env.
Variable config : RepositoryWizardConfig.
Variable providerId : string.
Variable perPage : Z.

(** The namespace loop, seen from a loaded page: the very first page, when
    the flag is still set and the page holds one namespace, ends the loop
    with that namespace and without a prompt; every other loaded page is
    followed by its prompt. *)
Lemma NamespaceRun_prompted v h o h' :
  NamespaceRun env config providerId perPage v h o h' ->
  exists ext,
    h' = (ext ++ h)%list /\
    Forall (fun e => isNamespaceEvent e = true) ext /\
    forall later p page pp namespaces earlier,
      ext = (later ++ EvGetNamespaces p page pp namespaces None
                   :: earlier)%list ->
      (isOnlySingleNamespaceAvailable v = true -> earlier = [] ->
       forall only, namespaces = [only] ->
       later = [] /\ p = providerId /\
       exists nv,
         o = Done (inl nv) /\ namespaceId nv = GitNamespace.Id only /\
         namespace nv = GitNamespace.Name only) /\
      (isOnlySingleNamespaceAvailable v = false \/ earlier <> [] \/
       length namespaces <> 1%nat ->
       promptedNext (EvGetNamespaces p page pp namespaces None) later).
Proof.
  assert (Hprompted :
    forall v h above later p page pp namespaces earlier,
      snd (nsFetched env providerId perPage v h) = None ->
      nsShortCircuits env providerId perPage v h = false ->
      [nsPromptEvent env config providerId perPage v h;
       nsFetchEvent env providerId perPage v h]
      = (later ++ EvGetNamespaces p page pp namespaces None :: earlier)%list ->
      (isOnlySingleNamespaceAvailable v = true -> earlier = [] ->
       forall only, namespaces = [only] -> False) /\
      promptedNext (EvGetNamespaces p page pp namespaces None)
        (above ++ later)%list).
  { intros v0 h0 above later p page pp namespaces earlier Hloaded Hsc Hsplit.
    unfold nsPromptEvent, nsFetchEvent in Hsplit.
    destruct later as [|x [|y later]]; simpl in Hsplit.
    - discriminate Hsplit.
    - injection Hsplit as <- _ <- _ <- _ <-. split.
      + intros Hflag _ only Honly. unfold nsShortCircuits in Hsc.
        rewrite Hflag, Honly in Hsc. discriminate Hsc.
      + apply promptedNext_app. eexists [], _. split; [reflexivity | ].
        simpl. split; reflexivity.
    - injection Hsplit as _ _ Hsplit. exfalso.
      eapply app_cons_not_nil. exact Hsplit. }
  induction 1 as [v h | v h v' h' o h'' Hpass Hrun IH | v h v' h' Hpass
                 | v h r h' Hpass].
  - exists []. split; [reflexivity | split; [constructor | ]].
    intros later p page pp namespaces earlier Hsplit. exfalso.
    eapply app_cons_not_nil. exact Hsplit.
  - destruct IH as [ext [-> [Hext IH]]].
    assert (Hone :
      h' = ([nsPromptEvent env config providerId perPage v h;
             nsFetchEvent env providerId perPage v h] ++ h)%list /\
      snd (nsFetched env providerId perPage v h) = None /\
      nsShortCircuits env providerId perPage v h = false /\
      isOnlySingleNamespaceAvailable v' = false).
    { inversion Hpass; subst; repeat split; assumption. }
    destruct Hone as [-> [Hloaded [Hsc Hflag']]].
    exists (ext ++ [nsPromptEvent env config providerId perPage v h;
                    nsFetchEvent env providerId perPage v h])%list.
    rewrite <- app_assoc. split; [reflexivity | ].
    split; [apply Forall_app; split; [exact Hext | repeat constructor] | ].
    intros later p page pp namespaces earlier Hsplit.
    destruct (split_app _ _ _ _ _ Hsplit) as [[m [Hl ->]] | [m [-> Hr]]].
    + destruct (IH _ _ _ _ _ _ Hl) as [_ Hnext]. split.
      * intros _ Hnil. exfalso. eapply app_cons_not_nil.
        symmetry. exact Hnil.
      * intros _. apply Hnext. left. exact Hflag'.
    + destruct (Hprompted v h ext m p page pp namespaces earlier Hloaded Hsc
                  Hr) as [Hno Hnext].
      split; [ | intros _; exact Hnext].
      intros Hflag Hnil only Honly.
      contradiction (Hno Hflag Hnil only Honly).
  - inversion Hpass; subst.
    + exists [nsFetchEvent env providerId perPage v h].
      split; [reflexivity | split; [repeat constructor | ]].
      intros later p page pp namespaces earlier Hsplit.
      unfold nsFetchEvent in Hsplit.
      match goal with H : nsFetched _ _ _ _ _ = _ |- _ =>
        rewrite H in Hsplit end.
      destruct later as [|x later]; simpl in Hsplit.
      * injection Hsplit as <- _ _ <- <-. split.
        -- intros _ _ only' Honly. injection Honly as <-.
           split; [reflexivity | split; [reflexivity | ]].
           eexists. split; [reflexivity | ]. split; reflexivity.
        -- intros [Hflag | [Hnil | Hlen]];
             [congruence | contradiction Hnil; reflexivity
             | contradiction Hlen; reflexivity].
      * injection Hsplit as _ Hsplit. exfalso.
        eapply app_cons_not_nil. exact Hsplit.
    + exists [nsPromptEvent env config providerId perPage v h;
              nsFetchEvent env providerId perPage v h].
      split; [reflexivity | split; [repeat constructor | ]].
      intros later p page pp namespaces earlier Hsplit.
      match goal with
      | Hl : snd (nsFetched _ _ _ _ _) = None,
        Hs : nsShortCircuits _ _ _ _ _ = false |- _ =>
        destruct (Hprompted v h [] later p page pp namespaces earlier Hl Hs
                    Hsplit) as [Hno Hnext]
      end.
      split; [ | intros _; exact Hnext].
      intros Hflag Hnil only Honly.
      contradiction (Hno Hflag Hnil only Honly).
  - inversion Hpass; subst.
    + exists [nsFetchEvent env providerId perPage v h].
      split; [reflexivity | split; [repeat constructor | ]].
      intros later p page pp namespaces earlier Hsplit.
      unfold nsFetchEvent in Hsplit.
      destruct later as [|x later]; simpl in Hsplit.
      * injection Hsplit as _ _ _ _ Herr. congruence.
      * injection Hsplit as _ Hsplit. exfalso.
        eapply app_cons_not_nil. exact Hsplit.
    + exists [nsPromptEvent env config providerId perPage v h;
              nsFetchEvent env providerId perPage v h].
      split; [reflexivity | split; [repeat constructor | ]].
      intros later p page pp namespaces earlier Hsplit.
      match goal with
      | Hl : snd (nsFetched _ _ _ _ _) = None,
        Hs : nsShortCircuits _ _ _ _ _ = false |- _ =>
        destruct (Hprompted v h [] later p page pp namespaces earlier Hl Hs
                    Hsplit) as [Hno Hnext]
      end.
      split; [ | intros _; exact Hnext].
      intros Hflag Hnil only Honly.
      contradiction (Hno Hflag Hnil only Honly).
Qed.

Variable namespaceId : string.
Variable parentIdentifier : string.

(** The repository loop has no short circuit: every loaded page is followed
    by its prompt. *)
Lemma RepositoryRun_prompted v h o h' :
  RepositoryRun env config providerId perPage namespaceId parentIdentifier
    v h o h' ->
  exists ext,
    h' = (ext ++ h)%list /\
    Forall (fun e => isRepositoryEvent e = true) ext /\
    forall later e earlier,
      ext = (later ++ e :: earlier)%list ->
      isRepositoryPageLoaded e = true -> promptedNext e later.
Proof.
  assert (Hprompted :
    forall v h above later e earlier,
      snd (repoFetched env providerId perPage namespaceId v h) = None ->
      [repoPromptEvent env config providerId perPage namespaceId
         parentIdentifier v h;
       repoFetchEvent env providerId perPage namespaceId v h]
      = (later ++ e :: earlier)%list ->
      isRepositoryPageLoaded e = true ->
      promptedNext e (above ++ later)%list).
  { intros v0 h0 above later e earlier Hloaded Hsplit He.
    destruct later as [|x [|y later]]; simpl in Hsplit.
    - injection Hsplit as <- _. discriminate He.
    - injection Hsplit as <- <- _. apply promptedNext_app.
      eexists [], _. split; [reflexivity | ].
      unfold repoFetchEvent, repoPromptEvent. rewrite Hloaded. simpl.
      split; reflexivity.
    - injection Hsplit as _ _ Hsplit. exfalso.
      eapply app_cons_not_nil. exact Hsplit. }
  assert (Hfailed :
    forall v h later e earlier err,
      snd (repoFetched env providerId perPage namespaceId v h) = Some err ->
      [repoFetchEvent env providerId perPage namespaceId v h]
      = (later ++ e :: earlier)%list ->
      isRepositoryPageLoaded e = true -> False).
  { intros v0 h0 later e earlier err Herr Hsplit He.
    destruct later as [|x later]; simpl in Hsplit.
    - injection Hsplit as <- _. unfold repoFetchEvent in He.
      rewrite Herr in He. discriminate He.
    - injection Hsplit as _ Hsplit. eapply app_cons_not_nil. exact Hsplit. }
  induction 1 as [v h | v h v' h' o h'' Hpass Hrun IH | v h v' h' Hpass
                 | v h r h' Hpass].
  - exists []. split; [reflexivity | split; [constructor | ]].
    intros later e earlier Hsplit. exfalso.
    eapply app_cons_not_nil. exact Hsplit.
  - destruct IH as [ext [-> [Hext IH]]].
    assert (Hone :
      h' = ([repoPromptEvent env config providerId perPage namespaceId
               parentIdentifier v h;
             repoFetchEvent env providerId perPage namespaceId v h]
            ++ h)%list /\
      snd (repoFetched env providerId perPage namespaceId v h) = None).
    { inversion Hpass; subst; split; (reflexivity || assumption). }
    destruct Hone as [-> Hloaded].
    eexists (ext ++ [_; _])%list.
    rewrite <- app_assoc. split; [reflexivity | ].
    split; [apply Forall_app; split; [exact Hext | repeat constructor] | ].
    intros later e earlier Hsplit He.
    destruct (split_app _ _ _ _ _ Hsplit) as [[m [Hl ->]] | [m [-> Hr]]].
    + exact (IH _ _ _ Hl He).
    + exact (Hprompted v h ext m e earlier Hloaded Hr He).
  - inversion Hpass; subst.
    eexists [_; _]. split; [reflexivity | split; [repeat constructor | ]].
    intros later e earlier Hsplit He.
    match goal with
    | Hl : snd (repoFetched _ _ _ _ _ _) = None |- _ =>
      exact (Hprompted v h [] later e earlier Hl Hsplit He)
    end.
  - inversion Hpass; subst.
    + eexists [_]. split; [reflexivity | split; [repeat constructor | ]].
      intros later e earlier Hsplit He. exfalso.
      match goal with
      | Herr : snd (repoFetched _ _ _ _ _ _) = Some _ |- _ =>
        exact (Hfailed v h later e earlier _ Herr Hsplit He)
      end.
    + eexists [_; _]. split; [reflexivity | split; [repeat constructor | ]].
      intros later e earlier Hsplit He.
      match goal with
      | Hl : snd (repoFetched _ _ _ _ _ _) = None |- _ =>
        exact (Hprompted v h [] later e earlier Hl Hsplit He)
      end.
Qed.

(** A repository loop that may make a pass starts with the query for its
    page. *)
Lemma repositoryLoop_first fuel v h :
  exists ext,
    snd (repositoryLoop env config (S fuel) providerId namespaceId
           parentIdentifier perPage v h)
    = (ext ++ repoFetchEvent env providerId perPage namespaceId v h
           :: h)%list.
Proof.
  rewrite repositoryLoop_S.
  pose proof (repositoryIteration_pass env config providerId perPage
                namespaceId parentIdentifier v h) as Hpass.
  pose proof (repositoryLoop_run env config providerId perPage namespaceId
                parentIdentifier fuel) as Hrun.
  destruct (repositoryIteration env config providerId namespaceId
              parentIdentifier perPage v h) as [s h1]. cbn [fst snd] in *.
  assert (Hone : exists one,
            h1 = (one ++ repoFetchEvent env providerId perPage namespaceId
                        v h :: h)%list).
  { destruct Hpass;
      first [ exists []; reflexivity | eexists [_]; reflexivity ]. }
  destruct Hone as [one ->].
  destruct s as [v' | v' | r]; cbn [snd];
    [ | exists one; reflexivity | exists one; reflexivity ].
  specialize (Hrun v'
    (one ++ repoFetchEvent env providerId perPage namespaceId v h
         :: h)%list).
  destruct (RepositoryRun_events _ _ _ _ _ _ _ _ _ _ Hrun) as [ext [Hh _]].
  exists (ext ++ one)%list. rewrite <- app_assoc. exact Hh.
Qed.

End Prompts.

(** *** Paging *)

Lemma wrap32_small (z : Z) :
  -2147483648 <= z <= 2147483647 -> wrap32 z = z.
Proof. intros Hz. unfold wrap32. rewrite Z.mod_small; lia. Qed.

(** One step past the [int32] maximum lands on the minimum. *)
Lemma wrap32_overflow : wrap32 (int32_max + 1) = -2147483648.
Proof. reflexivity. Qed.

Lemma navigates_enabled_false (navigate : string) :
  navigates false navigate = false -> navigate = EmptyString.
Proof.
  intros H. apply navigates_false in H as [H | H]; [discriminate H | exact H].
Qed.

Ltac paging_case :=
  match goal with
  | H : ?p = int32_max
    |- exists v', Continue ?v = Continue v' /\ _ = -2147483648 =>
    exists v; split; [reflexivity | simpl; rewrite H; reflexivity]
  | H : ?a = "next", H' : ?a = "prev" |- _ =>
    rewrite H in H'; discriminate H'
  | H : ?a <> "next", H' : ?a = "next" |- _ => contradiction (H H')
  | H : navigates false ?a = false, H' : ?a = _ |- _ =>
    apply navigates_enabled_false in H; rewrite H in H'; discriminate H'
  | H : Break _ = Continue _ |- _ => discriminate H
  | H : Return _ = Continue _ |- _ => discriminate H
  | H : Continue _ = Continue _ |- _ =>
    injection H as <-; simpl; try rewrite wrap32_small; unfold int32_max in *;
    lia
  | |- exists v', Continue ?v = Continue v' /\ _ =>
    exists v; split; [reflexivity | simpl; try rewrite wrap32_small;
                                    unfold int32_max in *; lia]
  | H : ?a = "prev" -> ?p <= 1, H' : ?a = "prev" |- _ =>
    specialize (H H'); lia
  end.

(** After a pass that goes round, the next thing is the query for the page
    the pass left, and, when that query loads its page, the prompt for it. *)
Lemma namespaceLoop_goes_round (env : Env) (config : RepositoryWizardConfig)
    (providerId : string) (perPage : Z) (fuel : nat) (v : NamespaceVars)
    (h : History) (v' : NamespaceVars) :
  fst (namespaceIteration env config providerId perPage v h) = Continue v' ->
  let h1 := snd (namespaceIteration env config providerId perPage v h) in
  exists later,
    snd (namespaceLoop env config (S (S fuel)) providerId perPage v h)
    = (later ++ nsFetchEvent env providerId perPage v' h1 :: h1)%list /\
    (snd (nsFetched env providerId perPage v' h1) = None ->
     exists later',
       later
       = (later' ++ [nsPromptEvent env config providerId perPage v' h1])%list).
Proof.
  intros Hcont h1.
  pose proof (namespaceIteration_pass env config providerId perPage v h)
    as Hpass.
  rewrite Hcont in Hpass.
  assert (Hflag : isOnlySingleNamespaceAvailable v' = false)
    by (inversion Hpass; reflexivity).
  rewrite namespaceLoop_S, Hcont. fold h1. rewrite namespaceLoop_S.
  pose proof (namespaceIteration_pass env config providerId perPage v' h1)
    as Hpass'.
  pose proof (namespaceLoop_run env config providerId perPage fuel) as Hrun.
  destruct (namespaceIteration env config providerId perPage v' h1)
    as [s h2]. cbn [fst snd] in *.
  assert (Hone : exists one,
            h2 = (one ++ nsFetchEvent env providerId perPage v' h1
                      :: h1)%list /\
            (snd (nsFetched env providerId perPage v' h1) = None ->
             one = [nsPromptEvent env config providerId perPage v' h1])).
  { destruct Hpass';
      first [ exists []; split; [reflexivity | intros; congruence]
            | eexists [_]; split; [reflexivity | intros; reflexivity] ]. }
  destruct Hone as [one [-> Hprompt]].
  assert (Hrest : exists ext,
            snd (match s with
                 | Continue v'' =>
                   namespaceLoop env config fuel providerId perPage v''
                     (one ++ nsFetchEvent env providerId perPage v' h1
                          :: h1)%list
                 | Break v'' =>
                   (Done (inl v''),
                    (one ++ nsFetchEvent env providerId perPage v' h1
                         :: h1)%list)
                 | Return r =>
                   (Done (inr r),
                    (one ++ nsFetchEvent env providerId perPage v' h1
                         :: h1)%list)
                 end)
            = (ext ++ one ++ nsFetchEvent env providerId perPage v' h1
                   :: h1)%list).
  { destruct s as [v'' | v'' | r];
      [ | exists []; reflexivity | exists []; reflexivity ].
    specialize (Hrun v''
      (one ++ nsFetchEvent env providerId perPage v' h1 :: h1)%list).
    destruct (NamespaceRun_events _ _ _ _ _ _ _ _ Hrun) as [ext [Hh _]].
    exists ext. exact Hh. }
  destruct Hrest as [ext Hrest]. exists (ext ++ one)%list.
  split; [rewrite <- app_assoc; exact Hrest | ].
  intros Hloaded. rewrite (Hprompt Hloaded). exists ext. reflexivity.
Qed.

Lemma repositoryLoop_goes_round (env : Env) (config : RepositoryWizardConfig)
    (providerId : string) (perPage : Z) (namespaceId parentIdentifier : string)
    (fuel : nat) (v : RepositoryVars) (h : History) (v' : RepositoryVars) :
  fst (repositoryIteration env config providerId namespaceId
         parentIdentifier perPage v h) = Continue v' ->
  let h1 := snd (repositoryIteration env config providerId namespaceId
                   parentIdentifier perPage v h) in
  exists later,
    snd (repositoryLoop env config (S (S fuel)) providerId namespaceId
           parentIdentifier perPage v h)
    = (later ++ repoFetchEvent env providerId perPage namespaceId v' h1
             :: h1)%list /\
    (snd (repoFetched env providerId perPage namespaceId v' h1) = None ->
     exists later',
       later
       = (later' ++ [repoPromptEvent env config providerId perPage
                       namespaceId parentIdentifier v' h1])%list).
Proof.
  intros Hcont h1.
  rewrite repositoryLoop_S, Hcont. fold h1. rewrite repositoryLoop_S.
  pose proof (repositoryIteration_pass env config providerId perPage
                namespaceId parentIdentifier v' h1) as Hpass'.
  pose proof (repositoryLoop_run env config providerId perPage namespaceId
                parentIdentifier fuel) as Hrun.
  destruct (repositoryIteration env config providerId namespaceId
              parentIdentifier perPage v' h1) as [s h2].
  cbn [fst snd] in *.
  assert (Hone : exists one,
            h2 = (one ++ repoFetchEvent env providerId perPage namespaceId
                        v' h1 :: h1)%list /\
            (snd (repoFetched env providerId perPage namespaceId v' h1)
             = None ->
             one = [repoPromptEvent env config providerId perPage
                      namespaceId parentIdentifier v' h1])).
  { destruct Hpass';
      first [ exists []; split; [reflexivity | intros; congruence]
            | eexists [_]; split; [reflexivity | intros; reflexivity] ]. }
  destruct Hone as [one [-> Hprompt]].
  assert (Hrest : exists ext,
            snd (match s with
                 | Continue v'' =>
                   repositoryLoop env config fuel providerId namespaceId
                     parentIdentifier perPage v''
                     (one ++ repoFetchEvent env providerId perPage
                               namespaceId v' h1 :: h1)%list
                 | Break v'' =>
                   (Done (inl v''),
                    (one ++ repoFetchEvent env providerId perPage
                              namespaceId v' h1 :: h1)%list)
                 | Return r =>
                   (Done (inr r),
                    (one ++ repoFetchEvent env providerId perPage
                              namespaceId v' h1 :: h1)%list)
                 end)
            = (ext ++ one ++ repoFetchEvent env providerId perPage
                               namespaceId v' h1 :: h1)%list).
  { destruct s as [v'' | v'' | r];
      [ | exists []; reflexivity | exists []; reflexivity ].
    specialize (Hrun v''
      (one ++ repoFetchEvent env providerId perPage namespaceId v' h1
           :: h1)%list).
    destruct (RepositoryRun_events _ _ _ _ _ _ _ _ _ _ Hrun)
      as [ext [Hh _]].
    exists ext. exact Hh. }
  destruct Hrest as [ext Hrest]. exists (ext ++ one)%list.
  split; [rewrite <- app_assoc; exact Hrest | ].
  intros Hloaded. rewrite (Hprompt Hloaded). exists ext. reflexivity.
Qed.

(** C3, as the code has it.  In a pass of the namespace loop or of the
    repository loop in which the page is loaded, the prompt is shown and
    pagination is on (page number between 1 and the int32 maximum):
    the pass made one query, for its page, and then prompted;
    on "next" below the int32 maximum the pass leaves the page number plus
    one, and at the int32 maximum it leaves the int32 minimum; on "prev"
    above page 1 it leaves the page number minus one; on "prev" at page 1 it
    leaves page 1; below the int32 maximum the page number it leaves is
    never below 1.  Whenever the pass goes round, the next event of the loop
    is one query for the page number it left, and when that query loads its
    page the prompt for it comes next: after "prev" at page 1, page 1 is
    queried again before the prompt comes back.  Every pass, whatever came
    before it, starts with a query for its page and makes no other query. *)
Theorem page_moves_by_navigation
    (env : Env) (config : RepositoryWizardConfig) (providerId : string)
    (perPage : Z) (fuel : nat) :
  (forall v h,
     namespacePaginationDisabled providerId = false ->
     snd (nsFetched env providerId perPage v h) = None ->
     nsShortCircuits env providerId perPage v h = false ->
     1 <= ns_page v <= int32_max ->
     let pass := namespaceIteration env config providerId perPage v h in
     let navigate := snd (nsAnswer env config providerId perPage v h) in
     let h1 := nsPromptEvent env config providerId perPage v h
               :: nsFetchEvent env providerId perPage v h :: h in
     snd pass = h1 /\
     (navigate = "next" -> ns_page v < int32_max ->
      exists v', fst pass = Continue v' /\ ns_page v' = ns_page v + 1) /\
     (navigate = "prev" -> 1 < ns_page v ->
      exists v', fst pass = Continue v' /\ ns_page v' = ns_page v - 1) /\
     (navigate = "prev" -> ns_page v = 1 ->
      exists v', fst pass = Continue v' /\ ns_page v' = 1) /\
     (ns_page v < int32_max ->
      forall v', fst pass = Continue v' -> 1 <= ns_page v' <= int32_max) /\
     (navigate = "next" -> ns_page v = int32_max ->
      exists v', fst pass = Continue v' /\ ns_page v' = -2147483648) /\
     (forall v',
        fst pass = Continue v' ->
        exists later,
          snd (namespaceLoop env config (S (S fuel)) providerId perPage v h)
          = (later ++ EvGetNamespaces providerId (ns_page v') perPage
                        (fst (nsFetched env providerId perPage v' h1))
                        (snd (nsFetched env providerId perPage v' h1))
                   :: h1)%list /\
          (snd (nsFetched env providerId perPage v' h1) = None ->
           exists later',
             later
             = (later' ++ [nsPromptEvent env config providerId perPage
                             v' h1])%list))) /\
  (forall namespaceId parentIdentifier v h,
     repositoryPaginationDisabled providerId = false ->
     snd (repoFetched env providerId perPage namespaceId v h) = None ->
     1 <= repo_page v <= int32_max ->
     let pass := repositoryIteration env config providerId namespaceId
                   parentIdentifier perPage v h in
     let navigate := snd (repoAnswer env config providerId perPage
                            namespaceId parentIdentifier v h) in
     let h1 := repoPromptEvent env config providerId perPage namespaceId
                 parentIdentifier v h
               :: repoFetchEvent env providerId perPage namespaceId v h
               :: h in
     snd pass = h1 /\
     (navigate = "next" -> repo_page v < int32_max ->
      exists v', fst pass = Continue v' /\ repo_page v' = repo_page v + 1) /\
     (navigate = "prev" -> 1 < repo_page v ->
      exists v', fst pass = Continue v' /\ repo_page v' = repo_page v - 1) /\
     (navigate = "prev" -> repo_page v = 1 ->
      exists v', fst pass = Continue v' /\ repo_page v' = 1) /\
     (repo_page v < int32_max ->
      forall v', fst pass = Continue v' -> 1 <= repo_page v' <= int32_max) /\
     (navigate = "next" -> repo_page v = int32_max ->
      exists v', fst pass = Continue v' /\ repo_page v' = -2147483648) /\
     (forall v',
        fst pass = Continue v' ->
        exists later,
          snd (repositoryLoop env config (S (S fuel)) providerId namespaceId
                 parentIdentifier perPage v h)
          = (later ++ EvGetRepositories providerId namespaceId (repo_page v')
                        perPage
                        (fst (repoFetched env providerId perPage namespaceId
                                v' h1))
                        (snd (repoFetched env providerId perPage namespaceId
                                v' h1))
                   :: h1)%list /\
          (snd (repoFetched env providerId perPage namespaceId v' h1) = None ->
           exists later',
             later
             = (later' ++ [repoPromptEvent env config providerId perPage
                             namespaceId parentIdentifier v' h1])%list))) /\
  (forall v h,
   exists prompts,
     snd (namespaceIteration env config providerId perPage v h)
     = (prompts ++ nsFetchEvent env providerId perPage v h :: h)%list /\
     count isFetch prompts = 0%nat) /\
  (forall namespaceId parentIdentifier v h,
   exists prompts,
     snd (repositoryIteration env config providerId namespaceId
            parentIdentifier perPage v h)
     = (prompts ++ repoFetchEvent env providerId perPage namespaceId v h
                :: h)%list /\
     count isFetch prompts = 0%nat).
Proof.
  split; [ | split; [ | split]].
  - intros v h Hon Hloaded Hsc Hpage pass navigate h1.
    assert (Hh1 : snd pass = h1).
    { subst pass h1.
      pose proof (namespaceIteration_pass env config providerId perPage v h)
        as Hpass.
      destruct (namespaceIteration env config providerId perPage v h)
        as [s h2]. cbn [fst snd] in *.
      destruct Hpass; try reflexivity; [congruence | ].
      unfold nsShortCircuits in Hsc.
      match goal with H : nsFetched _ _ _ _ _ = _ |- _ =>
        rewrite H in Hsc end.
      match goal with H : isOnlySingleNamespaceAvailable _ = true |- _ =>
        rewrite H in Hsc end. discriminate Hsc. }
    split; [exact Hh1 | ].
    assert (Hround :
      forall v',
        fst pass = Continue v' ->
        exists later,
          snd (namespaceLoop env config (S (S fuel)) providerId perPage v h)
          = (later ++ EvGetNamespaces providerId (ns_page v') perPage
                        (fst (nsFetched env providerId perPage v' h1))
                        (snd (nsFetched env providerId perPage v' h1))
                   :: h1)%list /\
          (snd (nsFetched env providerId perPage v' h1) = None ->
           exists later',
             later
             = (later' ++ [nsPromptEvent env config providerId perPage
                             v' h1])%list)).
    { intros v' Hcont. rewrite <- Hh1.
      exact (namespaceLoop_goes_round env config providerId perPage fuel v h
               v' Hcont). }
    clear Hh1. subst pass navigate h1.
    pose proof (namespaceIteration_pass env config providerId perPage v h)
      as Hpass.
    destruct (namespaceIteration env config providerId perPage v h)
      as [s h2]. cbn [fst snd] in *.
    destruct Hpass;
      try match goal with
          | H : navigates _ _ = _ |- _ => rewrite Hon in H
          end;
      try (repeat split; try exact Hround; intros; solve [paging_case]).
    + congruence.
    + unfold nsShortCircuits in Hsc.
      match goal with H : nsFetched _ _ _ _ _ = _ |- _ =>
        rewrite H in Hsc end.
      match goal with H : isOnlySingleNamespaceAvailable _ = true |- _ =>
        rewrite H in Hsc end. discriminate Hsc.
  - intros namespaceId parentIdentifier v h Hon Hloaded Hpage pass navigate
      h1.
    assert (Hh1 : snd pass = h1).
    { subst pass h1.
      pose proof (repositoryIteration_pass env config providerId perPage
                    namespaceId parentIdentifier v h) as Hpass.
      destruct (repositoryIteration env config providerId namespaceId
                  parentIdentifier perPage v h) as [s h2].
      cbn [fst snd] in *.
      destruct Hpass; try reflexivity. congruence. }
    split; [exact Hh1 | ].
    assert (Hround :
      forall v',
        fst pass = Continue v' ->
        exists later,
          snd (repositoryLoop env config (S (S fuel)) providerId namespaceId
                 parentIdentifier perPage v h)
          = (later ++ EvGetRepositories providerId namespaceId (repo_page v')
                        perPage
                        (fst (repoFetched env providerId perPage namespaceId
                                v' h1))
                        (snd (repoFetched env providerId perPage namespaceId
                                v' h1))
                   :: h1)%list /\
          (snd (repoFetched env providerId perPage namespaceId v' h1) = None ->
           exists later',
             later
             = (later' ++ [repoPromptEvent env config providerId perPage
                             namespaceId parentIdentifier v' h1])%list)).
    { intros v' Hcont. rewrite <- Hh1.
      exact (repositoryLoop_goes_round env config providerId perPage
               namespaceId parentIdentifier fuel v h v' Hcont). }
    clear Hh1. subst pass navigate h1.
    pose proof (repositoryIteration_pass env config providerId perPage
                  namespaceId parentIdentifier v h) as Hpass.
    destruct (repositoryIteration env config providerId namespaceId
                parentIdentifier perPage v h) as [s h2].
    cbn [fst snd] in *.
    destruct Hpass;
      try match goal with
          | H : navigates _ _ = _ |- _ => rewrite Hon in H
          end;
      try (repeat split; try exact Hround; intros; solve [paging_case]).
    congruence.
  - intros v h.
    pose proof (namespaceIteration_pass env config providerId perPage v h)
      as Hpass.
    destruct (namespaceIteration env config providerId perPage v h)
      as [s h1]. cbn [fst snd] in *.
    destruct Hpass;
      first [ exists []; split; reflexivity
            | eexists [_]; split; reflexivity ].
  - intros namespaceId parentIdentifier v h.
    pose proof (repositoryIteration_pass env config providerId perPage
                  namespaceId parentIdentifier v h) as Hpass.
    destruct (repositoryIteration env config providerId namespaceId
                parentIdentifier perPage v h) as [s h1]. cbn [fst snd] in *.
    destruct Hpass;
      first [ exists []; split; reflexivity
            | eexists [_]; split; reflexivity ].
Qed.

(** *** A failed sample query *)

Section Simulation.

Variables base1 base2 : History.
Variables env1 env2 : Env.
Variable config : RepositoryWizardConfig.
Hypothesis Hsame : SameAfter base1 base2 env1 env2.

Local Notation "m1 ~ m2" := (Sim base1 base2 m1 m2) (at level 70).

Lemma Sim_ret {A : Type} (a : A) : ret a ~ ret a.
Proof. intros x. exists a, []. split; reflexivity. Qed.

Lemma Sim_bind {A B : Type} (m1 m2 : Wiz A) (k1 k2 : A -> Wiz B) :
  m1 ~ m2 -> (forall a, k1 a ~ k2 a) -> bind m1 k1 ~ bind m2 k2.
Proof.
  intros Hm Hk x. destruct (Hm x) as [a [l1 [H1 H2]]].
  destruct (Hk a (l1 ++ x)%list) as [b [l2 [H3 H4]]].
  exists b, (l2 ++ l1)%list. unfold bind. rewrite H1, H2, H3, H4.
  rewrite <- !app_assoc. split; reflexivity.
Qed.

Ltac sim_call lemma :=
  intros x; eexists _, [_]; cbv beta delta
    [callUrlInput callProviderPrompt callSamplePrompt callGetGitContext
     callGetNamespaces callNamespacePrompt callGetRepositories
     callRepositoryPrompt callSetBranchFromWizard] zeta;
  rewrite (lemma _ _ _ _ Hsame); split; reflexivity.

Lemma Sim_callUrlInput : callUrlInput env1 config ~ callUrlInput env2 config.
Proof. sim_call same_GetRepositoryFromUrlInput. Qed.

Lemma Sim_callProviderPrompt views samplesAvailable :
  callProviderPrompt env1 config views samplesAvailable
  ~ callProviderPrompt env2 config views samplesAvailable.
Proof. sim_call same_GetProviderIdFromPrompt. Qed.

Lemma Sim_callSamplePrompt samples :
  callSamplePrompt env1 samples ~ callSamplePrompt env2 samples.
Proof. sim_call same_GetSampleFromPrompt. Qed.

Lemma Sim_callGetGitContext url :
  callGetGitContext env1 url ~ callGetGitContext env2 url.
Proof. sim_call same_GetGitContext. Qed.

Lemma Sim_callGetNamespaces providerId page perPage :
  callGetNamespaces env1 providerId page perPage
  ~ callGetNamespaces env2 providerId page perPage.
Proof. sim_call same_GetNamespaces. Qed.

Lemma Sim_callNamespacePrompt namespaceList providerId disabled page perPage :
  callNamespacePrompt env1 config namespaceList providerId disabled page
    perPage
  ~ callNamespacePrompt env2 config namespaceList providerId disabled page
      perPage.
Proof. sim_call same_GetNamespaceIdFromPrompt. Qed.

Lemma Sim_callGetRepositories providerId namespaceId page perPage :
  callGetRepositories env1 providerId namespaceId page perPage
  ~ callGetRepositories env2 providerId namespaceId page perPage.
Proof. sim_call same_GetRepositories. Qed.

Lemma Sim_callRepositoryPrompt repos parentIdentifier disabled page perPage :
  callRepositoryPrompt env1 config repos parentIdentifier disabled page
    perPage
  ~ callRepositoryPrompt env2 config repos parentIdentifier disabled page
      perPage.
Proof. sim_call same_GetRepositoryFromPrompt. Qed.

Lemma Sim_callSetBranchFromWizard cfg :
  callSetBranchFromWizard env1 cfg ~ callSetBranchFromWizard env2 cfg.
Proof. sim_call same_SetBranchFromWizard. Qed.

Ltac sim :=
  repeat first
    [ apply Sim_ret
    | apply Sim_callUrlInput | apply Sim_callProviderPrompt
    | apply Sim_callSamplePrompt | apply Sim_callGetGitContext
    | apply Sim_callGetNamespaces | apply Sim_callNamespacePrompt
    | apply Sim_callGetRepositories | apply Sim_callRepositoryPrompt
    | apply Sim_callSetBranchFromWizard
    | apply Sim_bind; [ | intros ? ]
    | match goal with
      | |- Sim _ _ (if ?c then _ else _) (if ?c then _ else _) => destruct c
      | |- Sim _ _ (match ?d with _ => _ end) (match ?d with _ => _ end) =>
        destruct d
      end ].

Lemma Sim_namespaceIteration providerId perPage v :
  namespaceIteration env1 config providerId perPage v
  ~ namespaceIteration env2 config providerId perPage v.
Proof.
  unfold namespaceIteration, WithSpinner, loadNamespaces. sim.
Qed.

Lemma Sim_repositoryIteration providerId namespaceId parentIdentifier
    perPage v :
  repositoryIteration env1 config providerId namespaceId parentIdentifier
    perPage v
  ~ repositoryIteration env2 config providerId namespaceId parentIdentifier
      perPage v.
Proof.
  unfold repositoryIteration, WithSpinner, loadRepositories. sim.
Qed.

Lemma Sim_namespaceLoop fuel providerId perPage :
  forall v,
    namespaceLoop env1 config fuel providerId perPage v
    ~ namespaceLoop env2 config fuel providerId perPage v.
Proof.
  induction fuel as [|fuel IH]; intros v; simpl.
  - apply Sim_ret.
  - apply Sim_bind; [apply Sim_namespaceIteration | ].
    intros [v' | v' | r]; [apply IH | apply Sim_ret | apply Sim_ret].
Qed.

Lemma Sim_repositoryLoop fuel providerId namespaceId parentIdentifier
    perPage :
  forall v,
    repositoryLoop env1 config fuel providerId namespaceId parentIdentifier
      perPage v
    ~ repositoryLoop env2 config fuel providerId namespaceId
        parentIdentifier perPage v.
Proof.
  induction fuel as [|fuel IH]; intros v; simpl.
  - apply Sim_ret.
  - apply Sim_bind; [apply Sim_repositoryIteration | ].
    intros [v' | v' | r]; [apply IH | apply Sim_ret | apply Sim_ret].
Qed.

Lemma Sim_afterNamespace fuel gitProviderConfigId providerId nv :
  afterNamespace env1 config fuel gitProviderConfigId providerId nv
  ~ afterNamespace env2 config fuel gitProviderConfigId providerId nv.
Proof.
  unfold afterNamespace.
  apply Sim_bind; [apply Sim_repositoryLoop | ]. intros o. sim.
Qed.

Lemma Sim_providerFlow fuel views gitProviderConfigId :
  providerFlow env1 config fuel views gitProviderConfigId
  ~ providerFlow env2 config fuel views gitProviderConfigId.
Proof.
  unfold providerFlow.
  apply Sim_bind; [apply Sim_namespaceLoop | ].
  intros [[nv | r] | ]; [apply Sim_afterNamespace | apply Sim_ret
                        | apply Sim_ret].
Qed.

Lemma Sim_withSamples fuel samples :
  withSamples env1 config fuel samples ~ withSamples env2 config fuel samples.
Proof.
  unfold withSamples.
  rewrite (same_GetSupportedGitProviders _ _ _ _ Hsame),
    (same_CustomRepoIdentifier _ _ _ _ Hsame),
    (same_CREATE_FROM_SAMPLE _ _ _ _ Hsame).
  destruct (_ || Manual config); [sim | ].
  apply Sim_bind; [apply Sim_callProviderPrompt | ]. intros answer.
  destruct (String.eqb answer EmptyString); [apply Sim_ret | ].
  destruct (String.eqb answer (CustomRepoIdentifier env2)); [sim | ].
  destruct (String.eqb answer (CREATE_FROM_SAMPLE env2));
    [ | apply Sim_providerFlow].
  apply Sim_bind; [apply Sim_callSamplePrompt | ].
  intros [sample | ]; [ | apply Sim_ret].
  apply Sim_bind; [apply Sim_callGetGitContext | ].
  intros [[repo res] [err | ]]; simpl; [ | apply Sim_ret].
  rewrite (same_HandleErrorResponse _ _ _ _ Hsame). apply Sim_ret.
Qed.

End Simulation.

(** The provider flow only adds events on top of the history it is given. *)
Lemma providerFlow_extends (env : Env) (config : RepositoryWizardConfig)
    (fuel : nat) (views : list GitProviderView.t)
    (gitProviderConfigId : string) (h : History) :
  exists later,
    snd (providerFlow env config fuel views gitProviderConfigId h)
    = (later ++ h)%list.
Proof.
  apply (providerFlow_invariant env config
           (fun h' => exists later, h' = (later ++ h)%list)).
  - intros e h' _ _ [later ->]. exists (e :: later). reflexivity.
  - intros providerId perPage namespaceId parentIdentifier v h' _ [later ->].
    eexists (_ :: _ :: later). reflexivity.
  - exists []. reflexivity.
Qed.

(** Unless the wizard goes to the URL input at once, the provider prompt is
    the first thing after the sample query; it is told whether there are
    samples. *)
Lemma withSamples_offers_providers (env : Env)
    (config : RepositoryWizardConfig) (fuel : nat) (samples : list Sample.t)
    (h : History) :
  (Nat.eqb (length (UserGitProviders config)) 0
   && Nat.eqb (length samples) 0) || Manual config = false ->
  exists later answer,
    snd (withSamples env config fuel samples h)
    = (later ++
       EvProviderPrompt
         (buildGitProviderViewList (GetSupportedGitProviders env)
            (UserGitProviders config))
         (ProjectOrder config) (Nat.ltb 0 (length samples)) answer :: h)%list.
Proof.
  intros Hcond. unfold withSamples. rewrite Hcond.
  unfold bind, ret, callProviderPrompt, callUrlInput, callSamplePrompt,
    callGetGitContext. cbv beta zeta.
  set (views := buildGitProviderViewList _ _).
  set (answer := GetProviderIdFromPrompt env h views _ _).
  destruct (String.eqb answer EmptyString); [exists [], answer; reflexivity | ].
  destruct (String.eqb answer (CustomRepoIdentifier env));
    [eexists [_], answer; reflexivity | ].
  destruct (String.eqb answer (CREATE_FROM_SAMPLE env)).
  - destruct (GetSampleFromPrompt env _ samples) as [sample|].
    + match goal with
      | |- context [GetGitContext env ?h0 ?u] =>
        destruct (GetGitContext env h0 u) as [[repo res] [err|]]
      end; eexists [_; _], answer; reflexivity.
    + eexists [_], answer; reflexivity.
  - destruct (providerFlow_extends env config fuel views answer
                (EvProviderPrompt views (ProjectOrder config)
                   (Nat.ltb 0 (length samples)) answer :: h))
      as [later Hl].
    exists later, answer. exact Hl.
Qed.


(** ** Concrete runs *)

Lemma scripted_same_after (s1 s2 : Script) (base1 base2 : History) :
  sc_provider s1 = sc_provider s2 ->
  sc_sample s1 = sc_sample s2 ->
  sc_namespaces s1 = sc_namespaces s2 ->
  sc_namespaceAnswers s1 = sc_namespaceAnswers s2 ->
  sc_repositories s1 = sc_repositories s2 ->
  sc_repositoryAnswers s1 = sc_repositoryAnswers s2 ->
  count isNamespacePrompt base1 = count isNamespacePrompt base2 ->
  count isRepositoryPrompt base1 = count isRepositoryPrompt base2 ->
  SameAfter base1 base2 (scripted s1) (scripted s2).
Proof.
  intros Hp Hs Hn Hna Hr Hra Hc1 Hc2.
  constructor; simpl; intros; rewrite ?count_app; congruence.
Qed.

Lemma page_moves_by_navigation_witness :
  namespacePaginationDisabled "github" = false /\
  snd (nsFetched (scripted pageAndPick) "github" 100 firstPageVars []) = None /\
  nsShortCircuits (scripted pageAndPick) "github" 100 firstPageVars []
  = false /\
  snd (nsAnswer (scripted pageAndPick) plainConfig "github" 100
         firstPageVars []) = "next" /\
  exists v',
    fst (namespaceIteration (scripted pageAndPick) plainConfig "github" 100
           firstPageVars []) = Continue v' /\
    ns_page v' = ns_page firstPageVars + 1.
Proof.
  repeat (split; [reflexivity | ]).
  refine (proj1 (proj2 (proj1 (page_moves_by_navigation (scripted pageAndPick)
                                 plainConfig "github" 100 0)
                          firstPageVars [] eq_refl eq_refl eq_refl _))
            eq_refl _).
  - unfold int32_max. simpl. lia.
  - unfold int32_max. simpl. lia.
Defined.

(** C3 as the spec states it fails: on "prev" at page 1 the next pass
    queries page 1 again before it prompts. *)
Lemma prev_on_first_page_queries_again :
  namespaceIteration (scripted prevOnFirstPage) plainConfig "github" 100
    firstPageVars []
  = (Continue afterPrevVars, [prevAnswered; firstPageQuery]) /\
  namespaceIteration (scripted prevOnFirstPage) plainConfig "github" 100
    afterPrevVars [prevAnswered; firstPageQuery]
  = (Return (None, Some ErrCtrlCAbort),
     [cancelledNamespacePrompt; firstPageQuery; prevAnswered; firstPageQuery])
  /\
  noFetch
    (eventsAdded
       (snd (namespaceIteration (scripted prevOnFirstPage) plainConfig
               "github" 100 afterPrevVars [prevAnswered; firstPageQuery]))
       [prevAnswered; firstPageQuery])
  = false.
Proof. repeat split. Qed.

Lemma cancel_returns_ErrCtrlCAbort_witness :
  In cancelledNamespacePrompt
    (snd (getRepositoryFromWizard (scripted prevOnFirstPage) plainConfig 5 []))
  /\ isCancel cancelledNamespacePrompt = true /\
  fst (getRepositoryFromWizard (scripted prevOnFirstPage) plainConfig 5 [])
  = Done (None, Some ErrCtrlCAbort).
Proof.
  refine (let Hin := _ in
          conj Hin
            (conj eq_refl
               (proj1 (cancel_returns_ErrCtrlCAbort (scripted prevOnFirstPage)
                         plainConfig 5 cancelledNamespacePrompt Hin eq_refl)))).
  vm_compute. left. reflexivity.
Defined.

Lemma manual_entry_follows_sample_query_witness :
  Manual manualConfig = true /\
  exists before,
    getRepositoryFromWizard (scripted prevOnFirstPage) manualConfig 5 []
    = (Done (Some backend, None),
       EvUrlInput false 0 ∅ (Some backend, None) :: before) /\
    before = [EvListSamples [] None None].
Proof.
  split; [reflexivity | ].
  destruct (manual_entry_follows_sample_query (scripted prevOnFirstPage)
              manualConfig 5 (or_intror eq_refl))
    as [before [Hrun [Hbefore _]]].
  exists before. split; [exact Hrun | exact Hbefore].
Defined.

(** C5 as the spec states it fails: in manual mode the samples are queried
    before the URL input. *)
Lemma manual_mode_queries_samples :
  snd (getRepositoryFromWizard (scripted prevOnFirstPage) manualConfig 5 [])
  = [EvUrlInput false 0 ∅ (Some backend, None); EvListSamples [] None None] /\
  noFetch
    (snd (getRepositoryFromWizard (scripted prevOnFirstPage) manualConfig 5 []))
  = false.
Proof. split; reflexivity. Qed.

Lemma page_fetch_failure_returned_as_is_witness :
  In failedNamespaceQuery
    (snd (getRepositoryFromWizard (scripted namespacesDown) plainConfig 5 []))
  /\ pageFetchFailure failedNamespaceQuery
     = Some (errorString "connection refused") /\
  fst (getRepositoryFromWizard (scripted namespacesDown) plainConfig 5 [])
  = Done (None, Some (errorString "connection refused")).
Proof.
  refine (let Hin := _ in
          conj Hin
            (conj eq_refl
               (proj1 (page_fetch_failure_returned_as_is
                         (scripted namespacesDown) plainConfig 5
                         failedNamespaceQuery
                         (errorString "connection refused") Hin eq_refl)))).
  vm_compute. left. reflexivity.
Defined.

(** C6 as the spec states it fails: the error of a failed namespace query
    comes back as it is, not wrapped. *)
Lemma failed_namespace_query_not_wrapped :
  getRepositoryFromWizard (scripted namespacesDown) plainConfig 5 []
  = (Done (None, Some (errorString "connection refused")),
     [failedNamespaceQuery;
      EvProviderPrompt [aliceView] 0 false "gp-1";
      EvListSamples [] None None]) /\
  option_map isWrapped
    (returnedError
       (fst (getRepositoryFromWizard (scripted namespacesDown) plainConfig
               5 [])))
  = Some false.
Proof. split; reflexivity. Qed.

Lemma skip_branch_selection_witness :
  SkipBranchSelection skipBranchConfig = true /\
  In websiteChosen
    (snd (getRepositoryFromWizard (scripted pageAndPick) skipBranchConfig 5 []))
  /\ chosenRepository websiteChosen = Some website /\
  fst (getRepositoryFromWizard (scripted pageAndPick) skipBranchConfig 5 [])
  = Done (Some website, None).
Proof.
  refine (let Hin := _ in
          conj eq_refl
            (conj Hin
               (conj eq_refl
                  (proj1 (proj2 (proj2
                     (skip_branch_selection_returns_chosen_repository
                        (scripted pageAndPick) skipBranchConfig 5 eq_refl))
                     websiteChosen website Hin eq_refl))))).
  vm_compute. left. reflexivity.
Defined.



Lemma provider_choice_list_witness :
  List.NoDup (map SupportedGitProvider.Id [github; gitlab; bitbucket]) /\
  map providerOfView
    (buildGitProviderViewList [github; gitlab; bitbucket]
       [aliceOnGithub; bobOnGitea; carolOnGitlab])
  = [aliceOnGithub; carolOnGitlab].
Proof.
  refine (let Hnodup := _ in
          conj Hnodup
            (proj1 (proj2 (provider_choice_list [github; gitlab; bitbucket]
                             [aliceOnGithub; bobOnGitea; carolOnGitlab]))
               Hnodup)).
  simpl. repeat constructor; simpl; intuition discriminate.
Defined.

(** * Properties of the rest of the code *)

(** ** Reading numbers *)

Lemma digits_string_of_uint (d : Decimal.uint) :
  forall acc,
    digits (DecimalString.NilEmpty.string_of_uint d) acc
    = Some (uintValue d acc).
Proof.
  induction d; intros acc; cbn [DecimalString.NilEmpty.string_of_uint digits
                                 uintValue];
    [ reflexivity | .. ];
    match goal with
    | |- context [digit ?c] =>
      let r := eval vm_compute in (digit c) in change (digit c) with r
    end; cbv iota; apply IHd.
Qed.

Lemma uintValue_pos (d : Decimal.uint) :
  forall acc : positive,
    uintValue d (Z.pos acc) = Z.pos (Pos.of_uint_acc d acc).
Proof.
  induction d; intros acc; cbn [uintValue Pos.of_uint_acc];
    [ reflexivity | .. ];
    rewrite <- IHd; f_equal; lia.
Qed.

Lemma uintValue_0 (d : Decimal.uint) :
  uintValue d 0 = Z.of_N (Pos.of_uint d).
Proof.
  induction d; cbn [uintValue Pos.of_uint]; [ reflexivity | exact IHd | .. ];
    simpl Z.add; cbn [Z.of_N]; apply uintValue_pos.
Qed.

Lemma uintValue_to_uint (p : positive) :
  uintValue (Pos.to_uint p) 0 = Z.pos p.
Proof.
  rewrite uintValue_0, DecimalPos.Unsigned.of_to. reflexivity.
Qed.

(** A numeral starts with a digit, not with a sign. *)
Lemma stripSign_string_of_uint (d : Decimal.uint) :
  stripSign (DecimalString.NilEmpty.string_of_uint d)
  = (false, DecimalString.NilEmpty.string_of_uint d).
Proof. destruct d; reflexivity. Qed.

Lemma string_of_uint_nonempty (d : Decimal.uint) :
  d <> Decimal.Nil ->
  DecimalString.NilEmpty.string_of_uint d <> EmptyString.
Proof. destruct d; intros H; [contradiction | discriminate ..]. Qed.

Lemma NilZero_string_of_to_uint (p : positive) :
  DecimalString.NilZero.string_of_uint (Pos.to_uint p)
  = DecimalString.NilEmpty.string_of_uint (Pos.to_uint p).
Proof.
  pose proof (DecimalPos.Unsigned.to_uint_nonnil p) as Hnil.
  destruct (Pos.to_uint p); [contradiction | reflexivity ..].
Qed.

(** A signed row of digits whose value fits is read on either path. *)
Lemma Atoi_reads (s body : string) (neg : bool) (un : Z) :
  stripSign s = (neg, body) -> body <> EmptyString ->
  digits body 0 = Some un ->
  int_min <= (if neg then - un else un) <= int_max ->
  Atoi s = Some (if neg then - un else un).
Proof.
  intros Hsign Hbody Hdigits Hrange. unfold Atoi.
  destruct (_ && _).
  - unfold AtoiFast. rewrite Hsign.
    destruct body; [contradiction | ]. rewrite Hdigits. reflexivity.
  - unfold ParseInt10.
    destruct s as [|c s']; [ | ].
    + simpl in Hsign. injection Hsign as _ <-. contradiction.
    + rewrite Hsign. destruct body; [contradiction | ]. rewrite Hdigits.
      unfold int_min, int_max in Hrange.
      destruct neg; simpl.
      * destruct (Z.ltb_spec 9223372036854775808 un); [lia | reflexivity].
      * destruct (Z.leb_spec 9223372036854775808 un); [lia | reflexivity].
Qed.

(** Reading back what [Itoa] prints. *)
Lemma Atoi_Itoa (n : Z) :
  int_min <= n <= int_max -> Atoi (Itoa n) = Some n.
Proof.
  intros Hrange. unfold Itoa. destruct n as [|p|p].
  - reflexivity.
  - cbn [Z.to_int DecimalString.NilZero.string_of_int].
    rewrite NilZero_string_of_to_uint.
    apply (Atoi_reads _ (DecimalString.NilEmpty.string_of_uint (Pos.to_uint p))
             false (Z.pos p)).
    + apply stripSign_string_of_uint.
    + apply string_of_uint_nonempty, DecimalPos.Unsigned.to_uint_nonnil.
    + rewrite digits_string_of_uint, uintValue_to_uint. reflexivity.
    + exact Hrange.
  - cbn [Z.to_int DecimalString.NilZero.string_of_int].
    rewrite NilZero_string_of_to_uint.
    apply (Atoi_reads _ (DecimalString.NilEmpty.string_of_uint (Pos.to_uint p))
             true (Z.pos p)).
    + reflexivity.
    + apply string_of_uint_nonempty, DecimalPos.Unsigned.to_uint_nonnil.
    + rewrite digits_string_of_uint, uintValue_to_uint. reflexivity.
    + exact Hrange.
Qed.

Lemma digit_range (ch : ascii) (d : Z) : digit ch = Some d -> 0 <= d <= 9.
Proof.
  unfold digit. intros H.
  pose proof (Z.mod_pos_bound (Z.of_N (N_of_ascii ch) - 48) 256 eq_refl).
  destruct (Z.ltb_spec 9 ((Z.of_N (N_of_ascii ch) - 48) mod 256));
    [discriminate H | ]. injection H as <-. lia.
Qed.

Lemma digits_bound (s : string) :
  forall acc n,
    0 <= acc -> digits s acc = Some n ->
    acc * 10 ^ Z.of_nat (String.length s) <= n
    < (acc + 1) * 10 ^ Z.of_nat (String.length s).
Proof.
  induction s as [|ch s IH]; intros acc n Hacc Hd.
  - simpl in *. injection Hd as <-. lia.
  - cbn [digits] in Hd. destruct (digit ch) as [d|] eqn:Hdigit;
      [ | discriminate Hd].
    apply digit_range in Hdigit.
    apply IH in Hd; [ | lia].
    cbn [String.length]. rewrite Nat2Z.inj_succ, Z.pow_succ_r by lia.
    assert (Hpow : 0 < 10 ^ Z.of_nat (String.length s))
      by (apply Z.pow_pos_nonneg; lia).
    nia.
Qed.

Lemma stripSign_length (s body : string) (neg : bool) :
  stripSign s = (neg, body) -> (String.length body <= String.length s)%nat.
Proof.
  destruct s as [|c s']; simpl; [intros [= _ <-]; simpl; lia | ].
  destruct (Ascii.eqb_spec c "-"%char) as [-> | Hm].
  - intros [= _ <-]. lia.
  - destruct (Ascii.eqb_spec c "+"%char) as [-> | Hp].
    + intros [= _ <-]. lia.
    + destruct c as [[|] [|] [|] [|] [|] [|] [|] [|]];
        intros [= _ <-]; simpl; lia.
Qed.

(** What [Atoi] accepts fits Go's [int]. *)
Lemma Atoi_range (s : string) (n : Z) :
  Atoi s = Some n -> int_min <= n <= int_max.
Proof.
  unfold Atoi, int_min, int_max.
  destruct (Z.ltb_spec 0 (Z.of_nat (String.length s))) as [Hpos | Hpos];
    destruct (Z.ltb_spec (Z.of_nat (String.length s)) 19) as [Hlt | Hge];
    cbn [andb].
  - unfold AtoiFast. destruct (stripSign s) as [neg body] eqn:Hsign.
    apply stripSign_length in Hsign.
    destruct body as [|c body']; [discriminate | ].
    destruct (digits (String c body') 0) as [un|] eqn:Hd; [ | discriminate].
    intros [= <-]. apply digits_bound in Hd; [ | lia].
    assert (Hp : 10 ^ Z.of_nat (String.length (String c body')) <= 10 ^ 18)
      by (apply Z.pow_le_mono_r; lia).
    change (10 ^ 18) with 1000000000000000000 in Hp.
    destruct neg; lia.
  - unfold ParseInt10. destruct s; [discriminate | ].
    destruct (stripSign (String a s)) as [neg body].
    destruct body; [discriminate | ].
    destruct (digits (String a0 body) 0) as [un|] eqn:Hd; [ | discriminate].
    apply digits_bound in Hd; [ | lia].
    assert (Hp : 0 < 10 ^ Z.of_nat (String.length (String a0 body)))
      by (apply Z.pow_pos_nonneg; lia).
    destruct neg; simpl.
    + destruct (Z.ltb_spec 9223372036854775808 un); [discriminate | ].
      intros [= <-]. lia.
    + destruct (Z.leb_spec 9223372036854775808 un); [discriminate | ].
      intros [= <-]. lia.
  - destruct s; [discriminate | simpl in Hpos; lia].
  - destruct s; [discriminate | simpl in Hpos; lia].
Qed.

(** ** The repositories controller *)

Lemma Param_absent (params : GitProviderController.Params) (key : string) :
  ~ In key (map fst params) ->
  GitProviderController.Param params key = EmptyString.
Proof.
  induction params as [|[k v] params IH]; simpl; intros Hnot;
    [reflexivity | ].
  destruct (String.eqb_spec k key) as [-> | Hne].
  - contradiction Hnot. left. reflexivity.
  - apply IH. intros Hin. apply Hnot. right. exact Hin.
Qed.

(** X1.  A request without a "page" parameter asks the service for page 1,
    one without a "perPage" parameter for 100 per page, and the same holds
    for any value that [Atoi] refuses; a missing provider or namespace
    parameter is passed on as the empty string.  Whatever the parameters,
    the page and the page size asked for fit Go's [int]. *)
Theorem missing_paging_parameters_default
    (server : GitProviderController.Server)
    (params : GitProviderController.Params) :
  let asked :=
    GitProviderController.asked
      (GitProviderController.GetRepositories server params) in
  (~ In "page" (map fst params) \/
   Atoi (GitProviderController.Param params "page") = None ->
   snd (fst asked) = 1) /\
  (~ In "perPage" (map fst params) \/
   Atoi (GitProviderController.Param params "perPage") = None ->
   snd asked = 100) /\
  (~ In "gitProviderId" (map fst params) ->
   fst (fst (fst asked)) = EmptyString) /\
  (~ In "namespaceId" (map fst params) ->
   snd (fst (fst asked)) = EmptyString) /\
  int_min <= snd (fst asked) <= int_max /\
  int_min <= snd asked <= int_max.
Proof.
  unfold GitProviderController.GetRepositories.
  destruct (GitProviderController.ServiceGetRepositories server _ _ _ _)
    as [response err]. cbn [GitProviderController.asked fst snd].
  repeat split.
  - intros [Habsent | Hrefused].
    + rewrite (Param_absent _ _ Habsent). reflexivity.
    + rewrite Hrefused. reflexivity.
  - intros [Habsent | Hrefused].
    + rewrite (Param_absent _ _ Habsent). reflexivity.
    + rewrite Hrefused. reflexivity.
  - intros Habsent. apply Param_absent, Habsent.
  - intros Habsent. apply Param_absent, Habsent.
  - destruct (Atoi (GitProviderController.Param params "page")) eqn:Ha;
      [apply (Atoi_range _ _ Ha) | unfold int_min; lia].
  - destruct (Atoi (GitProviderController.Param params "page")) eqn:Ha;
      [apply (Atoi_range _ _ Ha) | unfold int_max; lia].
  - destruct (Atoi (GitProviderController.Param params "perPage")) eqn:Ha;
      [apply (Atoi_range _ _ Ha) | unfold int_min; lia].
  - destruct (Atoi (GitProviderController.Param params "perPage")) eqn:Ha;
      [apply (Atoi_range _ _ Ha) | unfold int_max; lia].
Qed.

(** X2.  A "page" or "perPage" parameter that is the decimal numeral of a
    number within Go's [int] is passed to the service as that number,
    whatever it is: zero and negative numbers are not refused. *)
Theorem numeric_paging_parameters_pass_through
    (server : GitProviderController.Server)
    (params : GitProviderController.Params) (n : Z) :
  int_min <= n <= int_max ->
  let asked :=
    GitProviderController.asked
      (GitProviderController.GetRepositories server params) in
  (GitProviderController.Param params "page" = Itoa n ->
   snd (fst asked) = n) /\
  (GitProviderController.Param params "perPage" = Itoa n -> snd asked = n).
Proof.
  intros Hrange. unfold GitProviderController.GetRepositories.
  destruct (GitProviderController.ServiceGetRepositories server _ _ _ _)
    as [response err]. cbn [GitProviderController.asked fst snd].
  split; intros ->; rewrite (Atoi_Itoa n Hrange); reflexivity.
Qed.

(** X3.  The handler answers with JSON exactly when the service returns no
    error, and then once, with status 200 and the service's list.  When the
    service fails every action is an abort with the status code of the
    helper, the last one carrying the helper's message; when the helper
    hands back an error of its own, the handler aborts with it first and
    then aborts a second time with the message. *)
Theorem GetRepositories_response
    (server : GitProviderController.Server)
    (params : GitProviderController.Params) :
  let handled := GitProviderController.GetRepositories server params in
  let '(gitProviderId, namespaceId, page, perPage) :=
    GitProviderController.asked handled in
  let result :=
    GitProviderController.ServiceGetRepositories server gitProviderId
      namespaceId page perPage in
  match snd result with
  | None =>
    GitProviderController.actions handled
    = [GitProviderController.JSON 200 (fst result)]
  | Some err =>
    let '(statusCode, message, codeErr) :=
      GitProviderController.GetHTTPStatusCodeAndMessageFromError server err in
    Forall
      (fun a =>
         GitProviderController.isJSON a = false /\
         GitProviderController.statusOf a = statusCode)
      (GitProviderController.actions handled) /\
    List.last (GitProviderController.actions handled)
      (GitProviderController.JSON 0 [])
    = GitProviderController.AbortWithError statusCode (errorString message) /\
    length (GitProviderController.actions handled)
    = match codeErr with Some _ => 2%nat | None => 1%nat end /\
    (forall e, codeErr = Some e ->
               hd_error (GitProviderController.actions handled)
               = Some (GitProviderController.AbortWithError statusCode e))
  end.
Proof.
  unfold GitProviderController.GetRepositories.
  cbv zeta.
  destruct (GitProviderController.ServiceGetRepositories server _ _ _ _)
    as [response [err|]] eqn:Hservice;
    cbn [GitProviderController.asked GitProviderController.actions fst snd];
    rewrite Hservice; cbn [fst snd]; [ | reflexivity].
  destruct (GitProviderController.GetHTTPStatusCodeAndMessageFromError
              server err) as [[statusCode message] [codeErr|]]; simpl.
  - repeat split; repeat constructor; intros e [= <-]; reflexivity.
  - repeat split; repeat constructor; intros e H; discriminate H.
Qed.

(** ** Passes that go round, and passes that do not *)

Section GoingRound.

Variable env : Env.
Variable config : RepositoryWizardConfig.
Variable providerId : string.
Variable perPage : Z.

(** A pass goes round only on a navigation answer with pagination on. *)
Lemma NamespacePass_continue v h v' h' :
  NamespacePass env config providerId perPage v h (Continue v') h' ->
  navigates (namespacePaginationDisabled providerId)
    (snd (nsAnswer env config providerId perPage v h)) = true.
Proof. inversion 1; assumption. Qed.

Lemma RepositoryPass_continue namespaceId parentIdentifier v h v' h' :
  RepositoryPass env config providerId perPage namespaceId parentIdentifier
    v h (Continue v') h' ->
  navigates (repositoryPaginationDisabled providerId)
    (snd (repoAnswer env config providerId perPage namespaceId
            parentIdentifier v h)) = true.
Proof. inversion 1; assumption. Qed.

End GoingRound.

(** X5.  For a provider without pagination the loops make one pass and no
    more: the namespace loop for azure-devops, bitbucket, gitness and
    aws-codecommit, the repository loop for the same but bitbucket.  The
    pass makes one query and at most one prompt, and the loop is finished
    after it, whatever the prompt answers. *)
Theorem no_pagination_one_pass
    (env : Env) (config : RepositoryWizardConfig) (providerId : string)
    (perPage : Z) (fuel : nat) :
  (isGitProviderWithUnsupportedPagination providerId = true ->
   forall v h,
   exists x,
     namespaceLoop env config (S fuel) providerId perPage v h
     = (Done x, snd (namespaceIteration env config providerId perPage v h)) /\
     (snd (namespaceIteration env config providerId perPage v h)
      = nsFetchEvent env providerId perPage v h :: h \/
      snd (namespaceIteration env config providerId perPage v h)
      = nsPromptEvent env config providerId perPage v h
        :: nsFetchEvent env providerId perPage v h :: h)) /\
  (repositoryPaginationDisabled providerId = true ->
   forall namespaceId parentIdentifier v h,
   exists x,
     repositoryLoop env config (S fuel) providerId namespaceId
       parentIdentifier perPage v h
     = (Done x,
        snd (repositoryIteration env config providerId namespaceId
               parentIdentifier perPage v h)) /\
     (snd (repositoryIteration env config providerId namespaceId
             parentIdentifier perPage v h)
      = repoFetchEvent env providerId perPage namespaceId v h :: h \/
      snd (repositoryIteration env config providerId namespaceId
             parentIdentifier perPage v h)
      = repoPromptEvent env config providerId perPage namespaceId
          parentIdentifier v h
        :: repoFetchEvent env providerId perPage namespaceId v h :: h)).
Proof.
  split.
  - intros Hoff v h. rewrite namespaceLoop_S.
    pose proof (namespaceIteration_pass env config providerId perPage v h)
      as Hpass.
    destruct (namespaceIteration env config providerId perPage v h)
      as [s h1]. cbn [fst snd] in *.
    assert (Hshape : h1 = nsFetchEvent env providerId perPage v h :: h \/
                     h1 = nsPromptEvent env config providerId perPage v h
                          :: nsFetchEvent env providerId perPage v h :: h)
      by (destruct Hpass; auto).
    destruct s as [v' | v' | r].
    + apply NamespacePass_continue in Hpass.
      unfold namespacePaginationDisabled in Hpass. rewrite Hoff in Hpass.
      discriminate Hpass.
    + eexists. split; [reflexivity | exact Hshape].
    + eexists. split; [reflexivity | exact Hshape].
  - intros Hoff namespaceId parentIdentifier v h. rewrite repositoryLoop_S.
    pose proof (repositoryIteration_pass env config providerId perPage
                  namespaceId parentIdentifier v h) as Hpass.
    destruct (repositoryIteration env config providerId namespaceId
                parentIdentifier perPage v h) as [s h1]. cbn [fst snd] in *.
    assert (Hshape :
      h1 = repoFetchEvent env providerId perPage namespaceId v h :: h \/
      h1 = repoPromptEvent env config providerId perPage namespaceId
             parentIdentifier v h
           :: repoFetchEvent env providerId perPage namespaceId v h :: h)
      by (destruct Hpass; auto).
    destruct s as [v' | v' | r].
    + apply RepositoryPass_continue in Hpass. rewrite Hoff in Hpass.
      discriminate Hpass.
    + eexists. split; [reflexivity | exact Hshape].
    + eexists. split; [reflexivity | exact Hshape].
Qed.

Lemma no_pagination_one_pass_witness :
  isGitProviderWithUnsupportedPagination "azure-devops" = true /\
  exists x,
    namespaceLoop (scripted pageAndPick) plainConfig 1 "azure-devops" 100
      firstPageVars []
    = (Done x,
       snd (namespaceIteration (scripted pageAndPick) plainConfig
              "azure-devops" 100 firstPageVars [])).
Proof.
  split; [reflexivity | ].
  destruct (proj1 (no_pagination_one_pass (scripted pageAndPick) plainConfig
                     "azure-devops" 100 0) eq_refl firstPageVars [])
    as [x [Hx _]].
  exists x. exact Hx.
Defined.

(** X6.  With pagination on, an answer that carries a navigation never ends
    a loop, not even when it carries a choice as well: the choice is kept in
    the variables but the loop goes round and queries again.  A navigation
    other than "next" and "prev" leaves the page number as it is. *)
Theorem navigation_answer_goes_round
    (env : Env) (config : RepositoryWizardConfig) (providerId : string)
    (perPage : Z) :
  (forall v h,
     snd (nsFetched env providerId perPage v h) = None ->
     nsShortCircuits env providerId perPage v h = false ->
     let answer := nsAnswer env config providerId perPage v h in
     navigates (namespacePaginationDisabled providerId) (snd answer) = true ->
     exists v',
       fst (namespaceIteration env config providerId perPage v h)
       = Continue v' /\
       namespaceId v' = fst answer /\ ns_navigate v' = snd answer /\
       isOnlySingleNamespaceAvailable v' = false /\
       (snd answer <> "next" -> snd answer <> "prev" ->
        ns_page v' = ns_page v)) /\
  (forall namespaceId parentIdentifier v h,
     snd (repoFetched env providerId perPage namespaceId v h) = None ->
     let answer := repoAnswer env config providerId perPage namespaceId
                     parentIdentifier v h in
     navigates (repositoryPaginationDisabled providerId) (snd answer) = true ->
     exists v',
       fst (repositoryIteration env config providerId namespaceId
              parentIdentifier perPage v h)
       = Continue v' /\
       chosenRepo v' = fst answer /\ repo_navigate v' = snd answer /\
       (snd answer <> "next" -> snd answer <> "prev" ->
        repo_page v' = repo_page v)).
Proof.
  split.
  - intros v h Hloaded Hsc answer Hnav. subst answer.
    pose proof (namespaceIteration_pass env config providerId perPage v h)
      as Hpass.
    destruct (namespaceIteration env config providerId perPage v h)
      as [s h1]. cbn [fst snd] in *.
    destruct Hpass; try congruence;
      try (eexists; split; [reflexivity | ]; cbn;
           repeat split; congruence).
    unfold nsShortCircuits in Hsc.
    match goal with H : nsFetched _ _ _ _ _ = _ |- _ => rewrite H in Hsc end.
    match goal with H : isOnlySingleNamespaceAvailable _ = true |- _ =>
      rewrite H in Hsc end. discriminate Hsc.
  - intros namespaceId parentIdentifier v h Hloaded answer Hnav.
    subst answer.
    pose proof (repositoryIteration_pass env config providerId perPage
                  namespaceId parentIdentifier v h) as Hpass.
    destruct (repositoryIteration env config providerId namespaceId
                parentIdentifier perPage v h) as [s h1]. cbn [fst snd] in *.
    destruct Hpass; try congruence;
      try (eexists; split; [reflexivity | ]; cbn;
           repeat split; congruence).
Qed.

Lemma navigation_answer_goes_round_witness :
  snd (nsFetched (scripted choiceAndNavigation) "github" 100 firstPageVars [])
  = None /\
  nsShortCircuits (scripted choiceAndNavigation) "github" 100 firstPageVars []
  = false /\
  nsAnswer (scripted choiceAndNavigation) plainConfig "github" 100
    firstPageVars [] = ("acme", "first") /\
  exists v',
    fst (namespaceIteration (scripted choiceAndNavigation) plainConfig
           "github" 100 firstPageVars [])
    = Continue v' /\ namespaceId v' = "acme" /\ ns_page v' = 1.
Proof.
  repeat (split; [reflexivity | ]).
  destruct (proj1 (navigation_answer_goes_round (scripted choiceAndNavigation)
                     plainConfig "github" 100)
              firstPageVars [] eq_refl eq_refl eq_refl)
    as [v' [Hv' [Hid [_ [_ Hpage]]]]].
  exists v'. repeat split; [exact Hv' | exact Hid | ].
  apply Hpage; discriminate.
Defined.

(** X7.  For a provider without pagination, a namespace or repository
    prompt answered without a choice ends the run with the sentinel
    [ErrCtrlCAbort], also when the answer is a navigation such as "next":
    the prompt is the latest event of the run. *)
Theorem navigation_without_pagination_aborts
    (env : Env) (config : RepositoryWizardConfig) (fuel : nat) (e : Event) :
  In e (snd (getRepositoryFromWizard env config fuel [])) ->
  leftWithoutChoice e = true ->
  fst (getRepositoryFromWizard env config fuel [])
  = Done (None, Some ErrCtrlCAbort) /\
  snd (getRepositoryFromWizard env config fuel [])
  = e :: tl (snd (getRepositoryFromWizard env config fuel [])).
Proof.
  intros Hin Hleft.
  apply (wizard_ends_right env config (SkipBranchSelection config) eq_refl
           fuel e (None, Some ErrCtrlCAbort) Hin).
  destruct e; simpl in Hleft |- *; try discriminate Hleft.
  - apply andb_true_iff in Hleft as [-> ->]. reflexivity.
  - destruct answer as [[repo|] navigate]; [discriminate Hleft | ].
    rewrite Hleft. reflexivity.
Qed.

Lemma navigation_without_pagination_witness :
  In nextWithoutPagination
    (snd (getRepositoryFromWizard (scripted nextOnBitbucket) bitbucketConfig
            5 [])) /\
  leftWithoutChoice nextWithoutPagination = true /\
  fst (getRepositoryFromWizard (scripted nextOnBitbucket) bitbucketConfig 5 [])
  = Done (None, Some ErrCtrlCAbort).
Proof.
  refine (let Hin := _ in
          conj Hin
            (conj eq_refl
               (proj1 (navigation_without_pagination_aborts
                         (scripted nextOnBitbucket) bitbucketConfig 5
                         nextWithoutPagination Hin eq_refl)))).
  vm_compute. left. reflexivity.
Defined.

(** ** Page numbers *)

Lemma pagesBetween_le (lo hi hi' : Z) (h : History) :
  hi <= hi' -> pagesBetween lo hi h -> pagesBetween lo hi' h.
Proof.
  intros Hle. unfold pagesBetween. apply List.Forall_impl. intros e.
  destruct (pageOf e); [lia | trivial].
Qed.

(** X8.  Page numbers stay in range over a whole loop: when a loop is
    entered at a page number of 1 or more and the bound on its passes keeps
    the page number within int32, every query and every prompt of the loop
    is made with a page number between 1 and the entry page plus the number
    of passes before it.  Entered at page 1, as the wizard does, a loop of
    [fuel] passes only asks for pages 1 to [fuel]. *)
Theorem pages_stay_in_range
    (env : Env) (config : RepositoryWizardConfig) (providerId : string)
    (perPage : Z) (fuel : nat) :
  (forall v h,
     1 <= ns_page v -> ns_page v + Z.of_nat fuel <= int32_max ->
     exists events,
       snd (namespaceLoop env config fuel providerId perPage v h)
       = (events ++ h)%list /\
       pagesBetween 1 (ns_page v + Z.of_nat fuel - 1) events) /\
  (forall namespaceId parentIdentifier v h,
     1 <= repo_page v -> repo_page v + Z.of_nat fuel <= int32_max ->
     exists events,
       snd (repositoryLoop env config fuel providerId namespaceId
              parentIdentifier perPage v h)
       = (events ++ h)%list /\
       pagesBetween 1 (repo_page v + Z.of_nat fuel - 1) events).
Proof.
  unfold int32_max. split.
  - induction fuel as [|fuel IH]; intros v h Hlo Hhi.
    + exists []. split; [reflexivity | constructor].
    + rewrite namespaceLoop_S.
      pose proof (namespaceIteration_pass env config providerId perPage v h)
        as Hpass.
      destruct (namespaceIteration env config providerId perPage v h)
        as [s h1]. cbn [fst snd] in *.
      assert (Hone : exists one,
                 h1 = (one ++ h)%list /\
                 pagesBetween 1 (ns_page v) one).
      { destruct Hpass;
          first [ eexists [_]; split; [reflexivity | ]
                | eexists [_; _]; split; [reflexivity | ] ];
          repeat constructor; simpl; lia. }
      destruct Hone as [one [-> Hone]].
      destruct s as [v' | v' | r].
      * assert (Hv' : 1 <= ns_page v' <= ns_page v + 1).
        { inversion Hpass; subst; cbn [ns_page];
            try rewrite wrap32_small; lia. }
        destruct (IH v' (one ++ h)%list) as [events [Hev Hpages]];
          [lia | lia | ].
        exists (events ++ one)%list. rewrite Hev, <- app_assoc.
        split; [reflexivity | ].
        apply Forall_app. split.
        -- apply (pagesBetween_le 1 (ns_page v' + Z.of_nat fuel - 1));
             [lia | exact Hpages].
        -- apply (pagesBetween_le 1 (ns_page v)); [lia | exact Hone].
      * exists one. split; [reflexivity | ].
        apply (pagesBetween_le 1 (ns_page v)); [lia | exact Hone].
      * exists one. split; [reflexivity | ].
        apply (pagesBetween_le 1 (ns_page v)); [lia | exact Hone].
  - intros namespaceId parentIdentifier.
    induction fuel as [|fuel IH]; intros v h Hlo Hhi.
    + exists []. split; [reflexivity | constructor].
    + rewrite repositoryLoop_S.
      pose proof (repositoryIteration_pass env config providerId perPage
                    namespaceId parentIdentifier v h) as Hpass.
      destruct (repositoryIteration env config providerId namespaceId
                  parentIdentifier perPage v h) as [s h1].
      cbn [fst snd] in *.
      assert (Hone : exists one,
                 h1 = (one ++ h)%list /\
                 pagesBetween 1 (repo_page v) one).
      { destruct Hpass;
          first [ eexists [_]; split; [reflexivity | ]
                | eexists [_; _]; split; [reflexivity | ] ];
          repeat constructor; simpl; lia. }
      destruct Hone as [one [-> Hone]].
      destruct s as [v' | v' | r].
      * assert (Hv' : 1 <= repo_page v' <= repo_page v + 1).
        { inversion Hpass; subst; cbn [repo_page];
            try rewrite wrap32_small; lia. }
        destruct (IH v' (one ++ h)%list) as [events [Hev Hpages]];
          [lia | lia | ].
        exists (events ++ one)%list. rewrite Hev, <- app_assoc.
        split; [reflexivity | ].
        apply Forall_app. split.
        -- apply (pagesBetween_le 1 (repo_page v' + Z.of_nat fuel - 1));
             [lia | exact Hpages].
        -- apply (pagesBetween_le 1 (repo_page v)); [lia | exact Hone].
      * exists one. split; [reflexivity | ].
        apply (pagesBetween_le 1 (repo_page v)); [lia | exact Hone].
      * exists one. split; [reflexivity | ].
        apply (pagesBetween_le 1 (repo_page v)); [lia | exact Hone].
Qed.

Lemma pages_stay_in_range_witness :
  1 <= ns_page firstPageVars /\
  ns_page firstPageVars + Z.of_nat 5 <= int32_max /\
  exists events,
    snd (namespaceLoop (scripted pageAndPick) plainConfig 5 "github" 100
           firstPageVars [])
    = (events ++ [])%list /\
    pagesBetween 1 (ns_page firstPageVars + Z.of_nat 5 - 1) events.
Proof.
  assert (Hlo : 1 <= ns_page firstPageVars) by (cbv; discriminate).
  assert (Hhi : ns_page firstPageVars + Z.of_nat 5 <= int32_max)
    by (cbv; discriminate).
  exact (conj Hlo
           (conj Hhi
              (proj1 (pages_stay_in_range (scripted pageAndPick) plainConfig
                        "github" 100 5) firstPageVars [] Hlo Hhi))).
Defined.

(** ** The last match wins *)

Lemma fold_left_last_match {A B : Type} (test : A -> bool) (val : A -> B)
    (l : list A) (init : B) :
  fold_left (fun acc x => if test x then val x else acc) l init
  = match lastMatch test l with Some x => val x | None => init end.
Proof.
  unfold lastMatch. induction l as [|x l IH] using rev_ind.
  - reflexivity.
  - rewrite fold_left_app, rev_app_distr. simpl.
    destruct (test x); [reflexivity | exact IH].
Qed.

Lemma NoDup_map_injective {A B : Type} (f : A -> B) (l : list A) (a b : A) :
  List.NoDup (map f l) -> In a l -> In b l -> f a = f b -> a = b.
Proof.
  induction l as [|x l IH]; simpl; intros Hnodup Ha Hb Hf; [contradiction | ].
  inversion Hnodup as [|y ys Hnotin Hnodup']; subst.
  destruct Ha as [-> | Ha], Hb as [-> | Hb].
  - reflexivity.
  - contradiction Hnotin. rewrite Hf. apply in_map, Hb.
  - contradiction Hnotin. rewrite <- Hf. apply in_map, Ha.
  - apply IH; assumption.
Qed.

(** X9.  The provider kind the wizard goes on with is that of the last view
    whose Id is the answer of the provider prompt, and the empty string when
    no view has that Id.  With distinct Ids among the configured providers,
    answering with the Id of a configured provider of a supported kind gives
    that provider's kind; an answer that is the Id of no configured provider
    gives the empty string, with which the namespaces are then queried. *)
Theorem chosen_provider_kind
    (supportedProviders : list SupportedGitProvider.t)
    (userGitProviders : list GitProvider.t) (gitProviderConfigId : string) :
  let views := buildGitProviderViewList supportedProviders userGitProviders in
  lookupProviderId views gitProviderConfigId
  = match lastMatch
            (fun view => String.eqb (GitProviderView.Id view)
                                    gitProviderConfigId) views with
    | Some view => GitProviderView.ProviderId view
    | None => EmptyString
    end /\
  ((forall gitProvider,
      In gitProvider userGitProviders ->
      GitProvider.Id gitProvider <> gitProviderConfigId) ->
   lookupProviderId views gitProviderConfigId = EmptyString) /\
  (List.NoDup (map GitProvider.Id userGitProviders) ->
   forall gitProvider,
     In gitProvider userGitProviders ->
     isSupportedProvider supportedProviders gitProvider = true ->
     GitProvider.Id gitProvider = gitProviderConfigId ->
     lookupProviderId views gitProviderConfigId
     = GitProvider.ProviderId gitProvider).
Proof.
  intros views.
  assert (Hlast :
    lookupProviderId views gitProviderConfigId
    = match lastMatch
              (fun view => String.eqb (GitProviderView.Id view)
                                      gitProviderConfigId) views with
      | Some view => GitProviderView.ProviderId view
      | None => EmptyString
      end).
  { unfold lookupProviderId.
    apply (fold_left_last_match
             (fun view => String.eqb (GitProviderView.Id view)
                                     gitProviderConfigId)
             GitProviderView.ProviderId). }
  assert (Hviews :
    forall view, In view views ->
      exists gp sp, In gp userGitProviders /\
                    In sp (matching supportedProviders gp) /\
                    view = viewOf gp sp).
  { intros view Hin. subst views.
    rewrite buildGitProviderViewList_flat_map in Hin.
    apply in_flat_map in Hin as [gp [Hgp Hin]].
    apply in_map_iff in Hin as [sp [<- Hsp]]. exists gp, sp. auto. }
  split; [exact Hlast | split].
  - intros Hnone. rewrite Hlast. unfold lastMatch.
    destruct (List.find _ (rev views)) as [view|] eqn:Hfind; [ | reflexivity].
    apply find_some in Hfind as [Hin Heq]. apply in_rev in Hin.
    destruct (Hviews view Hin) as [gp [sp [Hgp [_ ->]]]].
    apply String.eqb_eq in Heq. contradiction (Hnone gp Hgp Heq).
  - intros Hnodup gp Hgp Hsup Hid. rewrite Hlast. unfold lastMatch.
    destruct (List.find _ (rev views)) as [view|] eqn:Hfind.
    + apply find_some in Hfind as [Hin Heq]. apply in_rev in Hin.
      destruct (Hviews view Hin) as [gp' [sp [Hgp' [_ ->]]]].
      apply String.eqb_eq in Heq. simpl in Heq |- *.
      rewrite (NoDup_map_injective GitProvider.Id userGitProviders gp' gp
                 Hnodup Hgp' Hgp); [reflexivity | congruence].
    + unfold isSupportedProvider in Hsup.
      apply existsb_exists in Hsup as [sp [Hsp Heq]].
      assert (Hin : In (viewOf gp sp) (rev views)).
      { apply in_rev. rewrite rev_involutive. subst views.
        rewrite buildGitProviderViewList_flat_map.
        apply in_flat_map. exists gp. split; [exact Hgp | ].
        apply in_map. apply filter_In. split; assumption. }
      pose proof (find_none _ _ Hfind _ Hin) as Hno. simpl in Hno.
      rewrite Hid, String.eqb_refl in Hno. discriminate Hno.
Qed.

Lemma chosen_provider_kind_witness :
  List.NoDup
    (map GitProvider.Id [aliceOnGithub; bobOnGitea; carolOnGitlab]) /\
  lookupProviderId
    (buildGitProviderViewList [github; gitlab; bitbucket]
       [aliceOnGithub; bobOnGitea; carolOnGitlab])
    "gp-3"
  = "gitlab".
Proof.
  assert (Hnodup : List.NoDup
                     (map GitProvider.Id
                        [aliceOnGithub; bobOnGitea; carolOnGitlab])).
  { simpl. repeat constructor; simpl; intuition discriminate. }
  assert (Hin : In carolOnGitlab [aliceOnGithub; bobOnGitea; carolOnGitlab])
    by (simpl; auto).
  exact (conj Hnodup
           (proj2 (proj2 (chosen_provider_kind [github; gitlab; bitbucket]
                            [aliceOnGithub; bobOnGitea; carolOnGitlab]
                            "gp-3"))
              Hnodup carolOnGitlab Hin eq_refl eq_refl)).
Defined.

(** X10.  A namespace prompt answered with a namespace id and no navigation
    (or any navigation, for a provider without pagination) ends the
    namespace loop with that id; the namespace name that goes into the
    repository prompt and the branch wizard is the name of the last item of
    the loaded page with that id, and the name held before (the empty string
    on entry) when the page has no such item. *)
Theorem selected_namespace_name
    (env : Env) (config : RepositoryWizardConfig) (providerId : string)
    (perPage : Z) (v : NamespaceVars) (h : History) :
  snd (nsFetched env providerId perPage v h) = None ->
  nsShortCircuits env providerId perPage v h = false ->
  let answer := nsAnswer env config providerId perPage v h in
  navigates (namespacePaginationDisabled providerId) (snd answer) = false ->
  fst answer <> EmptyString ->
  exists v',
    fst (namespaceIteration env config providerId perPage v h) = Break v' /\
    namespaceId v' = fst answer /\
    namespace v'
    = match lastMatch
              (fun item => String.eqb (GitNamespace.Id item) (fst answer))
              (fst (nsFetched env providerId perPage v h)) with
      | Some item => GitNamespace.Name item
      | None => namespace v
      end.
Proof.
  intros Hloaded Hsc answer Hnav Hid. subst answer.
  pose proof (namespaceIteration_pass env config providerId perPage v h)
    as Hpass.
  destruct (namespaceIteration env config providerId perPage v h) as [s h1].
  cbn [fst snd] in *.
  destruct Hpass; try congruence.
  - unfold nsShortCircuits in Hsc.
    match goal with H : nsFetched _ _ _ _ _ = _ |- _ => rewrite H in Hsc end.
    match goal with H : isOnlySingleNamespaceAvailable _ = true |- _ =>
      rewrite H in Hsc end. discriminate Hsc.
  - eexists. split; [reflexivity | ]. cbn. split; [reflexivity | ].
    unfold lookupNamespaceName.
    apply (fold_left_last_match
             (fun item => String.eqb (GitNamespace.Id item)
                            (fst (nsAnswer env config providerId perPage v h)))
             GitNamespace.Name).
Qed.

Lemma selected_namespace_name_witness :
  snd (nsFetched (scripted pickAtOnce) "github" 100 firstPageVars []) = None /\
  nsShortCircuits (scripted pickAtOnce) "github" 100 firstPageVars [] = false /\
  nsAnswer (scripted pickAtOnce) plainConfig "github" 100 firstPageVars []
  = ("tools", EmptyString) /\
  exists v',
    fst (namespaceIteration (scripted pickAtOnce) plainConfig "github" 100
           firstPageVars []) = Break v' /\
    namespaceId v' = "tools" /\ namespace v' = "Tools".
Proof.
  repeat (split; [reflexivity | ]).
  destruct (selected_namespace_name (scripted pickAtOnce) plainConfig "github"
              100 firstPageVars [] eq_refl eq_refl eq_refl)
    as [v' [Hv' [Hid Hname]]]; [discriminate | ].
  exists v'. repeat split; [exact Hv' | exact Hid | exact Hname].
Defined.

(** ** The order of a run *)

Section LaterEvents.

Variable env : Env.
Variable config : RepositoryWizardConfig.

Lemma afterNamespace_later fuel gitProviderConfigId providerId nv h :
  exists later,
    snd (afterNamespace env config fuel gitProviderConfigId providerId nv h)
    = (later ++ h)%list /\
    Forall (fun e => (6 <= stage e)%nat) later.
Proof.
  unfold afterNamespace, bind.
  match goal with
  | |- context [repositoryLoop env config fuel ?p ?n ?pi ?pp ?v h] =>
    destruct (RepositoryRun_events env config p pp n pi _ _ _ _
                (repositoryLoop_run env config p pp n pi fuel v h))
      as [ext [Hh Hext]];
    destruct (repositoryLoop env config fuel p n pi pp v h)
      as [[[rv | r] | ] h']
  end; cbn [fst snd] in Hh |- *; subst h';
    apply isRepositoryEvent_stage in Hext;
    assert (Hext' : Forall (fun e => (6 <= stage e)%nat) ext)
      by (eapply List.Forall_impl; [ | exact Hext]; simpl; intros; lia);
    try (exists ext; split; [reflexivity | exact Hext']).
  destruct (SkipBranchSelection config); simpl.
  - exists ext. split; [reflexivity | exact Hext'].
  - eexists (_ :: ext). split; [reflexivity | ].
    constructor; [simpl; lia | exact Hext'].
Qed.

Lemma providerFlow_later fuel views gitProviderConfigId h :
  exists later,
    snd (providerFlow env config fuel views gitProviderConfigId h)
    = (later ++ h)%list /\
    Forall (fun e => (5 <= stage e)%nat) later.
Proof.
  unfold providerFlow, bind.
  match goal with
  | |- context [namespaceLoop env config fuel ?p ?pp ?v h] =>
    destruct (NamespaceRun_events env config p pp _ _ _ _
                (namespaceLoop_run env config p pp fuel v h))
      as [ext [Hh Hext]];
    destruct (namespaceLoop env config fuel p pp v h)
      as [[[nv | r] | ] h']
  end; cbn [fst snd] in Hh |- *; subst h';
    apply isNamespaceEvent_stage in Hext;
    assert (Hext' : Forall (fun e => (5 <= stage e)%nat) ext)
      by (eapply List.Forall_impl; [ | exact Hext]; simpl; intros; lia);
    try (exists ext; split; [reflexivity | exact Hext']).
  match goal with
  | |- context [afterNamespace env config fuel ?i ?p ?nv ?h1] =>
    destruct (afterNamespace_later fuel i p nv h1) as [later [Hl Hlater]]
  end.
  exists (later ++ ext)%list. rewrite Hl, <- app_assoc.
  split; [reflexivity | ]. apply Forall_app. split; [ | exact Hext'].
  eapply List.Forall_impl; [ | exact Hlater]. simpl. intros. lia.
Qed.

End LaterEvents.

(** The paths of the function up to the provider flow: the sample query is
    split into its cases and so is everything up to the namespace loop. *)
Ltac wizard_paths env config :=
  unfold getRepositoryFromWizard, withSamples, sampleQueryEvents, bind, emit,
    ret, callListSamples, callProviderPrompt, callUrlInput, callSamplePrompt,
    callGetGitContext;
  destruct (ListSamples env []) as [[samples res] [err|]]; cbn [fst snd];
  (destruct (_ || Manual config); cbv beta zeta;
   [ | repeat match goal with
              | |- context [if ?c then _ else _] => destruct c eqn:?
              | |- context [match GetSampleFromPrompt ?e ?h0 ?s with
                            | _ => _ end] =>
                destruct (GetSampleFromPrompt e h0 s) eqn:?
              | |- context [match snd (GetGitContext ?e ?h0 ?u) with
                            | _ => _ end] =>
                destruct (GetGitContext e h0 u) as [[? ?] [?|]] eqn:?
              end ]);
  cbn [fst snd app].

Ltac later_events :=
  first
    [ solve [ exists []; split; [reflexivity | repeat constructor] ]
    | solve [ eexists [_]; split;
              [reflexivity | repeat constructor; simpl; lia] ]
    | solve [ eexists [_; _]; split;
              [reflexivity | repeat constructor; simpl; lia] ]
    | solve [ eexists [_; _; _]; split;
              [reflexivity | repeat constructor; simpl; lia] ] ].

Lemma wizard_later (env : Env) (config : RepositoryWizardConfig)
    (fuel : nat) :
  exists later,
    snd (getRepositoryFromWizard env config fuel [])
    = (later ++ sampleQueryEvents env)%list /\
    Forall (fun e => (2 <= stage e)%nat) later.
Proof.
  wizard_paths env config; try later_events.
  all: match goal with
       | |- context [providerFlow ?e ?c ?f ?views ?i ?h1] =>
         destruct (providerFlow_later e c f views i h1)
           as [later [Hl Hlater]]
       end.
  all: eexists (later ++ [_])%list; rewrite Hl, <- app_assoc;
    (split; [reflexivity | ]); apply Forall_app; split;
    [ eapply List.Forall_impl; [ | exact Hlater]; simpl; intros; lia
    | repeat constructor ].
Qed.

Lemma count_none (f : Event -> bool) (h : History) :
  Forall (fun e => f e = false) h -> count f h = 0%nat.
Proof.
  induction 1 as [|e h He Hh IH]; [reflexivity | ].
  rewrite count_cons, He. exact IH.
Qed.

(** X11.  Every run starts with the sample query, made once, and with the
    debug log line when that query fails; nothing else is logged and the
    samples are not queried again, whatever path the run takes. *)
Theorem sample_query_first_and_once
    (env : Env) (config : RepositoryWizardConfig) (fuel : nat) :
  exists later,
    snd (getRepositoryFromWizard env config fuel [])
    = (later ++ sampleQueryEvents env)%list /\
    count isListSamples later = 0%nat /\
    count isLogDebug later = 0%nat /\
    count isListSamples (snd (getRepositoryFromWizard env config fuel []))
    = 1%nat.
Proof.
  destruct (wizard_later env config fuel) as [later [Hl Hlater]].
  assert (H1 : count isListSamples later = 0%nat).
  { apply count_none. eapply List.Forall_impl; [ | exact Hlater].
    intros e He. destruct e; simpl in He |- *; try reflexivity; lia. }
  assert (H2 : count isLogDebug later = 0%nat).
  { apply count_none. eapply List.Forall_impl; [ | exact Hlater].
    intros e He. destruct e; simpl in He |- *; try reflexivity; lia. }
  exists later. repeat split; try assumption.
  rewrite Hl, count_app, H1. unfold sampleQueryEvents.
  destruct (snd (ListSamples env [])); reflexivity.
Qed.

Lemma StronglySorted_middle {A : Type} (R : A -> A -> Prop)
    (l1 : list A) (x : A) (l2 : list A) :
  StronglySorted R (l1 ++ x :: l2) ->
  Forall (fun a => R a x) l1 /\ Forall (R x) l2.
Proof.
  induction l1 as [|a l1 IH]; simpl; intros Hs.
  - inversion Hs; subst. split; [constructor | assumption].
  - inversion Hs as [|a' l' Hs' Hall]; subst.
    destruct (IH Hs') as [H1 H2]. split; [ | exact H2].
    constructor; [ | exact H1].
    apply List.Forall_forall with (x := x) in Hall; [exact Hall | ].
    apply in_or_app. right. left. reflexivity.
Qed.

(** X12.  The events of a run are in program order: sample query, log line,
    provider prompt, URL input or sample prompt, sample lookup, namespace
    loop, repository loop, branch wizard.  Whatever comes after an event is
    of its stage or of a later one: no namespace is queried once a
    repository page was asked for, and no prompt or query follows the
    branch wizard other than the branch wizard's own. *)
Theorem events_in_program_order
    (env : Env) (config : RepositoryWizardConfig) (fuel : nat)
    (later : History) (e : Event) (earlier : History) :
  snd (getRepositoryFromWizard env config fuel [])
  = (later ++ e :: earlier)%list ->
  Forall (fun e' => (stage e <= stage e')%nat) later /\
  Forall (fun e' => (stage e' <= stage e)%nat) earlier.
Proof.
  intros Hh. pose proof (wizard_in_order env config fuel) as Hord.
  rewrite Hh in Hord. apply StronglySorted_middle in Hord. exact Hord.
Qed.

(** ** The ends of the other paths *)

Section BranchCall.

Variable env : Env.
Variable config : RepositoryWizardConfig.

Lemma RepositoryRun_break providerId perPage namespaceId parentIdentifier
    v h o h' :
  RepositoryRun env config providerId perPage namespaceId parentIdentifier
    v h o h' ->
  forall rv, o = Done (inl rv) ->
  exists e repo,
    h' = e :: tl h' /\ chosenRepo rv = Some repo /\
    chosenRepository e = Some repo.
Proof.
  induction 1 as [v h | v h v' h' o h'' Hpass Hrun IH | v h v' h' Hpass
                 | v h r h' Hpass]; intros rv Ho.
  - discriminate Ho.
  - apply IH, Ho.
  - injection Ho as <-. inversion Hpass; subst.
    eexists _, repo. split; [reflexivity | split; [reflexivity | ]].
    unfold repoPromptEvent. simpl.
    match goal with H : navigates _ _ = false |- _ => rewrite H end.
    assumption.
  - discriminate Ho.
Qed.

Lemma no_branch_app (ext h : History) :
  Forall (fun e => isRepositoryEvent e = true \/ isNamespaceEvent e = true)
    ext ->
  Forall (fun e => isBranchWizard e = false) h ->
  Forall (fun e => isBranchWizard e = false) (ext ++ h).
Proof.
  intros Hext Hh. apply Forall_app. split; [ | exact Hh].
  eapply List.Forall_impl; [ | exact Hext].
  intros e [He | He]; destruct e; try discriminate He; reflexivity.
Qed.

Lemma not_in_no_branch (h : History) cfg r :
  Forall (fun e => isBranchWizard e = false) h ->
  ~ In (EvSetBranchFromWizard cfg r) h.
Proof.
  intros Hh Hin. apply (proj1 (List.Forall_forall _ _) Hh) in Hin.
  discriminate Hin.
Qed.

Lemma afterNamespace_branch fuel gitProviderConfigId providerId nv h cfg r :
  Forall (fun e => isBranchWizard e = false) h ->
  In (EvSetBranchFromWizard cfg r)
    (snd (afterNamespace env config fuel gitProviderConfigId providerId nv
            h)) ->
  fst (afterNamespace env config fuel gitProviderConfigId providerId nv h)
  = Done r /\
  snd (afterNamespace env config fuel gitProviderConfigId providerId nv h)
  = EvSetBranchFromWizard cfg r
    :: tl (snd (afterNamespace env config fuel gitProviderConfigId
                  providerId nv h)) /\
  Forall (fun e => isBranchWizard e = false)
    (tl (snd (afterNamespace env config fuel gitProviderConfigId providerId
                nv h))) /\
  SkipBranchSelection config = false /\
  GitProviderConfigId cfg = gitProviderConfigId /\
  ProviderId cfg = providerId /\
  BranchProjectOrder cfg = ProjectOrder config /\
  exists repo,
    ChosenRepo cfg = Some repo /\
    match tl (snd (afterNamespace env config fuel gitProviderConfigId
                     providerId nv h)) with
    | e :: _ => chosenRepository e = Some repo
    | [] => False
    end.
Proof.
  intros Hh. unfold afterNamespace, bind.
  match goal with
  | |- context [repositoryLoop env config fuel ?p ?n ?pi ?pp ?v h] =>
    pose proof (repositoryLoop_run env config p pp n pi fuel v h) as Hrun;
    destruct (RepositoryRun_events env config p pp n pi _ _ _ _ Hrun)
      as [ext [Hext Hkind]];
    pose proof (RepositoryRun_break p pp n pi _ _ _ _ Hrun) as Hbreak;
    destruct (repositoryLoop env config fuel p n pi pp v h)
      as [[[rv | r0] | ] h']
  end; cbn [fst snd] in *.
  all: assert (Hh' : Forall (fun e => isBranchWizard e = false) h')
    by (rewrite Hext; apply no_branch_app;
        [ eapply List.Forall_impl; [ | exact Hkind]; simpl; auto
        | exact Hh ]).
  2, 3: intros Hin; contradiction (not_in_no_branch _ _ _ Hh' Hin).
  destruct (SkipBranchSelection config) eqn:Hskip; cbn [fst snd].
  - intros Hin. contradiction (not_in_no_branch _ _ _ Hh' Hin).
  - unfold callSetBranchFromWizard, ret. cbn [fst snd tl].
    intros [Heq | Hin];
      [ | contradiction (not_in_no_branch _ _ _ Hh' Hin)].
    injection Heq as <- <-.
    destruct (Hbreak rv eq_refl) as [e [repo [He [Hchosen Hrepo]]]].
    repeat split; try reflexivity; try assumption.
    exists repo. split; [exact Hchosen | ].
    rewrite He. exact Hrepo.
Qed.

Lemma providerFlow_branch fuel views gitProviderConfigId h cfg r :
  Forall (fun e => isBranchWizard e = false) h ->
  In (EvSetBranchFromWizard cfg r)
    (snd (providerFlow env config fuel views gitProviderConfigId h)) ->
  fst (providerFlow env config fuel views gitProviderConfigId h) = Done r /\
  snd (providerFlow env config fuel views gitProviderConfigId h)
  = EvSetBranchFromWizard cfg r
    :: tl (snd (providerFlow env config fuel views gitProviderConfigId h)) /\
  Forall (fun e => isBranchWizard e = false)
    (tl (snd (providerFlow env config fuel views gitProviderConfigId h))) /\
  SkipBranchSelection config = false /\
  GitProviderConfigId cfg = gitProviderConfigId /\
  ProviderId cfg = lookupProviderId views gitProviderConfigId /\
  BranchProjectOrder cfg = ProjectOrder config /\
  exists repo,
    ChosenRepo cfg = Some repo /\
    match tl (snd (providerFlow env config fuel views gitProviderConfigId
                     h)) with
    | e :: _ => chosenRepository e = Some repo
    | [] => False
    end.
Proof.
  intros Hh. unfold providerFlow, bind.
  match goal with
  | |- context [namespaceLoop env config fuel ?p ?pp ?v h] =>
    destruct (NamespaceRun_events env config p pp _ _ _ _
                (namespaceLoop_run env config p pp fuel v h))
      as [ext [Hext Hkind]];
    destruct (namespaceLoop env config fuel p pp v h)
      as [[[nv | r0] | ] h']
  end; cbn [fst snd] in *.
  all: assert (Hh' : Forall (fun e => isBranchWizard e = false) h')
    by (rewrite Hext; apply no_branch_app;
        [ eapply List.Forall_impl; [ | exact Hkind]; simpl; auto
        | exact Hh ]).
  2, 3: intros Hin; contradiction (not_in_no_branch _ _ _ Hh' Hin).
  apply afterNamespace_branch. exact Hh'.
Qed.

End BranchCall.

Ltac in_explicit Hin :=
  simpl in Hin;
  repeat (destruct Hin as [Hin | Hin]; [try discriminate Hin | ]);
  try contradiction.

(** X13.  The branch wizard is called only when SkipBranchSelection is not
    set, once, as the last thing of the run and right after the repository
    prompt that chose the repository; it is given that repository, a
    provider id together with the provider kind looked up for that id, and
    the project order of the configuration; and the wizard returns what the
    branch wizard returns, repository and error, as it is. *)
Theorem branch_wizard_call
    (env : Env) (config : RepositoryWizardConfig) (fuel : nat)
    (cfg : BranchWizardConfig) (r : Result) :
  In (EvSetBranchFromWizard cfg r)
    (snd (getRepositoryFromWizard env config fuel [])) ->
  fst (getRepositoryFromWizard env config fuel []) = Done r /\
  snd (getRepositoryFromWizard env config fuel [])
  = EvSetBranchFromWizard cfg r
    :: tl (snd (getRepositoryFromWizard env config fuel [])) /\
  Forall (fun e => isBranchWizard e = false)
    (tl (snd (getRepositoryFromWizard env config fuel []))) /\
  SkipBranchSelection config = false /\
  ProviderId cfg
  = lookupProviderId
      (buildGitProviderViewList (GetSupportedGitProviders env)
         (UserGitProviders config))
      (GitProviderConfigId cfg) /\
  BranchProjectOrder cfg = ProjectOrder config /\
  exists repo,
    ChosenRepo cfg = Some repo /\
    match tl (snd (getRepositoryFromWizard env config fuel [])) with
    | e :: _ => chosenRepository e = Some repo
    | [] => False
    end.
Proof.
  wizard_paths env config; try solve [intros Hin; in_explicit Hin].
  all: intros Hin;
    match goal with
    | H : In _ (snd (providerFlow ?e ?c ?f ?views ?i ?h1)) |- _ =>
      destruct (providerFlow_branch e c f views i h1 _ _
                  ltac:(repeat constructor) H)
        as [H1 [H2 [H3 [H4 [H5 [H6 [H7 H8]]]]]]]
    end;
    rewrite <- H5 in H6; repeat split; assumption.
Qed.

Lemma branch_wizard_call_witness :
  In (EvSetBranchFromWizard toolsBranchConfig backendWithBranch)
    (snd (getRepositoryFromWizard (scripted pickAtOnce) plainConfig 5 [])) /\
  fst (getRepositoryFromWizard (scripted pickAtOnce) plainConfig 5 [])
  = Done backendWithBranch.
Proof.
  assert (Hin : In (EvSetBranchFromWizard toolsBranchConfig backendWithBranch)
                  (snd (getRepositoryFromWizard (scripted pickAtOnce)
                          plainConfig 5 [])))
    by (vm_compute; left; reflexivity).
  exact (conj Hin
           (proj1 (branch_wizard_call (scripted pickAtOnce) plainConfig 5
                     toolsBranchConfig backendWithBranch Hin))).
Defined.

Lemma events_in_program_order_witness :
  snd (getRepositoryFromWizard (scripted pickAtOnce) plainConfig 5 [])
  = (firstn 3 (snd (getRepositoryFromWizard (scripted pickAtOnce)
                      plainConfig 5 []))
     ++ EvNamespacePrompt [acme; tools] 0 "github" false 1 100
          ("tools", EmptyString)
     :: skipn 4 (snd (getRepositoryFromWizard (scripted pickAtOnce)
                        plainConfig 5 [])))%list /\
  Forall
    (fun e' =>
       (stage (EvNamespacePrompt [acme; tools] 0 "github" false 1 100
                 ("tools", EmptyString)) <= stage e')%nat)
    (firstn 3 (snd (getRepositoryFromWizard (scripted pickAtOnce)
                      plainConfig 5 []))).
Proof.
  assert (Hh :
    snd (getRepositoryFromWizard (scripted pickAtOnce) plainConfig 5 [])
    = (firstn 3 (snd (getRepositoryFromWizard (scripted pickAtOnce)
                        plainConfig 5 []))
       ++ EvNamespacePrompt [acme; tools] 0 "github" false 1 100
            ("tools", EmptyString)
       :: skipn 4 (snd (getRepositoryFromWizard (scripted pickAtOnce)
                          plainConfig 5 [])))%list)
    by reflexivity.
  exact (conj Hh
           (proj1 (events_in_program_order (scripted pickAtOnce) plainConfig
                     5 _ _ _ Hh))).
Defined.

(** X14.  A sample lookup is the last thing of a run and comes right after
    the sample prompt, which was shown the samples of the sample query; it
    is made for the GitUrl of the sample chosen there.  When the lookup
    fails the wizard returns a nil repository and the lookup's error as
    [HandleErrorResponse] renders it (whatever repository came with the
    error); otherwise it returns the repository looked up and a nil error.
    No namespace or repository is queried and no branch is asked for on
    this path. *)
Theorem sample_lookup_result
    (env : Env) (config : RepositoryWizardConfig) (fuel : nat)
    (url : string) (repo : option GitRepository.t)
    (response : option HttpResponse.t) (failure : option error) :
  In (EvGetGitContext url repo response failure)
    (snd (getRepositoryFromWizard env config fuel [])) ->
  fst (getRepositoryFromWizard env config fuel [])
  = Done match failure with
         | Some e => (None, Some (HandleErrorResponse env response e))
         | None => (repo, None)
         end /\
  (exists sample earlier,
     snd (getRepositoryFromWizard env config fuel [])
     = EvGetGitContext url repo response failure
       :: EvSamplePrompt (fst (fst (ListSamples env []))) (Some sample)
       :: earlier /\
     url = Sample.GitUrl sample) /\
  Forall (fun e => (stage e <= 4)%nat)
    (snd (getRepositoryFromWizard env config fuel [])).
Proof.
  wizard_paths env config; try solve [intros Hin; in_explicit Hin].
  all: try solve
    [ intros Hin; in_explicit Hin; injection Hin as <- <- <- <-;
      (split; [reflexivity | ]);
      (split; [eexists _, _; split; reflexivity | ]);
      repeat constructor ].
  all: intros Hin;
    match goal with
    | H : In _ (snd (providerFlow ?e ?c ?f ?views ?i ?h1)) |- _ =>
      destruct (providerFlow_later e c f views i h1) as [later [Hl Hlater]];
      rewrite Hl in H; apply in_app_or in H as [H | H];
      [ apply (proj1 (List.Forall_forall _ _) Hlater) in H; simpl in H; lia
      | in_explicit H ]
    end.
Qed.

Lemma sample_lookup_result_witness :
  In sampleLookedUp
    (snd (getRepositoryFromWizard (scripted pickSample) plainConfig 5 [])) /\
  fst (getRepositoryFromWizard (scripted pickSample) plainConfig 5 [])
  = Done (Some website, None).
Proof.
  assert (Hin : In sampleLookedUp
                  (snd (getRepositoryFromWizard (scripted pickSample)
                          plainConfig 5 [])))
    by (vm_compute; left; reflexivity).
  exact (conj Hin
           (proj1 (sample_lookup_result (scripted pickSample) plainConfig 5
                     _ _ _ _ Hin))).
Defined.

(** X15.  The URL input is the last thing of a run: it is called with the
    MultiProject flag, the project order and the selected repositories of
    the configuration, and the wizard returns what it returns, repository
    and error, as it is.  A run that reaches it makes no sample lookup, no
    namespace or repository query and no branch call. *)
Theorem url_input_result
    (env : Env) (config : RepositoryWizardConfig) (fuel : nat)
    (multiProject : bool) (projectOrder : Z) (selectedRepos : gmap string Z)
    (r : Result) :
  In (EvUrlInput multiProject projectOrder selectedRepos r)
    (snd (getRepositoryFromWizard env config fuel [])) ->
  fst (getRepositoryFromWizard env config fuel []) = Done r /\
  snd (getRepositoryFromWizard env config fuel [])
  = EvUrlInput multiProject projectOrder selectedRepos r
    :: tl (snd (getRepositoryFromWizard env config fuel [])) /\
  multiProject = MultiProject config /\
  projectOrder = ProjectOrder config /\
  selectedRepos = SelectedRepos config /\
  Forall (fun e => (stage e <= 3)%nat)
    (snd (getRepositoryFromWizard env config fuel [])).
Proof.
  wizard_paths env config; try solve [intros Hin; in_explicit Hin].
  all: try solve
    [ intros Hin; in_explicit Hin; injection Hin as <- <- <- <-;
      repeat split; repeat constructor ].
  all: intros Hin;
    match goal with
    | H : In _ (snd (providerFlow ?e ?c ?f ?views ?i ?h1)) |- _ =>
      destruct (providerFlow_later e c f views i h1) as [later [Hl Hlater]];
      rewrite Hl in H; apply in_app_or in H as [H | H];
      [ apply (proj1 (List.Forall_forall _ _) Hlater) in H; simpl in H; lia
      | in_explicit H ]
    end.
Qed.

Lemma url_input_result_witness :
  In urlEntered
    (snd (getRepositoryFromWizard (scripted pickCustomUrl) plainConfig 5 []))
  /\
  fst (getRepositoryFromWizard (scripted pickCustomUrl) plainConfig 5 [])
  = Done (Some backend, None).
Proof.
  assert (Hin : In urlEntered
                  (snd (getRepositoryFromWizard (scripted pickCustomUrl)
                          plainConfig 5 [])))
    by (vm_compute; left; reflexivity).
  exact (conj Hin
           (proj1 (url_input_result (scripted pickCustomUrl) plainConfig 5
                     _ _ _ _ Hin))).
Defined.

Lemma missing_paging_parameters_witness :
  ~ In "perPage" (map fst negativePage) /\
  snd (GitProviderController.asked
         (GitProviderController.GetRepositories brokenServer negativePage))
  = 100.
Proof.
  assert (Habsent : ~ In "perPage" (map fst negativePage))
    by (simpl; intuition discriminate).
  exact (conj Habsent
           (proj1 (proj2 (missing_paging_parameters_default brokenServer
                            negativePage))
              (or_introl Habsent))).
Defined.

Lemma numeric_paging_parameters_witness :
  int_min <= -3 <= int_max /\
  GitProviderController.Param negativePage "page" = Itoa (-3) /\
  snd (fst (GitProviderController.asked
              (GitProviderController.GetRepositories brokenServer
                 negativePage)))
  = -3.
Proof.
  assert (Hrange : int_min <= -3 <= int_max)
    by (split; cbv; discriminate).
  exact (conj Hrange
           (conj eq_refl
              (proj1 (numeric_paging_parameters_pass_through brokenServer
                        negativePage (-3) Hrange)
                 eq_refl))).
Defined.

(** ** What the events of a run agree on *)

Section Consistent.

Variable env : Env.
Variable config : RepositoryWizardConfig.

Lemma NamespaceRun_consistent providerId v h o h' :
  NamespaceRun env config providerId 100 v h o h' ->
  forall namespaceId,
  exists ext,
    h' = (ext ++ h)%list /\
    Forall (consistentEvent config providerId namespaceId) ext.
Proof.
  intros Hrun namespaceId.
  induction Hrun as [v h | v h v' h' o h'' Hpass Hrun IH | v h v' h' Hpass
                    | v h r h' Hpass].
  - exists []. split; [reflexivity | constructor].
  - destruct IH as [ext [-> Hext]].
    assert (exists one, h' = (one ++ h)%list /\
              Forall (consistentEvent config providerId namespaceId) one)
      as [one [-> Hone]].
    { destruct Hpass;
        first [ eexists [_]; split; [reflexivity | ]
              | eexists [_; _]; split; [reflexivity | ] ];
        repeat constructor. }
    exists (ext ++ one)%list. rewrite <- app_assoc. split; [reflexivity | ].
    apply Forall_app; split; assumption.
  - destruct Hpass;
      first [ eexists [_]; split; [reflexivity | ]
            | eexists [_; _]; split; [reflexivity | ] ];
      repeat constructor.
  - destruct Hpass;
      first [ eexists [_]; split; [reflexivity | ]
            | eexists [_; _]; split; [reflexivity | ] ];
      repeat constructor.
Qed.

Lemma RepositoryRun_consistent providerId namespaceId namespace v h o h' :
  RepositoryRun env config providerId 100 namespaceId
    (providerId ++ "/" ++ namespace) v h o h' ->
  exists ext,
    h' = (ext ++ h)%list /\
    Forall (consistentEvent config providerId namespaceId) ext.
Proof.
  induction 1 as [v h | v h v' h' o h'' Hpass Hrun IH | v h v' h' Hpass
                 | v h r h' Hpass].
  - exists []. split; [reflexivity | constructor].
  - destruct IH as [ext [-> Hext]].
    assert (exists one, h' = (one ++ h)%list /\
              Forall (consistentEvent config providerId namespaceId) one)
      as [one [-> Hone]].
    { destruct Hpass;
        first [ eexists [_]; split; [reflexivity | ]
              | eexists [_; _]; split; [reflexivity | ] ];
        repeat constructor; exists namespace; reflexivity. }
    exists (ext ++ one)%list. rewrite <- app_assoc. split; [reflexivity | ].
    apply Forall_app; split; assumption.
  - destruct Hpass;
      first [ eexists [_]; split; [reflexivity | ]
            | eexists [_; _]; split; [reflexivity | ] ];
      repeat constructor; exists namespace; reflexivity.
  - destruct Hpass;
      first [ eexists [_]; split; [reflexivity | ]
            | eexists [_; _]; split; [reflexivity | ] ];
      repeat constructor; exists namespace; reflexivity.
Qed.

Lemma providerFlow_consistent fuel views gitProviderConfigId h :
  exists namespaceId later,
    snd (providerFlow env config fuel views gitProviderConfigId h)
    = (later ++ h)%list /\
    Forall
      (consistentEvent config (lookupProviderId views gitProviderConfigId)
         namespaceId)
      later.
Proof.
  unfold providerFlow, bind.
  match goal with
  | |- context [namespaceLoop env config fuel ?p ?pp ?v h] =>
    pose proof (NamespaceRun_consistent p _ _ _ _
                  (namespaceLoop_run env config p pp fuel v h)) as Hns;
    destruct (namespaceLoop env config fuel p pp v h)
      as [[[nv | r] | ] h']
  end; cbn [fst snd] in *.
  2, 3: exists EmptyString; destruct (Hns EmptyString) as [ext [-> Hext]];
    exists ext; split; [reflexivity | exact Hext].
  destruct (Hns (namespaceId nv)) as [ext [-> Hext]].
  unfold afterNamespace, bind.
  match goal with
  | |- context [repositoryLoop env config fuel ?p ?n ?pi ?pp ?v ?h1] =>
    destruct (RepositoryRun_consistent p n (namespace nv) _ _ _ _
                (repositoryLoop_run env config p pp n pi fuel v h1))
      as [ext2 [Hh2 Hext2]];
    destruct (repositoryLoop env config fuel p n pi pp v h1)
      as [[[rv | r] | ] h2]
  end; cbn [fst snd] in *; subst h2; exists (namespaceId nv).
  - destruct (SkipBranchSelection config); cbn [fst snd].
    + exists (ext2 ++ ext)%list. rewrite <- app_assoc.
      split; [reflexivity | ]. apply Forall_app; split; assumption.
    + eexists (_ :: ext2 ++ ext)%list. simpl. rewrite <- app_assoc.
      split; [reflexivity | ]. constructor; [exact I | ].
      apply Forall_app; split; assumption.
  - exists (ext2 ++ ext)%list. rewrite <- app_assoc.
    split; [reflexivity | ]. apply Forall_app; split; assumption.
  - exists (ext2 ++ ext)%list. rewrite <- app_assoc.
    split; [reflexivity | ]. apply Forall_app; split; assumption.
Qed.

End Consistent.

(** X16.  All page queries of a run are for one provider kind, the one
    looked up for the answer of the provider prompt, and all repository
    queries for one namespace id; every query asks for 100 items per page.
    Every namespace prompt is told that pagination is off exactly when the
    provider kind is one of the four without pagination, every repository
    prompt exactly when it is one of them other than bitbucket; the prompts
    get the project order of the configuration, the repository prompts its
    selected repositories unchanged and a parent label that starts with the
    provider kind and a slash. *)
Theorem events_of_a_run_agree
    (env : Env) (config : RepositoryWizardConfig) (fuel : nat) :
  exists providerId namespaceId,
    Forall (consistentEvent config providerId namespaceId)
      (snd (getRepositoryFromWizard env config fuel [])) /\
    (forall views order samplesAvailable answer,
       In (EvProviderPrompt views order samplesAvailable answer)
         (snd (getRepositoryFromWizard env config fuel [])) ->
       In true
         (map isNamespaceEvent
            (snd (getRepositoryFromWizard env config fuel []))) ->
       providerId = lookupProviderId views answer).
Proof.
  wizard_paths env config.
  all: try solve
    [ exists EmptyString, EmptyString; split;
      [ repeat constructor
      | intros views order samplesAvailable answer _ Hin; in_explicit Hin ] ].
  all: match goal with
       | |- context [providerFlow ?e ?c ?f ?views ?i ?h1] =>
         destruct (providerFlow_consistent e c f views i h1)
           as [namespaceId [later [Hl Hlater]]];
         destruct (providerFlow_later e c f views i h1)
           as [later' [Hl' Hlater']];
         exists (lookupProviderId views i), namespaceId
       end.
  all: split;
    [ rewrite Hl; apply Forall_app; split;
      [exact Hlater | repeat constructor]
    | intros views order samplesAvailable answer Hin _; rewrite Hl' in Hin;
      apply in_app_or in Hin as [Hin | Hin];
      [ apply (proj1 (List.Forall_forall _ _) Hlater') in Hin;
        simpl in Hin; lia
      | in_explicit Hin; injection Hin as <- _ _ <-; reflexivity ] ].
Qed.

(** ** The short circuit of the namespace loop, over whole runs *)

Section ShortCircuit.

Variable env : Env.
Variable config : RepositoryWizardConfig.

Lemma repository_event_no_namespace (h : History) :
  Forall (fun e => isRepositoryEvent e = true) h ->
  Forall (fun e => isNamespaceEvent e = false) h.
Proof.
  apply List.Forall_impl. intros e He. destruct e; try discriminate He;
    reflexivity.
Qed.

(** From the end of the namespace loop on: the first thing is the query for
    the first page of repositories of the namespace, every loaded page is
    followed by its prompt, and no namespace is queried or asked for. *)
Lemma afterNamespace_prompted fuel gitProviderConfigId providerId nv h :
  exists above,
    snd (afterNamespace env config (S fuel) gitProviderConfigId providerId
           nv h)
    = (above ++ h)%list /\
    Forall (fun e => isNamespaceEvent e = false) above /\
    (forall later e earlier,
       above = (later ++ e :: earlier)%list ->
       isRepositoryPageLoaded e = true -> promptedNext e later) /\
    exists later' repos err,
      above = (later' ++ [EvGetRepositories providerId (namespaceId nv) 1 100
                            repos err])%list.
Proof.
  unfold afterNamespace, bind.
  match goal with
  | |- context [repositoryLoop env config (S fuel) ?p ?n ?pi ?pp ?v h] =>
    destruct (RepositoryRun_prompted env config p pp n pi _ _ _ _
                (repositoryLoop_run env config p pp n pi (S fuel) v h))
      as [ext [Hh [Hext Hprompted]]];
    destruct (repositoryLoop_first env config p pp n pi fuel v h)
      as [ext' Hfirst];
    destruct (repositoryLoop env config (S fuel) p n pi pp v h)
      as [o h']
  end.
  cbn [fst snd] in *. subst h'.
  change (ext' ++ ?e :: h)%list with (ext' ++ [e] ++ h)%list in Hfirst.
  rewrite app_assoc in Hfirst. apply app_inv_tail in Hfirst.
  apply repository_event_no_namespace in Hext.
  assert (Hplain :
    exists above,
      (ext ++ h)%list = (above ++ h)%list /\
      Forall (fun e => isNamespaceEvent e = false) above /\
      (forall later e earlier,
         above = (later ++ e :: earlier)%list ->
         isRepositoryPageLoaded e = true -> promptedNext e later) /\
      exists later' repos err,
        above = (later' ++ [EvGetRepositories providerId (namespaceId nv) 1
                              100 repos err])%list).
  { exists ext. repeat split; try assumption.
    eexists ext', _, _. exact Hfirst. }
  destruct o as [[rv | r] | ]; cbn [fst snd]; try exact Hplain.
  destruct (SkipBranchSelection config); cbn [fst snd]; [exact Hplain | ].
  eexists (_ :: ext). split; [reflexivity | ].
  split; [constructor; [reflexivity | exact Hext] | ]. split.
  - intros later e earlier Hsplit He.
    destruct later as [|x later]; simpl in Hsplit.
    + injection Hsplit as <- _. discriminate He.
    + injection Hsplit as _ Hsplit.
      apply (promptedNext_app e [x] later). exact (Hprompted _ _ _ Hsplit He).
  - eexists (_ :: ext'), _, _. rewrite Hfirst. reflexivity.
Qed.

Lemma providerFlow_prompted fuel views gitProviderConfigId h :
  exists ext,
    snd (providerFlow env config fuel views gitProviderConfigId h)
    = (ext ++ h)%list /\
    forall later e earlier,
      ext = (later ++ e :: earlier)%list ->
      (forall providerId page perPage only,
         e = EvGetNamespaces providerId page perPage [only] None ->
         count isNamespaceEvent earlier = 0%nat ->
         count isNamespaceEvent later = 0%nat /\
         exists later' repos err,
           later = (later' ++ [EvGetRepositories providerId
                                 (GitNamespace.Id only) 1 100 repos
                                 err])%list) /\
      (forall providerId page perPage namespaces,
         e = EvGetNamespaces providerId page perPage namespaces None ->
         length namespaces <> 1%nat \/
         count isNamespaceEvent earlier <> 0%nat ->
         promptedNext e later) /\
      (isRepositoryPageLoaded e = true -> promptedNext e later).
Proof.
  destruct fuel as [|fuel].
  { exists []. split; [reflexivity | ].
    intros later e earlier Hsplit. exfalso.
    eapply app_cons_not_nil. exact Hsplit. }
  unfold providerFlow, bind.
  match goal with
  | |- context [namespaceLoop env config (S fuel) ?p ?pp ?v h] =>
    destruct (NamespaceRun_prompted env config p pp _ _ _ _
                (namespaceLoop_run env config p pp (S fuel) v h))
      as [middle [Hh [Hmiddle Hns]]];
    destruct (namespaceLoop env config (S fuel) p pp v h) as [o h']
  end.
  cbn [fst snd] in *. subst h'.
  set (providerId := lookupProviderId views gitProviderConfigId) in *.
  assert (Habove :
    exists above,
      snd (match o with
           | Done (inl nv) =>
             afterNamespace env config (S fuel) gitProviderConfigId
               providerId nv (middle ++ h)%list
           | Done (inr r) => ret (Done r) (middle ++ h)%list
           | OutOfFuel => ret OutOfFuel (middle ++ h)%list
           end)
      = (above ++ middle ++ h)%list /\
      Forall (fun e => isNamespaceEvent e = false) above /\
      (forall later e earlier,
         above = (later ++ e :: earlier)%list ->
         isRepositoryPageLoaded e = true -> promptedNext e later) /\
      (forall nv,
         o = Done (inl nv) ->
         exists later' repos err,
           above = (later' ++ [EvGetRepositories providerId (namespaceId nv)
                                 1 100 repos err])%list)).
  { destruct o as [[nv | r] | ].
    - destruct (afterNamespace_prompted fuel gitProviderConfigId providerId
                  nv (middle ++ h)%list)
        as [above [Ha [Hno [Hprompted Hfirst]]]].
      exists above. repeat split; try assumption.
      intros nv' Hnv. injection Hnv as <-. exact Hfirst.
    - exists []. repeat split; try constructor.
      + intros later e earlier Hsplit. exfalso.
        eapply app_cons_not_nil. exact Hsplit.
      + intros nv Hnv. discriminate Hnv.
    - exists []. repeat split; try constructor.
      + intros later e earlier Hsplit. exfalso.
        eapply app_cons_not_nil. exact Hsplit.
      + intros nv Hnv. discriminate Hnv. }
  destruct Habove as [above [Ha [Hno [Hprompted Hfirst]]]].
  exists (above ++ middle)%list.
  split.
  { rewrite <- app_assoc, <- Ha. destruct o as [[nv | r] | ]; reflexivity. }
  clear Ha. intros later e earlier Hsplit.
  assert (Hin_above :
    isNamespaceEvent e = true ->
    exists m, later = (above ++ m)%list /\
              middle = (m ++ e :: earlier)%list).
  { intros He.
    destruct (split_app _ _ _ _ _ Hsplit) as [[m [Hl _]] | [m [Hl Hr]]].
    - exfalso. rewrite Hl in Hno.
      apply List.Forall_app in Hno as [_ Hno].
      apply List.Forall_cons_iff in Hno as [Hno _]. congruence.
    - exists m. split; assumption. }
  split; [ | split].
  - intros p page perPage only -> Hcount.
    destruct (Hin_above eq_refl) as [m [-> Hm]].
    assert (Hnil : earlier = []).
    { rewrite Hm in Hmiddle. apply List.Forall_app in Hmiddle as [_ Hmiddle].
      apply List.Forall_cons_iff in Hmiddle as [_ Hmiddle].
      rewrite (count_all _ _ Hmiddle) in Hcount.
      destruct earlier; [reflexivity | discriminate Hcount]. }
    destruct (proj1 (Hns _ _ _ _ _ _ Hm) eq_refl Hnil only eq_refl)
      as [-> [-> [nv [Ho [Hid _]]]]].
    rewrite app_nil_r. split; [apply count_zero; exact Hno | ].
    rewrite <- Hid. exact (Hfirst nv Ho).
  - intros p page perPage namespaces -> Hcase.
    destruct (Hin_above eq_refl) as [m [-> Hm]].
    apply promptedNext_app. apply (proj2 (Hns _ _ _ _ _ _ Hm)).
    right. destruct Hcase as [Hlen | Hcount]; [right; exact Hlen | left].
    intros ->. contradiction Hcount. reflexivity.
  - intros He.
    destruct (split_app _ _ _ _ _ Hsplit) as [[m [Hl _]] | [m [_ Hr]]].
    + exact (Hprompted _ _ _ Hl He).
    + exfalso. rewrite Hr in Hmiddle.
      apply List.Forall_app in Hmiddle as [_ Hmiddle].
      apply List.Forall_cons_iff in Hmiddle as [Hmiddle _].
      destruct e; discriminate.
Qed.

End ShortCircuit.

(** C2.  Over a whole run, split at a namespace or repository query that
    loaded its page.  When the query is the first namespace event of the run
    and loaded exactly one namespace, no namespace prompt and no other
    namespace query follows: the run goes on with the query for the first
    page of repositories of that very namespace.  When the first query
    loaded any other number of namespaces, or the query is a later one, the
    next event is the namespace prompt for the page it loaded.  A repository
    page that was loaded, of whatever size, is always followed by the
    repository prompt for it. *)
Theorem single_namespace_short_circuit
    (env : Env) (config : RepositoryWizardConfig) (fuel : nat)
    (later : History) (e : Event) (earlier : History) :
  snd (getRepositoryFromWizard env config fuel [])
  = (later ++ e :: earlier)%list ->
  (forall providerId page perPage only,
     e = EvGetNamespaces providerId page perPage [only] None ->
     count isNamespaceEvent earlier = 0%nat ->
     count isNamespaceEvent later = 0%nat /\
     exists later' repos err,
       later = (later' ++ [EvGetRepositories providerId
                             (GitNamespace.Id only) 1 100 repos err])%list) /\
  (forall providerId page perPage namespaces,
     e = EvGetNamespaces providerId page perPage namespaces None ->
     length namespaces <> 1%nat \/ count isNamespaceEvent earlier <> 0%nat ->
     promptedNext e later) /\
  (isRepositoryPageLoaded e = true -> promptedNext e later).
Proof.
  revert later e earlier.
  assert (Hexplicit :
    forall (h later : History) e earlier,
      h = (later ++ e :: earlier)%list ->
      Forall (fun e => (stage e <= 4)%nat) h ->
      (forall providerId page perPage namespaces,
         e <> EvGetNamespaces providerId page perPage namespaces None) /\
      isRepositoryPageLoaded e = false).
  { intros h later e earlier -> Hh.
    apply List.Forall_app in Hh as [_ Hh].
    apply List.Forall_cons_iff in Hh as [Hh _].
    split.
    - intros providerId page perPage namespaces He. subst e.
      simpl in Hh. lia.
    - destruct e; simpl in Hh; try reflexivity; lia. }
  wizard_paths env config.
  all: try solve
    [ intros later' ev earlier' Hsplit;
      destruct (Hexplicit _ _ _ _ Hsplit) as [Hns Hrepo];
      [ repeat constructor; simpl; lia
      | split; [ | split];
        [ intros p page perPage only He; contradiction (Hns _ _ _ _ He)
        | intros p page perPage namespaces He;
          contradiction (Hns _ _ _ _ He)
        | congruence ] ] ].
  all: match goal with
       | |- context [providerFlow ?en ?c ?f ?views ?i ?h1] =>
         destruct (providerFlow_prompted en c f views i h1)
           as [ext [Hh Hflow]]; rewrite Hh; clear Hh
       end.
  all: intros later' ev earlier' Hsplit;
    destruct (split_app _ _ _ _ _ Hsplit) as [[m [Hl ->]] | [m [_ Hr]]];
    [ destruct (Hflow _ _ _ Hl) as [Hone [Hmore Hrepo]];
      rewrite count_app; repeat (rewrite count_cons; cbn [isNamespaceEvent]);
      change (count isNamespaceEvent []) with 0%nat;
      rewrite Nat.add_0_r;
      exact (conj Hone (conj Hmore Hrepo))
    | destruct (Hexplicit _ _ _ _ Hr) as [Hns Hrepo];
      [ repeat constructor; simpl; lia
      | split; [ | split];
        [ intros p page perPage only He; contradiction (Hns _ _ _ _ He)
        | intros p page perPage namespaces He;
          contradiction (Hns _ _ _ _ He)
        | congruence ] ] ].
Qed.

Lemma single_namespace_short_circuit_witness :
  snd (getRepositoryFromWizard (scripted singleNamespace) plainConfig 5 [])
  = (afterOnlyAcme ++ onlyAcmeLoaded :: beforeNamespaces)%list /\
  (count isNamespaceEvent afterOnlyAcme = 0%nat /\
   exists later' repos err,
     afterOnlyAcme
     = (later' ++ [EvGetRepositories "github" "acme" 1 100 repos err])%list).
Proof.
  assert (Hh :
    snd (getRepositoryFromWizard (scripted singleNamespace) plainConfig 5 [])
    = (afterOnlyAcme ++ onlyAcmeLoaded :: beforeNamespaces)%list)
    by reflexivity.
  exact (conj Hh
           (proj1 (single_namespace_short_circuit (scripted singleNamespace)
                     plainConfig 5 _ _ _ Hh)
              "github" 1 100 acme eq_refl eq_refl)).
Defined.
